(** * MangaDex library exporter: a shallow embedding of [main.py] and [main2.py]

    The two program variants are embedded in the modules [Main] (main.py)
    and [Main2] (main2.py).  JSON documents are Python values ([Py.value]);
    Python dictionaries are association lists in insertion order;
    the remote services are oracles that answer the requests the code
    sends; exceptions are explicit results. *)

From Stdlib Require Import String Ascii List ZArith QArith Bool Arith Lia Permutation.
Import ListNotations.
Local Close Scope Q_scope.
Local Open Scope string_scope.
Local Open Scope list_scope.

(* ===================================================================== *)
(** * Python values                                                       *)
(* ===================================================================== *)

Module Py.

(** Python floats: the finite ones carry their exact rational value. *)
Inductive pyfloat :=
| FNaN
| FInf (negative : bool)
| FFin (q : Q).

(** JSON documents as [json.loads] builds them. *)
#[warnings="-register-all"]
Inductive value :=
| VNone
| VBool (b : bool)
| VInt (z : Z)
| VFloat (f : pyfloat)
| VStr (s : string)
| VList (l : list value)
| VDict (d : list (string * value)).

(** A [dict] with string keys: association list, keys in insertion order. *)
Definition dict (V : Type) := list (string * V).

Fixpoint dict_get {V} (d : dict V) (k : string) : option V :=
  match d with
  | [] => None
  | (k', v) :: r => if String.eqb k k' then Some v else dict_get r k
  end.

(** [d[k] = v]: overwrite in place, or append a new key. *)
Fixpoint dict_set {V} (d : dict V) (k : string) (v : V) : dict V :=
  match d with
  | [] => [(k, v)]
  | (k', v') :: r =>
      if String.eqb k k' then (k', v) :: r else (k', v') :: dict_set r k v
  end.

(** A dict display [{k1: v1, k2: v2, ...}]: the pairs are stored from left
    to right, so a repeated key keeps its last value. *)
Definition dict_literal {V} (l : list (string * V)) : dict V :=
  fold_left (fun d kv => dict_set d (fst kv) (snd kv)) l [].

Definition dict_values {V} (d : dict V) : list V := map snd d.

(** [k in d] *)
Definition dict_mem {V} (d : dict V) (k : string) : bool :=
  match dict_get d k with Some _ => true | None => false end.

(** [d.get(k, default)] *)
Definition get_default {V} (d : dict V) (k : string) (default : V) : V :=
  match dict_get d k with Some v => v | None => default end.

(** [d.get(k)]: a missing key reads as [None]. *)
Definition get_or_none (d : dict value) (k : string) : value :=
  get_default d k VNone.

Definition float_is_zero (f : pyfloat) : bool :=
  match f with FFin q => Qeq_bool q 0%Q | _ => false end.

(** Truth value testing ([if x:], [x or y], [not x]). *)
Definition truthy (v : value) : bool :=
  match v with
  | VNone => false
  | VBool b => b
  | VInt z => negb (Z.eqb z 0)
  | VFloat f => negb (float_is_zero f)
  | VStr s => negb (String.eqb s EmptyString)
  | VList l => match l with [] => false | _ => true end
  | VDict d => match d with [] => false | _ => true end
  end.

(** [x or y] *)
Definition py_or (x y : value) : value := if truthy x then x else y.

(** [a > b] on floats: every comparison with NaN is false. *)
Definition float_gt (a b : pyfloat) : bool :=
  match a, b with
  | FNaN, _ => false
  | _, FNaN => false
  | FInf false, FInf false => false
  | FInf false, _ => true
  | _, FInf false => false
  | FInf true, _ => false
  | _, FInf true => true
  | FFin p, FFin q => negb (Qle_bool p q)
  end.

(** Numbers the progress code handles: the [int] literal [0] and floats. *)
Inductive pynum :=
| NInt (z : Z)
| NFloat (f : pyfloat).

Definition num_to_float (n : pynum) : pyfloat :=
  match n with NInt z => FFin (inject_Z z) | NFloat f => f end.

(** Mixed int/float comparison is exact in Python. *)
Definition num_gt (a b : pynum) : bool :=
  float_gt (num_to_float a) (num_to_float b).

(** [max(a, b)]: the first argument stays unless the second is greater. *)
Definition max2 (a b : pynum) : pynum := if num_gt b a then b else a.

(** [max(iterable, key=key)] from a first element on: an element replaces
    the current maximum only when its key is strictly greater. *)
Fixpoint max_from {A} (key : A -> pynum) (best : A) (l : list A) : A :=
  match l with
  | [] => best
  | x :: r => max_from key (if num_gt (key x) (key best) then x else best) r
  end.

(** [max(l, key=key)]; [None] stands for the [ValueError] on an empty list. *)
Definition max_by {A} (key : A -> pynum) (l : list A) : option A :=
  match l with
  | [] => None
  | x :: r => Some (max_from key x r)
  end.

(** [int(f)]: truncation toward zero; NaN and the infinities raise. *)
Definition float_to_int (f : pyfloat) : option Z :=
  match f with
  | FFin q => Some (Z.quot (Qnum q) (Z.pos (Qden q)))
  | _ => None
  end.

(** The result of [str(x)].  The text of a float is not spelled out: a
    string is either a literal or the rendering of a number, and
    [float(str(n))] gives the number back. *)
Inductive pystr :=
| SLit (s : string)
| SOfNum (n : pynum).

(** [x in s] for strings: substring test. *)
Fixpoint contains (pat s : string) : bool :=
  if String.prefix pat s then true
  else match s with
       | EmptyString => false
       | String _ r => contains pat r
       end.

(** [l[i:j]] for [0 <= i <= j]. *)
Definition slice {A} (l : list A) (i j : nat) : list A :=
  firstn (j - i) (skipn i l).

(** [range(0, stop, step)] *)
Definition range_step (stop step : nat) : list nat :=
  map (fun k => k * step) (seq 0 ((stop + step - 1) / step)).

(** [float(n)] for an [int]: the nearest double, ties to the even
    mantissa; an [int] of up to 53 bits converts to itself.  [None]
    stands for the OverflowError of an [int] that rounds to [2**1024] or
    more. *)
Definition double_of_int (z : Z) : option pyfloat :=
  let n := Z.abs z in
  let bits := if (n =? 0)%Z then 0%Z else (Z.log2 n + 1)%Z in
  if (bits <=? 53)%Z then Some (FFin (inject_Z z))
  else
    let shift := (bits - 53)%Z in
    let mantissa := Z.shiftr n shift in
    let rest := Z.land n (Z.ones shift) in
    let half := Z.shiftl 1 (shift - 1) in
    let mantissa' :=
      if (half <? rest)%Z || ((rest =? half)%Z && Z.odd mantissa)
      then (mantissa + 1)%Z else mantissa in
    let rounded := Z.shiftl mantissa' shift in
    if (Z.shiftl 1 1024 <=? rounded)%Z then None
    else Some (FFin (inject_Z (Z.sgn z * rounded))).

Section Builtins.
(** The string parsers of the Python runtime, [float(s)] and [int(s)]
    on a [str]; [None] stands for [ValueError]. *)
Variable float_of_string : string -> option pyfloat.
Variable int_of_string : string -> option Z.

(** [float(v)]; [None] stands for [TypeError], [ValueError] or
    [OverflowError]. *)
Definition py_float (v : value) : option pyfloat :=
  match v with
  | VStr s => float_of_string s
  | VInt z => double_of_int z
  | VBool b => Some (FFin (if b then 1%Q else 0%Q))
  | VFloat f => Some f
  | VNone | VList _ | VDict _ => None
  end.

(** [int(v)] *)
Definition py_int (v : value) : option Z :=
  match v with
  | VStr s => int_of_string s
  | VInt z => Some z
  | VBool b => Some (if b then 1 else 0)%Z
  | VFloat f => float_to_int f
  | VNone | VList _ | VDict _ => None
  end.

(** [float(s)] on the result of [str]. *)
Definition float_of_pystr (s : pystr) : option pyfloat :=
  match s with
  | SLit s => float_of_string s
  | SOfNum n => Some (num_to_float n)
  end.
End Builtins.

End Py.

(* ===================================================================== *)
(** * HTTP: requests, responses, exceptions and the process state        *)
(* ===================================================================== *)

Module Http.
Import Py.

(** The exceptions the code distinguishes.  [ConnectionError] and
    [Timeout] are the two classes of [requests.exceptions] the retry loop
    catches; [HTTPError] is what [raise_for_status] raises. *)
Inductive exn :=
| ConnectionError
| Timeout
| HTTPError (status : Z)
| ValueError (msg : string)
| JSONDecodeError
| OtherError (name : string).

Inductive result (A : Type) :=
| Ok (a : A)
| Raise (e : exn).
Arguments Ok {A} a.
Arguments Raise {A} e.

(** A header value: a literal, or the f-string [f"Bearer {v}"]. *)
Inductive hval :=
| HLit (s : string)
| HBearer (v : value).

(** The arguments of [requests.request(method, url, **kwargs)]:
    [headers = None] when the keyword is not passed; [payload] is the
    [json=] or [params=] argument. *)
Record request := mkRequest {
  method : string;
  url : string;
  headers : option (dict hval);
  payload : value
}.

(** A response: its status and [resp.json()] ([None] when the body does
    not decode). *)
Record response := mkResponse {
  status_code : Z;
  json : option value
}.

(** What one call of [requests.request] does. *)
Inductive net_outcome :=
| NetRaise (e : exn)
| NetResp (r : response).

(** The network answers the [n]-th call of the process, knowing the
    request. *)
Definition network := nat -> request -> net_outcome.

Inductive event :=
| ERequest (r : request)
| ESleep (seconds : Z).

(** The module globals, the number of calls sent so far and the trace of
    calls and sleeps.  main.py has no [SESSION_CREDENTIALS]. *)
Record world := mkWorld {
  SESSION_TOKENS : option value;
  SESSION_CREDENTIALS : option (string * string);
  sent : nat;
  trace : list event
}.

Definition send (w : world) (r : request) : world :=
  mkWorld (SESSION_TOKENS w) (SESSION_CREDENTIALS w) (S (sent w))
          (trace w ++ [ERequest r]).

(** [time.sleep(seconds)] *)
Definition sleep (seconds : Z) (w : world) : world :=
  mkWorld (SESSION_TOKENS w) (SESSION_CREDENTIALS w) (sent w)
          (trace w ++ [ESleep seconds]).

(** [response.raise_for_status()]: the exception it raises, if any. *)
Definition raise_for_status (r : response) : option exn :=
  if ((400 <=? status_code r) && (status_code r <? 600))%Z
  then Some (HTTPError (status_code r)) else None.

(** [except ValueError]: [JSONDecodeError], which [resp.json()] raises
    on a body that is no JSON, is a subclass of [ValueError]. *)
Definition is_value_error (e : exn) : bool :=
  match e with ValueError _ | JSONDecodeError => true | _ => false end.

(** [except (ConnectionError, Timeout)] *)
Definition is_network_failure (e : exn) : bool :=
  match e with ConnectionError | Timeout => true | _ => false end.

(** [v[k]] *)
Definition subscript (v : value) (k : string) : result value :=
  match v with
  | VDict d => match dict_get d k with
               | Some x => Ok x
               | None => Raise (OtherError "KeyError")
               end
  | _ => Raise (OtherError "TypeError")
  end.

Definition MANGADEX_API : string := "https://api.mangadex.org".
Definition LOGIN_ENDPOINT : string := MANGADEX_API ++ "/auth/login".
Definition MANGA_LIBRARY_ENDPOINT : string := MANGADEX_API ++ "/manga/status".

End Http.

(* ===================================================================== *)
(** * main.py                                                            *)
(* ===================================================================== *)

Module Main.
Import Py Http.

(** [iso6391_to_language] (main.py, lines 422-461). *)
Definition special : dict string :=
  dict_literal
    [
     ("zh", "Simplified Chinese"); ("zh-hk", "Traditional Chinese");
     ("pt-br", "Brazilian Portuguese"); ("es", "Castilian Spanish");
     ("es-la", "Latin American Spanish"); ("ja-ro", "Romanized Japanese");
     ("ko-ro", "Romanized Korean"); ("zh-ro", "Romanized Chinese")
    ].

Definition iso_map : dict string :=
  dict_literal
    [
     ("en", "English"); ("ja", "Japanese"); ("ko", "Korean");
     ("zh", "Chinese"); ("fr", "French"); ("de", "German"); ("es", "Spanish");
     ("it", "Italian"); ("ru", "Russian"); ("pt", "Portuguese");
     ("pl", "Polish"); ("id", "Indonesian"); ("tr", "Turkish");
     ("ar", "Arabic"); ("th", "Thai"); ("vi", "Vietnamese"); ("cs", "Czech");
     ("ms", "Malay"); ("ro", "Romanian"); ("uk", "Ukrainian");
     ("hu", "Hungarian"); ("bg", "Bulgarian"); ("fa", "Persian");
     ("he", "Hebrew"); ("hi", "Hindi"); ("bn", "Bengali"); ("el", "Greek");
     ("sv", "Swedish"); ("fi", "Finnish"); ("da", "Danish");
     ("no", "Norwegian"); ("nl", "Dutch"); ("ca", "Catalan");
     ("sr", "Serbian"); ("hr", "Croatian"); ("sk", "Slovak");
     ("sl", "Slovenian"); ("et", "Estonian"); ("lv", "Latvian");
     ("lt", "Lithuanian"); ("ta", "Tamil"); ("te", "Telugu");
     ("ml", "Malayalam"); ("kn", "Kannada"); ("mr", "Marathi");
     ("gu", "Gujarati"); ("pa", "Punjabi"); ("ur", "Urdu"); ("my", "Burmese");
     ("km", "Khmer"); ("lo", "Lao"); ("si", "Sinhala"); ("am", "Amharic");
     ("sw", "Swahili"); ("zu", "Zulu"); ("xh", "Xhosa");
     ("st", "Southern Sotho"); ("tn", "Tswana"); ("ts", "Tsonga");
     ("ss", "Swati"); ("ve", "Venda"); ("nr", "Southern Ndebele");
     ("nd", "Northern Ndebele"); ("af", "Afrikaans"); ("sq", "Albanian");
     ("bs", "Bosnian"); ("mk", "Macedonian"); ("mt", "Maltese");
     ("ga", "Irish"); ("cy", "Welsh"); ("gd", "Scottish Gaelic");
     ("br", "Breton"); ("eu", "Basque"); ("gl", "Galician");
     ("oc", "Occitan"); ("lb", "Luxembourgish"); ("is", "Icelandic");
     ("fo", "Faroese"); ("kl", "Greenlandic"); ("sm", "Samoan");
     ("to", "Tongan"); ("fj", "Fijian"); ("mi", "Maori"); ("qu", "Quechua");
     ("ay", "Aymara"); ("gn", "Guarani"); ("tt", "Tatar"); ("ba", "Bashkir");
     ("cv", "Chuvash"); ("ce", "Chechen"); ("os", "Ossetian");
     ("av", "Avaric"); ("kv", "Komi"); ("cu", "Church Slavic");
     ("tk", "Turkmen"); ("ky", "Kyrgyz"); ("kk", "Kazakh"); ("uz", "Uzbek");
     ("tg", "Tajik"); ("mn", "Mongolian"); ("ne", "Nepali");
     ("si", "Sinhala"); ("ps", "Pashto"); ("sd", "Sindhi"); ("ug", "Uyghur");
     ("uz", "Uzbek"); ("kk", "Kazakh"); ("ky", "Kyrgyz"); ("tk", "Turkmen");
     ("az", "Azerbaijani"); ("ka", "Georgian"); ("hy", "Armenian");
     ("ab", "Abkhazian"); ("os", "Ossetian"); ("cv", "Chuvash");
     ("ba", "Bashkir"); ("tt", "Tatar"); ("sah", "Yakut"); ("ce", "Chechen");
     ("cu", "Church Slavic"); ("cv", "Chuvash"); ("kv", "Komi");
     ("av", "Avaric"); ("ae", "Avestan"); ("nr", "Southern Ndebele");
     ("ss", "Swati"); ("st", "Southern Sotho"); ("tn", "Tswana");
     ("ts", "Tsonga"); ("ve", "Venda"); ("xh", "Xhosa"); ("zu", "Zulu")
    ].

Definition iso6391_to_language (code : string) : string :=
  if dict_mem special code then get_default special code code
  else if dict_mem iso_map code then get_default iso_map code code
  else code.

Section Transport.
Variable net : network.

(** [request_with_retry] (main.py, lines 533-550): the body of
    [for attempt in range(max_retries)], over the attempts left.
    Falling out of the loop returns [None]. *)
Fixpoint retry_loop (max_retries : nat) (delay : Z) (attempts : list nat)
         (kwargs : request) (w : world) : result (option response) * world :=
  match attempts with
  | [] => (Ok None, w)
  | attempt :: rest =>
      let w1 := send w kwargs in
      match net (sent w) kwargs with
      | NetResp response =>
          match raise_for_status response with
          | Some e => (Raise e, w1)
          | None => (Ok (Some response), w1)
          end
      | NetRaise e =>
          if is_network_failure e then
            if (attempt <? max_retries - 1)%nat
            then retry_loop max_retries delay rest kwargs (sleep delay w1)
            else (Raise e, w1)
          else (Raise e, w1)
      end
  end.

Definition request_with_retry (kwargs : request) (max_retries : nat)
           (delay : Z) (w : world) : result (option response) * world :=
  retry_loop max_retries delay (seq 0 max_retries) kwargs w.
End Transport.

End Main.

(* ===================================================================== *)
(** * main2.py                                                           *)
(* ===================================================================== *)

Module Main2.
Import Py Http.

(** [iso6391_to_language] (main2.py, lines 562-601). *)
Definition special : dict string :=
  dict_literal
    [
     ("zh", "Simplified Chinese"); ("zh-hk", "Traditional Chinese");
     ("pt-br", "Brazilian Portuguese"); ("es", "Castilian Spanish");
     ("es-la", "Latin American Spanish"); ("ja-ro", "Romanized Japanese");
     ("ko-ro", "Romanized Korean"); ("zh-ro", "Romanized Chinese")
    ].

Definition iso_map : dict string :=
  dict_literal
    [
     ("en", "English"); ("ja", "Japanese"); ("ko", "Korean");
     ("zh", "Chinese"); ("fr", "French"); ("de", "German"); ("es", "Spanish");
     ("it", "Italian"); ("ru", "Russian"); ("pt", "Portuguese");
     ("pl", "Polish"); ("id", "Indonesian"); ("tr", "Turkish");
     ("ar", "Arabic"); ("th", "Thai"); ("vi", "Vietnamese"); ("cs", "Czech");
     ("ms", "Malay"); ("ro", "Romanian"); ("uk", "Ukrainian");
     ("hu", "Hungarian"); ("bg", "Bulgarian"); ("fa", "Persian");
     ("he", "Hebrew"); ("hi", "Hindi"); ("bn", "Bengali"); ("el", "Greek");
     ("sv", "Swedish"); ("fi", "Finnish"); ("da", "Danish");
     ("no", "Norwegian"); ("nl", "Dutch"); ("ca", "Catalan");
     ("sr", "Serbian"); ("hr", "Croatian"); ("sk", "Slovak");
     ("sl", "Slovenian"); ("et", "Estonian"); ("lv", "Latvian");
     ("lt", "Lithuanian"); ("ta", "Tamil"); ("te", "Telugu");
     ("ml", "Malayalam"); ("kn", "Kannada"); ("mr", "Marathi");
     ("gu", "Gujarati"); ("pa", "Punjabi"); ("ur", "Urdu"); ("my", "Burmese");
     ("km", "Khmer"); ("lo", "Lao"); ("si", "Sinhala"); ("am", "Amharic");
     ("sw", "Swahili"); ("zu", "Zulu"); ("xh", "Xhosa");
     ("st", "Southern Sotho"); ("tn", "Tswana"); ("ts", "Tsonga");
     ("ss", "Swati"); ("ve", "Venda"); ("nr", "Southern Ndebele");
     ("nd", "Northern Ndebele"); ("af", "Afrikaans"); ("sq", "Albanian");
     ("bs", "Bosnian"); ("mk", "Macedonian"); ("mt", "Maltese");
     ("ga", "Irish"); ("cy", "Welsh"); ("gd", "Scottish Gaelic");
     ("br", "Breton"); ("eu", "Basque"); ("gl", "Galician");
     ("oc", "Occitan"); ("lb", "Luxembourgish"); ("is", "Icelandic");
     ("fo", "Faroese"); ("kl", "Greenlandic"); ("sm", "Samoan");
     ("to", "Tongan"); ("fj", "Fijian"); ("mi", "Maori"); ("qu", "Quechua");
     ("ay", "Aymara"); ("gn", "Guarani"); ("tt", "Tatar"); ("ba", "Bashkir");
     ("cv", "Chuvash"); ("ce", "Chechen"); ("os", "Ossetian");
     ("av", "Avaric"); ("kv", "Komi"); ("cu", "Church Slavic");
     ("tk", "Turkmen"); ("ky", "Kyrgyz"); ("kk", "Kazakh"); ("uz", "Uzbek");
     ("tg", "Tajik"); ("mn", "Mongolian"); ("ne", "Nepali");
     ("si", "Sinhala"); ("ps", "Pashto"); ("sd", "Sindhi"); ("ug", "Uyghur");
     ("uz", "Uzbek"); ("kk", "Kazakh"); ("ky", "Kyrgyz"); ("tk", "Turkmen");
     ("az", "Azerbaijani"); ("ka", "Georgian"); ("hy", "Armenian");
     ("ab", "Abkhazian"); ("os", "Ossetian"); ("cv", "Chuvash");
     ("ba", "Bashkir"); ("tt", "Tatar"); ("sah", "Yakut"); ("ce", "Chechen");
     ("cu", "Church Slavic"); ("cv", "Chuvash"); ("kv", "Komi");
     ("av", "Avaric"); ("ae", "Avestan"); ("nr", "Southern Ndebele");
     ("ss", "Swati"); ("st", "Southern Sotho"); ("tn", "Tswana");
     ("ts", "Tsonga"); ("ve", "Venda"); ("xh", "Xhosa"); ("zu", "Zulu")
    ].

Definition iso6391_to_language (code : string) : string :=
  if dict_mem special code then get_default special code code
  else if dict_mem iso_map code then get_default iso_map code code
  else code.

(** ** Session management (lines 19-51) *)

(** [save_session(tokens, credentials=None)] *)
Definition save_session (tokens : value) (credentials : option (string * string))
           (w : world) : world :=
  mkWorld (Some tokens)
          (match credentials with
           | Some c => Some c
           | None => SESSION_CREDENTIALS w
           end)
          (sent w) (trace w).

Definition load_session (w : world) : option value := SESSION_TOKENS w.

Definition load_credentials (w : world) : option (string * string) :=
  SESSION_CREDENTIALS w.

(** ** Transport layer (lines 23-36 and 673-714) *)

(** A computation on the process state.  [None] stands for the
    RecursionError of Python: [login] and [request_with_retry] call each
    other, and the interpreter raises it when the nesting passes its
    limit; neither function catches it, so it ends every call on the
    way out. *)
Definition run (A : Type) := world -> option (result A * world).

Definition login_request (username password : string) : request :=
  mkRequest "POST" LOGIN_ENDPOINT None
            (VDict [("username", VStr username); ("password", VStr password)]).

(** [v == s] for a string literal [s]. *)
Definition is_str (v : value) (s : string) : bool :=
  match v with VStr t => String.eqb t s | _ => false end.

(** The assignments to [kwargs['headers']] of lines 689-692. *)
Definition set_authorization (kwargs : request) (session : value) : request :=
  match headers kwargs with
  | Some (h :: hs) =>
      mkRequest (method kwargs) (url kwargs)
                (Some (dict_set (h :: hs) "Authorization" (HBearer session)))
                (payload kwargs)
  | _ =>
      mkRequest (method kwargs) (url kwargs)
                (Some [("Authorization", HBearer session)])
                (payload kwargs)
  end.

(** [tokens['token']['session']] *)
Definition session_of (tokens : value) : result value :=
  match subscript tokens "token" with
  | Ok t => subscript t "session"
  | Raise e => Raise e
  end.

Section Transport.
Variable net : network.

(** [login] (lines 23-36), over the [request_with_retry] it calls. *)
Definition login_with
           (request_with_retry : request -> run (option response))
           (username password : string) : run value :=
  fun w =>
    match request_with_retry (login_request username password) w with
    | None => None
    | Some (Raise e, w1) => Some (Raise e, w1)
    | Some (Ok None, w1) => Some (Raise (OtherError "AttributeError"), w1)
    | Some (Ok (Some resp), w1) =>
        let finish :=
          match raise_for_status resp with
          | Some e => Some (Raise e, w1)
          | None =>
              match json resp with
              | Some tokens => Some (Ok tokens, w1)
              | None => Some (Raise JSONDecodeError, w1)
              end
          end in
        if (status_code resp =? 401)%Z then
          match json resp with
          | Some (VDict error_data) =>
              if is_str (get_or_none error_data "result") "error"
              then Some (Raise (ValueError "Login failed: Invalid credentials (401)"), w1)
              else finish
          | _ => Some (Raise (ValueError "Login failed: Invalid credentials (401)"), w1)
          end
        else finish
    end.

Section Loop.
Variable login : string -> string -> run value.
Variable max_retries : nat.
Variable delay : Z.

(** The [except] clauses of the outer [try] (lines 705-714): a network
    failure sleeps and goes to the next attempt unless this was the
    last one; anything else is raised again. *)
Definition handlers (attempt : nat) (next : request -> run (option response))
           (e : exn) (kwargs : request) : run (option response) :=
  fun w =>
    if is_network_failure e then
      if (attempt <? max_retries - 1)%nat
      then next kwargs (sleep delay w)
      else Some (Raise e, w)
    else Some (Raise e, w).

(** The body of [for attempt in range(max_retries)] (lines 676-714).
    [kwargs] is carried along because line 690/692 updates it. *)
Fixpoint retry_loop (attempts : list nat) (kwargs : request)
         : run (option response) :=
  fun w =>
    match attempts with
    | [] => Some (Ok None, w)
    | attempt :: rest =>
        let except := handlers attempt (retry_loop rest) in
        let w1 := send w kwargs in
        match net (sent w) kwargs with
        | NetRaise e => except e kwargs w1
        | NetResp response =>
            let finish :=
              match raise_for_status response with
              | Some e => except e kwargs w1
              | None => Some (Ok (Some response), w1)
              end in
            if (status_code response =? 401)%Z then
              let credentials :=
                if negb (contains "LOGIN_ENDPOINT" (url kwargs))
                then load_credentials w1 else None in
              match credentials with
              | Some (username, password) =>
                  match login username password w1 with
                  | None => None
                  | Some (Raise e, w2) => except e kwargs w2
                  | Some (Ok tokens, w2) =>
                      let w3 := save_session tokens credentials w2 in
                      match session_of tokens with
                      | Raise e => except e kwargs w3
                      | Ok session =>
                          let kwargs' := set_authorization kwargs session in
                          let w4 := send w3 kwargs' in
                          match net (sent w3) kwargs' with
                          | NetRaise e => except e kwargs' w4
                          | NetResp response' =>
                              match raise_for_status response' with
                              | Some e => except e kwargs' w4
                              | None => Some (Ok (Some response'), w4)
                              end
                          end
                      end
                  end
              | None =>
                  match raise_for_status response with
                  | Some e => except e kwargs w1
                  | None => finish
                  end
              end
            else finish
        end
    end.
End Loop.

(** [request_with_retry(method, url, max_retries=6, delay=10, **kwargs)].
    [login] calls it with the defaults.  [depth] is the recursion limit:
    how many calls of [request_with_retry] may be nested through
    [login] before RecursionError is raised. *)
Fixpoint request_with_retry (depth : nat) (kwargs : request)
         (max_retries : nat) (delay : Z) : run (option response) :=
  match depth with
  | 0 => fun _ => None
  | S depth' =>
      retry_loop
        (login_with (fun r => request_with_retry depth' r 6 10%Z))
        max_retries delay (seq 0 max_retries) kwargs
  end.

Definition login (depth : nat) : string -> string -> run value :=
  login_with (fun r => request_with_retry depth r 6 10%Z).
End Transport.


(** ** The library items *)

(** The [attributes] object of a manga, for the keys the exporters read.
    [links = None] when the key is absent; the value itself may be
    anything (the code tests [isinstance(links, dict)]). *)
Record manga_attributes := mkAttributes {
  title : dict value;
  links : option value;
  attr_reading_status : option string
}.

(** A manga object of the [/manga] endpoint, with the keys that
    [get_manga_info] adds.  An optional field is an absent key. *)
Record manga := mkManga {
  id : option string;
  attributes : manga_attributes;
  reading_status : option string;
  read_chapter : option pystr;
  read_volume : option pystr;
  user_rating : option value
}.

Definition set_reading_status (m : manga) (s : string) : manga :=
  mkManga (id m) (attributes m) (Some s) (read_chapter m) (read_volume m)
          (user_rating m).

Definition set_progress (m : manga) (c v : pystr) : manga :=
  mkManga (id m) (attributes m) (reading_status m) (Some c) (Some v)
          (user_rating m).

Definition set_user_rating (m : manga) (r : value) : manga :=
  mkManga (id m) (attributes m) (reading_status m) (read_chapter m)
          (read_volume m) (Some r).

(** A chapter object of the feed; [ch_attributes = None] when the object
    has no usable ['attributes']. *)
Record chapter := mkChapter {
  ch_id : string;
  ch_type : string;
  ch_attributes : option (dict value)
}.

(** ['data'] of the [/manga/read] answer: a list when nothing is read, an
    object (manga id to chapter ids) otherwise. *)
Inductive read_data :=
| ReadList
| ReadDict (d : dict (list string)).

(** ['ratings'] of the [/rating] answer. *)
Inductive ratings_data :=
| RatingsDict (d : dict (dict value))
| RatingsOther.

(** The source service as [get_manga_info] sees it through
    [request_with_retry]: what each call site gets back. *)
Record mangadex := mkMangadex {
  (** lines 108-111; [None]: the [try] block raised *)
  settings : option (list string);
  (** lines 157-159: [resp.json().get("data", [])], or the exception *)
  manga_batch : list string -> result (list manga);
  (** lines 163-164; [None]: the [try] block raised *)
  read_batch : list string -> option read_data;
  (** lines 175-177 *)
  rating_batch : list string -> option ratings_data;
  (** lines 142-143: [chapter_data['data']] for a manga id and the
      languages; [None]: the [try] block raised *)
  feed : string -> list string -> option (list chapter)
}.

(** ** Metadata enrichment: [get_manga_info] (lines 103-233) *)

Section Enrichment.
Variable float_of_string : string -> option pyfloat.
Variable srv : mangadex.

Definition batch_size : nat := 100.

(** [[manga_ids[i:i+batch_size] for i in range(0, len(manga_ids), batch_size)]] *)
Definition batches (manga_ids : list string) : list (list string) :=
  map (fun i => slice manga_ids i (i + batch_size))
      (range_step (length manga_ids) batch_size).

(** [fetch_chapter_list] (lines 130-149); the one-second cooldown has
    no effect on the result. *)
Definition fetch_chapter_list (manga_id : string) (user_language : list string)
           (read_chapter_ids : list string) : list chapter :=
  match feed srv manga_id user_language with
  | Some data =>
      filter (fun c => String.eqb (ch_type c) "chapter"
                       && existsb (String.eqb (ch_id c)) read_chapter_ids)
             data
  | None => []
  end.

(** [parse_chapter_num] (lines 204-208) *)
Definition parse_chapter_num (ch : chapter) : pynum :=
  match ch_attributes ch with
  | Some attrs =>
      match py_float float_of_string
                     (py_or (get_or_none attrs "chapter") (VInt 0)) with
      | Some f => NFloat f
      | None => NInt 0
      end
  | None => NInt 0
  end.

(** [parse_volume_num] (lines 209-214) *)
Definition parse_volume_num (ch : chapter) : pynum :=
  match ch_attributes ch with
  | Some attrs =>
      match get_or_none attrs "volume" with
      | VNone => NInt 0
      | v => match py_float float_of_string v with
             | Some f => NFloat f
             | None => NInt 0
             end
      end
  | None => NInt 0
  end.

(** Lines 215-222: the progress pair of a fetched chapter list. *)
Definition progress_of (chapters : list chapter) : pystr * pystr :=
  match chapters with
  | c :: r =>
      let max_chapter := max_from parse_chapter_num c r in
      let max_volume := max_from parse_volume_num c r in
      (SOfNum (max2 (parse_chapter_num max_chapter) (NInt 0)),
       SOfNum (max2 (parse_volume_num max_volume) (NInt 0)))
  | [] => (SLit "0", SLit "0")
  end.

(** Lines 224-229: the rating of a manga in the batch rating map. *)
Definition rating_of (ratings_map : dict (dict value)) (manga_id : option string)
           : value :=
  match manga_id with
  | Some i =>
      match dict_get ratings_map i with
      | Some rating_info =>
          if negb (Nat.eqb (length rating_info) 0)
             && dict_mem rating_info "rating"
          then get_default rating_info "rating" (VInt 0)
          else VInt 0
      | None => VInt 0
      end
  | None => VInt 0
  end.

Section Batch.
Variable status_map : dict string.
Variable user_language : list string.
Variable read_status_map : dict (list string).
Variable ratings_map : dict (dict value).

(** Lines 185-187 *)
Definition attach_status (m : manga) : manga :=
  match id m with
  | Some manga_id =>
      if negb (String.eqb manga_id EmptyString)
      then match dict_get status_map manga_id with
           | Some status => set_reading_status m status
           | None => m
           end
      else m
  | None => m
  end.

(** One round of the first loop (lines 184-201): the updated manga and,
    when a chapter fetch was submitted, what the future will hold.
    [read_chapter_ids] is [set(read_status_map.get(manga_id, []))],
    which is empty when the manga has no id. *)
Definition submit (m : manga) : manga * option (list chapter) :=
  let m1 := attach_status m in
  let skip := (set_progress m1 (SLit "0") (SLit "0"), None) in
  match id m with
  | Some manga_id =>
      match get_default read_status_map manga_id [] with
      | [] => skip
      | read_chapter_ids =>
          (m1, Some (fetch_chapter_list manga_id user_language
                                        read_chapter_ids))
      end
  | None => skip
  end.

(** The first loop: [data] after it, and [futures], each future with
    the position in [data] of the manga object it was stored with. *)
Fixpoint first_loop (pos : nat) (data : list manga)
         : list manga * list (nat * list chapter) :=
  match data with
  | [] => ([], [])
  | m :: rest =>
      let '(m', fut) := submit m in
      let '(rest', futures) := first_loop (S pos) rest in
      (m' :: rest',
       match fut with
       | Some chapters => (pos, chapters) :: futures
       | None => futures
       end)
  end.

(** One round of the second loop (lines 203-231). *)
Definition merge (chapters : list chapter) (m : manga) : manga :=
  let '(c, v) := progress_of chapters in
  set_user_rating (set_progress m c v) (rating_of ratings_map (id m)).

(** Update of the object at position [pos] of [data]. *)
Fixpoint update_at (pos : nat) (f : manga -> manga) (data : list manga)
         : list manga :=
  match data, pos with
  | [], _ => []
  | m :: rest, 0 => f m :: rest
  | m :: rest, S p => m :: update_at p f rest
  end.

Definition second_loop (futures : list (nat * list chapter))
           (data : list manga) : list manga :=
  fold_left (fun d fut => update_at (fst fut) (merge (snd fut)) d)
            futures data.

(** Lines 182-231 for one batch. *)
Definition process_batch (data : list manga) : list manga :=
  let '(data', futures) := first_loop 0 data in
  second_loop futures data'.
End Batch.

(** Line 186 when [status_map] is [None], the default of the signature:
    [manga_id in status_map] raises TypeError for the first object whose
    id is true; an object without a true id skips the test. *)
Definition membership_raises (data : list manga) : bool :=
  existsb (fun m => match id m with
                    | Some manga_id => negb (String.eqb manga_id EmptyString)
                    | None => false
                    end) data.

(** Lines 150-232: the batches in turn.  A failed metadata call raises
    out of the function, and so does line 186 when [status_map] is
    [None]; when no object has a true id the loops run as with an empty
    map, whose membership test is always false. *)
Fixpoint batch_loop (status_map : option (dict string))
         (user_language : list string)
         (todo : list (list string)) (all_info : list manga)
         : result (list manga) :=
  match todo with
  | [] => Ok all_info
  | batch :: rest =>
      match manga_batch srv batch with
      | Raise e => Raise e
      | Ok data =>
          let read_status_map :=
            match read_batch srv batch with
            | Some (ReadDict d) => d
            | Some ReadList => []
            | None => []
            end in
          let ratings_map :=
            match rating_batch srv batch with
            | Some (RatingsDict d) => d
            | Some RatingsOther => []
            | None => []
            end in
          match status_map with
          | Some d =>
              batch_loop status_map user_language rest
                         (all_info ++ process_batch d user_language
                                                    read_status_map ratings_map
                                                    data)
          | None =>
              if membership_raises data then Raise (OtherError "TypeError")
              else batch_loop status_map user_language rest
                              (all_info ++ process_batch [] user_language
                                                         read_status_map
                                                         ratings_map data)
          end
      end
  end.

(** [status_map] is [None] when the argument is left out. *)
Definition get_manga_info (manga_ids : list string)
           (status_map : option (dict string)) : result (list manga) :=
  let user_language :=
    match settings srv with Some l => l | None => ["en"] end in
  batch_loop status_map user_language (batches manga_ids) [].
End Enrichment.


(** ** Sinks *)

(** The calls a function hands a list of items to. *)
Inductive sink_call :=
| SyncToAnilist (mangas : list manga)
| ExportXml (manga_info_list : list manga) (filename : string)
| ExportUnlinkedCsv (unlinked : list manga) (filename : string).

(** [attributes.get('links')] *)
Definition links_get (m : manga) : value :=
  match links (attributes m) with Some v => v | None => VNone end.

(** [attributes.get('links', {})] *)
Definition links_get_default (m : manga) : value :=
  match links (attributes m) with Some v => v | None => VDict [] end.

(** [links.get(k) if isinstance(links, dict) else None] *)
Definition link (links : value) (k : string) : value :=
  match links with VDict d => get_or_none d k | _ => VNone end.

(** ** Partitioner: [import_to_anilist_then_export] (lines 717-740) *)

Record partition := mkPartition {
  manga_with_alid : list manga;
  manga_with_malid : list manga;
  manga_unlinked : list manga
}.

(** The body of the loop of lines 722-732. *)
Definition classify (p : partition) (m : manga) : partition :=
  let links := links_get_default m in
  let al_id := link links "al" in
  let mal_id := link links "mal" in
  if truthy al_id then
    mkPartition (manga_with_alid p ++ [m]) (manga_with_malid p) (manga_unlinked p)
  else if truthy mal_id then
    mkPartition (manga_with_alid p) (manga_with_malid p ++ [m]) (manga_unlinked p)
  else
    mkPartition (manga_with_alid p) (manga_with_malid p) (manga_unlinked p ++ [m]).

Definition split_by_links (manga_info : list manga) : partition :=
  fold_left classify manga_info (mkPartition [] [] []).

(** Lines 733-740: the sinks called, in order. *)
Definition import_to_anilist_then_export (manga_info : list manga)
           : list sink_call :=
  let p := split_by_links manga_info in
  (match manga_with_alid p with
   | [] => []
   | l => [SyncToAnilist l]
   end)
  ++ (match manga_with_malid p with
      | [] => []
      | l => [ExportXml l "export/manga_library.xml"]
      end)
  ++ (match manga_unlinked p with
      | [] => []
      | l => [ExportUnlinkedCsv l "export/unlinked.csv"]
      end).

(** ** Import XML: [export_manga_list_to_xml] (lines 343-455) *)

(** The text of an element: a literal, a value of the item (written as
    is, or through [str]), a progress string, [str] of a counter, or the
    CDATA section the last pass wraps a text in. *)
Inductive xtext :=
| XLit (s : string)
| XValue (v : value)
| XStr (s : pystr)
| XNat (n : nat)
| XCData (t : xtext).

#[warnings="-register-all"]
Inductive xml :=
| Element (tag : string) (text : option xtext) (children : list xml).

Definition tag_of (e : xml) : string :=
  match e with Element t _ _ => t end.

Definition children_of (e : xml) : list xml :=
  match e with Element _ _ c => c end.

Definition text_of (e : xml) : option xtext :=
  match e with Element _ t _ => t end.

(** [ET.SubElement(parent, tag).text = t] *)
Definition leaf (tag : string) (t : xtext) : xml := Element tag (Some t) [].

Definition manga_status_map : dict string :=
  dict_literal
    [("reading", "Reading"); ("completed", "Completed");
     ("on_hold", "On-Hold"); ("dropped", "Dropped");
     ("plan_to_read", "Plan to Read"); ("re_reading", "Reading")].

(** [mal_id] of lines 370-374 *)
Definition mal_id_of (m : manga) : value := link (links_get m) "mal".

(** Lines 381-385 *)
Definition xml_status (m : manga) : string :=
  let reading_status :=
    match reading_status m with
    | Some s => if String.eqb s EmptyString then None else Some s
    | None => None
    end in
  let reading_status :=
    match reading_status with
    | Some s => s
    | None => match attr_reading_status (attributes m) with
              | Some s => s
              | None => "plan_to_read"
              end
    end in
  get_default manga_status_map reading_status "Reading".

(** [title_dict.get('en') or next(iter(title_dict.values()), '')] *)
Definition title_of (m : manga) : value :=
  let title_dict := title (attributes m) in
  py_or (get_or_none title_dict "en")
        (match dict_values title_dict with v :: _ => v | [] => VStr EmptyString end).

(** Lines 396-421: the entry element of an exported item. *)
Definition manga_elem (m : manga) (mal_id : value) (status : string) : xml :=
  Element "manga" None
    [ leaf "manga_mangadb_id" (XValue mal_id);
      leaf "manga_title" (XValue (title_of m));
      leaf "manga_volumes" (XLit "0");
      leaf "manga_chapters" (XLit "0");
      leaf "my_id" (XLit "0");
      leaf "my_read_volumes"
           (XStr (match read_volume m with Some s => s | None => SLit "0" end));
      leaf "my_read_chapters"
           (XStr (match read_chapter m with Some s => s | None => SLit "0" end));
      leaf "my_start_date" (XLit "0000-00-00");
      leaf "my_finish_date" (XLit "0000-00-00");
      leaf "my_scanalation_group" (XLit EmptyString);
      leaf "my_score"
           (XValue (match user_rating m with Some r => r | None => VStr "0" end));
      leaf "my_storage" (XLit " ");
      leaf "my_retail_volumes" (XLit "0");
      leaf "my_status" (XLit status);
      leaf "my_comments" (XLit " ");
      leaf "my_times_read" (XLit "0");
      leaf "my_tags" (XLit EmptyString);
      leaf "my_priority" (XLit "Low");
      leaf "my_reread_value" (XLit EmptyString);
      leaf "my_rereading" (XLit "NO");
      leaf "my_discuss" (XLit "YES");
      leaf "my_sns" (XLit "default");
      leaf "update_on_import" (XLit "1") ].

(** The local variables of lines 346-355 that the loop updates; [entries]
    are the [manga] children appended to the root so far. *)
Record xml_state := mkXmlState {
  total_reading : nat;
  total_completed : nat;
  total_onhold : nat;
  total_dropped : nat;
  total_plantoread : nat;
  exported : nat;
  not_found : nat;
  unlinked : list manga;
  entries : list xml
}.

(** The body of the loop of lines 369-421.  The labels of the [if]/[elif]
    chain of lines 386-395 are pairwise different, so a counter goes up
    exactly when [status] is its label. *)
Definition xml_step (st : xml_state) (m : manga) : xml_state :=
  let mal_id := mal_id_of m in
  if negb (truthy mal_id) then
    mkXmlState (total_reading st) (total_completed st) (total_onhold st)
               (total_dropped st) (total_plantoread st) (exported st)
               (S (not_found st)) (unlinked st ++ [m]) (entries st)
  else
    let status := xml_status m in
    let bump (label : string) (n : nat) : nat :=
      if String.eqb status label then S n else n in
    mkXmlState (bump "Reading" (total_reading st))
               (bump "Completed" (total_completed st))
               (bump "On-Hold" (total_onhold st))
               (bump "Dropped" (total_dropped st))
               (bump "Plan to Read" (total_plantoread st))
               (S (exported st)) (not_found st) (unlinked st)
               (entries st ++ [manga_elem m mal_id status]).

Definition xml_loop (manga_info_list : list manga) : xml_state :=
  fold_left xml_step manga_info_list (mkXmlState 0 0 0 0 0 0 0 [] []).

(** Lines 437-442: the text of every [manga_title] becomes a CDATA
    section. *)
Definition cdata_titles (entry : xml) : xml :=
  match entry with
  | Element t txt cs =>
      Element t txt
        (map (fun c =>
                match c with
                | Element "manga_title" ct cc =>
                    Element "manga_title"
                            (Some (XCData (match ct with
                                           | Some x => x
                                           | None => XLit EmptyString
                                           end))) cc
                | _ => c
                end) cs)
  end.

(** The document written to the file (lines 355-359, 422-427, 436-445). *)
Definition xml_document (st : xml_state) : xml :=
  Element "myanimelist" None
    (Element "myinfo" None
       [ leaf "user_id" (XLit EmptyString);
         leaf "user_name" (XLit EmptyString);
         leaf "user_export_type" (XLit "2");
         leaf "user_total_manga" (XNat (exported st));
         leaf "user_total_reading" (XNat (total_reading st));
         leaf "user_total_completed" (XNat (total_completed st));
         leaf "user_total_onhold" (XNat (total_onhold st));
         leaf "user_total_dropped" (XNat (total_dropped st));
         leaf "user_total_plantoread" (XNat (total_plantoread st)) ]
     :: map cdata_titles (entries st)).

(** The string a text node holds, when the model spells it out. *)
Definition xtext_string (t : xtext) : option string :=
  match t with
  | XLit s => Some s
  | XValue (VStr s) => Some s
  | _ => None
  end.

(** Line 445: [dom.writexml] raises ValueError at a CDATA section whose
    text holds the end mark of a section. *)
Definition breaks_cdata (e : xml) : bool :=
  match text_of e with
  | Some (XCData t) =>
      match xtext_string t with
      | Some s => contains "]]>" s
      | None => false
      end
  | _ => false
  end.

Definition writexml_error (doc : xml) : option exn :=
  if existsb (fun entry => existsb breaks_cdata (children_of entry))
             (children_of doc)
  then Some (ValueError "']]>' not allowed in a CDATA section")
  else None.

Section XmlExport.
(** Lines 428-444: the exception that [os.makedirs], [tree.write],
    [minidom.parseString] or [open] raise for the document, if any (a
    text that is no string, a character XML does not allow, a directory
    that cannot be made, ...). *)
Variable serialize : xml -> option exn.

(** Lines 428-445: writing the document, which comes before the prompt. *)
Definition write_document (doc : xml) : option exn :=
  match serialize doc with
  | Some e => Some e
  | None => writexml_error doc
  end.

(** What [export_manga_list_to_xml] does: the document it builds (lines
    343-427 and 436-442) and how it ends: with the exception raised
    while the document is written, or with the sink it hands the
    unlisted items to (lines 447-455), given the operator's answer after
    [strip().lower()]. *)
Definition export_manga_list_to_xml (manga_info_list : list manga)
           (answer : string) : xml * result sink_call :=
  let st := xml_loop manga_info_list in
  let doc := xml_document st in
  (doc,
   match write_document doc with
   | Some e => Raise e
   | None =>
       Ok (if String.eqb answer "y" then SyncToAnilist (unlinked st)
           else if String.eqb answer "n"
                then ExportUnlinkedCsv (unlinked st) "export/unlinked_by_MAL.csv"
                else ExportUnlinkedCsv (unlinked st) "export/unlinked_by_MAL.csv")
   end).
End XmlExport.

(** Reading the document back: the text of a child of [myinfo], and the
    entry elements. *)
Definition myinfo_of (doc : xml) : list xml :=
  match children_of doc with
  | myinfo :: _ => children_of myinfo
  | [] => []
  end.

Fixpoint child_text (cs : list xml) (t : string) : option xtext :=
  match cs with
  | [] => None
  | c :: r => if String.eqb (tag_of c) t then text_of c else child_text r t
  end.

Definition manga_elements (doc : xml) : list xml :=
  filter (fun e => String.eqb (tag_of e) "manga") (children_of doc).


(** ** Remote import: [sync_to_anilist] (lines 458-559) *)

(** The values of the GraphQL variables. *)
Inductive jvalue :=
| JInt (z : Z)
| JFloat (f : pyfloat)
| JStr (s : string).

Definition reading_status_map : dict string :=
  dict_literal
    [("reading", "CURRENT"); ("completed", "COMPLETED");
     ("on_hold", "PAUSED"); ("dropped", "DROPPED");
     ("plan_to_read", "PLANNING"); ("re_reading", "CURRENT")].

(** [al_id] of lines 467-470 and 491-494 *)
Definition al_id_of (m : manga) : value := link (links_get m) "al".

(** [{k: v for k, v in variables.items() if v is not None}] *)
Fixpoint drop_none (variables : list (string * option jvalue)) : dict jvalue :=
  match variables with
  | [] => []
  | (k, Some v) :: r => (k, v) :: drop_none r
  | (_, None) :: r => drop_none r
  end.

Section RemoteImport.
Variable float_of_string : string -> option pyfloat.
Variable int_of_string : string -> option Z.

(** Lines 517-518 *)
Definition mapped_status (m : manga) : string :=
  match reading_status m with
  | Some raw_status => get_default reading_status_map raw_status "CURRENT"
  | None => "CURRENT"
  end.

(** Lines 520-524 *)
Definition score_of (m : manga) : option pyfloat :=
  match user_rating m with
  | Some VNone => None
  | Some score => py_float float_of_string score
  | None => None
  end.

(** [int(float(manga.get(key, 0)))] under [try], lines 527-534 *)
Definition progress_int (s : option pystr) : option Z :=
  match s with
  | Some t => match float_of_pystr float_of_string t with
              | Some f => float_to_int f
              | None => None
              end
  | None => float_to_int (FFin (inject_Z 0))
  end.

(** The exception of [int(v)] when it raises. *)
Definition int_error (v : value) : exn :=
  match v with
  | VNone | VList _ | VDict _ => OtherError "TypeError"
  | VFloat (FInf _) => OtherError "OverflowError"
  | _ => ValueError "invalid literal for int()"
  end.

(** Lines 535-543 for an item whose [al_id] is [al_id]: the variables
    sent, or the exception of [int(al_id)], which nothing catches. *)
Definition mutation_variables (m : manga) (al_id : value)
           : result (dict jvalue) :=
  let mapped := mapped_status m in
  let score := score_of m in
  let progress_chapter := progress_int (read_chapter m) in
  let progress_volume := progress_int (read_volume m) in
  match py_int int_of_string al_id with
  | None => Raise (int_error al_id)
  | Some media_id =>
      Ok (drop_none
            [("mediaId", Some (JInt media_id));
             ("status", Some (JStr mapped));
             ("score", option_map JFloat score);
             ("progress", option_map JInt progress_chapter);
             ("progressVolumes", option_map JInt progress_volume)])
  end.

(** Lines 465-474 *)
Definition manga_with_al_id (mangas : list manga) : list manga :=
  filter (fun m => truthy (al_id_of m)) mangas.

Definition manga_without_al_id (mangas : list manga) : list manga :=
  filter (fun m => negb (truthy (al_id_of m))) mangas.

(** What [request_with_retry] does with a mutation (lines 545-550):
    [None] when it returns (the answer is not read), the exception it
    raises otherwise. *)
Variable post : dict jvalue -> option exn.

(** The loop of lines 489-553: the variables of the mutations posted, in
    order, and the exception that ended the loop, if any.  Neither
    [int(al_id)] nor the call is under a [try]. *)
Fixpoint mutations (todo : list manga) : list (dict jvalue) * option exn :=
  match todo with
  | [] => ([], None)
  | m :: rest =>
      let al_id := al_id_of m in
      if negb (truthy al_id) then mutations rest
      else match mutation_variables m al_id with
           | Raise e => ([], Some e)
           | Ok variables =>
               match post variables with
               | Some e => ([variables], Some e)
               | None =>
                   let '(posted, e) := mutations rest in
                   (variables :: posted, e)
               end
           end
  end.

(** What [anilist_authorization_code_flow] (line 476) raises, if
    anything: the exception of its token call or of reading the answer. *)
Variable authorize : option exn.

(** [sync_to_anilist]: the mutations posted, then either the exception
    that ended the function or the CSV export that follows (lines
    554-559). *)
Definition sync_to_anilist (mangas : list manga)
           : list (dict jvalue) * result (list sink_call) :=
  match manga_with_al_id mangas with
  | [] => ([], Ok [ExportUnlinkedCsv mangas "export/unlinked.csv"])
  | with_al_id =>
      match authorize with
      | Some e => ([], Raise e)
      | None =>
          match mutations with_al_id with
          | (posted, Some e) => (posted, Raise e)
          | (posted, None) =>
              (posted,
               Ok (match manga_without_al_id mangas with
                   | [] => []
                   | l => [ExportUnlinkedCsv l "export/unlinked.csv"]
                   end))
          end
      end
  end.
End RemoteImport.

End Main2.

(* ===================================================================== *)
(** * Vocabulary of the properties                                       *)
(* ===================================================================== *)

Module Props.
Import Py Http.

(** ** Transport *)

(** The state after [k] attempts that each failed and were followed by
    the sleep. *)
Fixpoint after_failures (kwargs : request) (delay : Z) (k : nat) (w : world)
         : world :=
  match k with
  | 0 => w
  | S k' => after_failures kwargs delay k' (sleep delay (send w kwargs))
  end.

(** The trace of [k] such attempts. *)
Definition failed_attempts (kwargs : request) (delay : Z) (k : nat) : list event :=
  concat (repeat [ERequest kwargs; ESleep delay] k).

(** The first [k] calls from the state [w] on, all for [kwargs], raise
    [ConnectionError] or [Timeout]. *)
Definition fails_first (net : network) (kwargs : request) (w : world) (k : nat)
           : Prop :=
  forall i, (i < k)%nat ->
    exists e, net (sent w + i)%nat kwargs = NetRaise e
              /\ is_network_failure e = true.

(** Both variants of [request_with_retry], called with the defaults,
    end with the outcome [out]. *)
Definition both_variants (net : network) (kwargs : request) (w : world)
           (out : result (option response) * world) : Prop :=
  Main.request_with_retry net kwargs 6 10%Z w = out
  /\ forall depth,
       Main2.request_with_retry net (S depth) kwargs 6 10%Z w = Some out.

(** The run from [w] to [w'] only added events to the trace. *)
Definition extends (w w' : world) : Prop :=
  exists t, trace w' = trace w ++ t.

(** A computation of main2.py that, when it ends, only added events. *)
Definition growing {A} (c : Main2.run A) : Prop :=
  forall w out w', c w = Some (out, w') -> extends w w'.

Definition count_requests (t : list event) : nat :=
  length (filter (fun e => match e with ERequest _ => true | _ => false end) t).

Definition count_sleeps (seconds : Z) (t : list event) : nat :=
  length (filter (fun e => match e with
                           | ESleep s => Z.eqb s seconds
                           | _ => false
                           end) t).

(** ** Enrichment *)

Import Main2.

(** Exactly one item per requested id: the call returns, and the ids of
    the items are the requested ids, each as often as it was requested. *)
Definition one_item_per_id (float_of_string : string -> option pyfloat)
           (srv : mangadex) (manga_ids : list string) (status_map : dict string)
           : Prop :=
  exists all_info,
    get_manga_info float_of_string srv manga_ids (Some status_map) = Ok all_info
    /\ Permutation (map id all_info) (map Some manga_ids).

(** The metadata endpoint answers a batch with one object per id asked. *)
Definition answers_every_id (srv : mangadex) (batch : list string) : Prop :=
  exists data, manga_batch srv batch = Ok data
               /\ Permutation (map id data) (map Some batch).

(** What the two loops over a batch do to one object. *)
Definition enrich_one (status_map : dict string) (user_language : list string)
           (read_status_map : dict (list string)) (ratings_map : dict (dict value))
           (float_of_string : string -> option pyfloat) (srv : mangadex)
           (m : manga) : manga :=
  match submit srv status_map user_language read_status_map m with
  | (m', Some chapters) => merge float_of_string ratings_map chapters m'
  | (m', None) => m'
  end.

(** [a <= b] in the order of the numbers, where minus infinity lies
    below and plus infinity above every number; NaN is below nothing and
    above nothing. *)
Definition float_le (a b : pyfloat) : bool :=
  match a, b with
  | FNaN, _ => false
  | _, FNaN => false
  | FInf true, _ => true
  | _, FInf false => true
  | FInf false, _ => false
  | _, FInf true => false
  | FFin p, FFin q => Qle_bool p q
  end.

Definition num_le (a b : pynum) : bool :=
  float_le (num_to_float a) (num_to_float b).

Definition is_nan (a : pynum) : bool :=
  match num_to_float a with FNaN => true | _ => false end.

(** [r] is the maximum of [key] over [l]: it is the key of an element and
    the key of every element is at most [r]. *)
Definition is_max_of {A} (key : A -> pynum) (l : list A) (r : pynum) : Prop :=
  (exists c, In c l /\ r = key c)
  /\ forall c, In c l -> num_le (key c) r = true.


(** No parsed chapter or volume number of the list is NaN. *)
Definition no_nan (float_of_string : string -> option pyfloat)
           (chapters : list chapter) : Prop :=
  forall c, In c chapters ->
            is_nan (parse_chapter_num float_of_string c) = false
            /\ is_nan (parse_volume_num float_of_string c) = false.

(** The progress pair holds the two maxima. *)
Definition furthest_is_maximum (float_of_string : string -> option pyfloat)
           (chapters : list chapter) : Prop :=
  exists c v,
    progress_of float_of_string chapters = (SOfNum c, SOfNum v)
    /\ is_max_of (parse_chapter_num float_of_string) chapters c
    /\ is_max_of (parse_volume_num float_of_string) chapters v.


(** ** Partition and sinks *)

(** The external identifier of an item: the value its [links] object
    holds under [k]; none when the item has no [links], when [links] is
    no object, or when the object has no such key. *)
Definition external_id (k : string) (m : manga) : option value :=
  match links (attributes m) with
  | Some (VDict d) => dict_get d k
  | _ => None
  end.

(** The item carries the identifier: the value is there and counts as
    true (it is not [None], not the empty string, not 0, ...). *)
Definition carries (k : string) (m : manga) : bool :=
  match external_id k m with
  | Some v => truthy v
  | None => false
  end.

(** The item carries Id-B, the AniList id. *)
Definition has_al (m : manga) : bool := carries "al" m.

(** The item carries Id-A, the MAL id. *)
Definition has_mal (m : manga) : bool := carries "mal" m.

(** The three classes, tested in this order. *)
Definition carries_id_b (m : manga) : bool := has_al m.
Definition carries_id_a_only (m : manga) : bool := negb (has_al m) && has_mal m.
Definition carries_neither (m : manga) : bool :=
  negb (has_al m) && negb (has_mal m).

(** Exactly one of three tests holds. *)
Definition exactly_one (a b c : bool) : Prop :=
  (a = true /\ b = false /\ c = false)
  \/ (a = false /\ b = true /\ c = false)
  \/ (a = false /\ b = false /\ c = true).

(** The items a sink is called with. *)
Definition sink_items (c : sink_call) : list manga :=
  match c with
  | SyncToAnilist l => l
  | ExportXml l _ => l
  | ExportUnlinkedCsv l _ => l
  end.

(** The sink is one of the two secondary sinks of the XML export. *)
Definition is_secondary_sink (c : sink_call) : bool :=
  match c with
  | SyncToAnilist _ => true
  | ExportUnlinkedCsv _ _ => true
  | ExportXml _ _ => false
  end.

(** The item lacks Id-A: the identifier is absent or false. *)
Definition lacks_mal (m : manga) : bool := negb (has_mal m).

(** The status table of the remote import, as the specification words
    it: six source statuses onto five codes, [CURRENT] otherwise. *)
Definition anilist_status_spec (raw_status : option string) : string :=
  match raw_status with
  | None => "CURRENT"
  | Some s =>
      if String.eqb s "reading" then "CURRENT"
      else if String.eqb s "completed" then "COMPLETED"
      else if String.eqb s "on_hold" then "PAUSED"
      else if String.eqb s "dropped" then "DROPPED"
      else if String.eqb s "plan_to_read" then "PLANNING"
      else if String.eqb s "re_reading" then "CURRENT"
      else "CURRENT"
  end.

(** The variables a mutation may carry. *)
Definition mutation_keys : list string :=
  ["mediaId"; "status"; "score"; "progress"; "progressVolumes"].

(** The language lookup as the specification words it: the irregular
    codes first, then the ISO table, else the code itself. *)
Definition language_spec (special iso_map : dict string) (code : string) : string :=
  match dict_get special code with
  | Some name => name
  | None => match dict_get iso_map code with
            | Some name => name
            | None => code
            end
  end.


(** ** The XML export and its secondary sink *)





(** ** The remote import: the payload as the specification words it *)

(** A key that is left out when its value is not derivable. *)
Definition optional (k : string) (v : option jvalue) : dict jvalue :=
  match v with
  | Some x => [(k, x)]
  | None => []
  end.

(** The numeric rating of an item: [float] of its rating, when it has
    one that [float] accepts. *)
Definition rating_number (float_of_string : string -> option pyfloat)
           (m : manga) : option pyfloat :=
  match user_rating m with
  | Some v => py_float float_of_string v
  | None => None
  end.

(** The integer truncation, toward zero, of a furthest-read number: of
    the number its string reads as, when that is finite; of 0 for an
    item that has no such string. *)
Definition truncated (float_of_string : string -> option pyfloat)
           (s : option pystr) : option Z :=
  match s with
  | None => Some 0%Z
  | Some t =>
      match float_of_pystr float_of_string t with
      | Some (FFin q) => Some (Z.quot (Qnum q) (Z.pos (Qden q)))
      | _ => None
      end
  end.

(** The integer parse of the Id-B of an item, when it has one that
    [int] accepts. *)
Definition integer_id_b (int_of_string : string -> option Z) (m : manga)
           : option Z :=
  match external_id "al" m with
  | Some id_b => py_int int_of_string id_b
  | None => None
  end.

(** The payload of an item whose Id-B reads as an integer. *)
Definition payload_spec (float_of_string : string -> option pyfloat)
           (int_of_string : string -> option Z) (m : manga)
           : option (dict jvalue) :=
  match integer_id_b int_of_string m with
  | Some n =>
      Some ([("mediaId", JInt n);
             ("status", JStr (anilist_status_spec (reading_status m)))]
            ++ optional "score"
                 (option_map JFloat (rating_number float_of_string m))
            ++ optional "progress"
                 (option_map JInt (truncated float_of_string (read_chapter m)))
            ++ optional "progressVolumes"
                 (option_map JInt (truncated float_of_string (read_volume m))))
  | None => None
  end.

(** The claim as first stated: for every item of the list that carries
    Id-B the import sends a payload whose [mediaId] is the integer parse
    of its Id-B. *)
Definition every_id_b_item_is_sent
           (float_of_string : string -> option pyfloat)
           (int_of_string : string -> option Z)
           (post : dict jvalue -> option exn) (authorize : option exn)
           (mangas : list manga) : Prop :=
  forall m, In m mangas -> has_al m = true ->
    exists variables n,
      In variables
         (fst (sync_to_anilist float_of_string int_of_string post authorize
                               mangas))
      /\ integer_id_b int_of_string m = Some n
      /\ dict_get variables "mediaId" = Some (JInt n).


(** ** The cap on the calls of one request *)

(** A request to the URL [u] counts 1. *)
Definition weight (u : string) (q : request) : nat :=
  if String.eqb (url q) u then 1 else 0.

(** The requests to the URL [u] among the events. *)
Definition sends_to (u : string) (t : list event) : nat :=
  list_sum (map (fun e => match e with
                          | ERequest q => weight u q
                          | ESleep _ => 0
                          end) t).

(** The claim as first stated, for main2.py: one [request_with_retry]
    with the defaults sends its call at most 6 times. *)
Definition six_sends_cap (net : network) (kwargs : request) (w : world)
           : Prop :=
  forall depth out w',
    Main2.request_with_retry net depth kwargs 6 10%Z w = Some (out, w') ->
    (sends_to (url kwargs) (trace w')
     <= sends_to (url kwargs) (trace w) + 6)%nat.

End Props.

(* ===================================================================== *)
(** * Concrete inputs                                                    *)
(* ===================================================================== *)

Module Examples.
Import Py Http Main2.

(** A fragment of Python's [int(s)] and [float(s)], enough for the
    examples: an optional minus sign, decimal digits and, for floats, an
    optional fractional part. *)
Definition digit (c : ascii) : option Z :=
  let n := nat_of_ascii c in
  if ((48 <=? n) && (n <=? 57))%nat then Some (Z.of_nat (n - 48)) else None.

Fixpoint digits_from (s : string) (acc : Z) : option Z :=
  match s with
  | EmptyString => Some acc
  | String c r => match digit c with
                  | Some d => digits_from r (acc * 10 + d)%Z
                  | None => None
                  end
  end.

Definition natural (s : string) : option Z :=
  match s with
  | EmptyString => None
  | _ => digits_from s 0%Z
  end.

Definition int_of_decimal (s : string) : option Z :=
  match s with
  | String "-"%char r => option_map Z.opp (natural r)
  | _ => natural s
  end.

Fixpoint split_dot (s : string) : string * option string :=
  match s with
  | EmptyString => (EmptyString, None)
  | String "."%char r => (EmptyString, Some r)
  | String c r => let '(a, b) := split_dot r in (String c a, b)
  end.

Definition unsigned_decimal (s : string) : option Q :=
  match split_dot s with
  | (i, None) => option_map inject_Z (natural i)
  | (i, Some f) =>
      match natural i, natural f with
      | Some a, Some b =>
          let scale := (10 ^ Z.of_nat (String.length f))%Z in
          Some (Qmake (a * scale + b) (Z.to_pos scale))
      | _, _ => None
      end
  end.

Definition float_of_decimal (s : string) : option pyfloat :=
  match s with
  | String "-"%char r => option_map (fun q => FFin (Qopp q)) (unsigned_decimal r)
  | _ => option_map FFin (unsigned_decimal s)
  end.

(** *** Transport *)

Definition get_library : request :=
  mkRequest "GET" MANGA_LIBRARY_ENDPOINT
            (Some [("Authorization", HBearer (VStr "old"))]) VNone.

Definition fresh_tokens : value :=
  VDict [("token", VDict [("session", VStr "new")])].

Definition logged_in : world :=
  mkWorld (Some (VDict [("token", VDict [("session", VStr "old")])]))
          (Some ("user", "secret")) 0 [].

(** After a logout: no tokens, but the credentials of the last login. *)
Definition logged_out : world := mkWorld None (Some ("user", "secret")) 0 [].

(** The network is down. *)
Definition net_down : network := fun _ _ => NetRaise ConnectionError.

(** Two timeouts, then a server error. *)
Definition net_flaky_500 : network :=
  fun n _ => if (n <? 2)%nat then NetRaise Timeout
             else NetResp (mkResponse 500 None).

(** The login endpoint answers 401 to the password just typed, accepts
    the stored credentials, and answers 401 again to the repeated call. *)
Definition net_login_401 : network :=
  fun n _ => match n with
             | 1 => NetResp (mkResponse 200 (Some fresh_tokens))
             | _ => NetResp (mkResponse 401 None)
             end.

(** Every call is answered 401. *)
Definition net_unauthorized : network :=
  fun _ _ => NetResp (mkResponse 401 None).

(** An expired session: 401, then the login succeeds, then 200. *)
Definition net_expired : network :=
  fun n _ => match n with
             | 0 => NetResp (mkResponse 401 None)
             | 1 => NetResp (mkResponse 200 (Some fresh_tokens))
             | _ => NetResp (mkResponse 200 (Some (VDict [("result", VStr "ok")])))
             end.

(** An expired session whose repeated call hits a connection error:
    401, login, connection error, then 200. *)
Definition net_expired_then_reset : network :=
  fun n _ => match n with
             | 0 => NetResp (mkResponse 401 None)
             | 1 => NetResp (mkResponse 200 (Some fresh_tokens))
             | 2 => NetRaise ConnectionError
             | _ => NetResp (mkResponse 200 (Some (VDict [("result", VStr "ok")])))
             end.

(** *** Library items *)

Definition item (i : string) (l : option value) : manga :=
  mkManga (Some i) (mkAttributes [("en", VStr i)] l None) None None None None.

(** [id1] carries Id-A only, [id2] carries neither identifier. *)
Definition item1 : manga := item "id1" (Some (VDict [("mal", VStr "11")])).
Definition item2 : manga := item "id2" None.

Definition library : dict string := [("id1", "reading"); ("id2", "completed")].

(** The service knows both items; nothing is read and nothing is rated. *)
Definition srv_scenario : mangadex :=
  mkMangadex (Some ["en"])
             (fun _ => Ok [item1; item2])
             (fun _ => Some ReadList)
             (fun _ => Some (RatingsDict []))
             (fun _ _ => Some []).

(** As [srv_scenario], but the user rated [id1] with 8. *)
Definition srv_rated : mangadex :=
  mkMangadex (Some ["en"])
             (fun _ => Ok [item1; item2])
             (fun _ => Some ReadList)
             (fun _ => Some (RatingsDict [("id1", [("rating", VInt 8)])]))
             (fun _ _ => Some []).

(** The service has no object for the ids asked (deleted titles). *)
Definition srv_drop : mangadex :=
  mkMangadex (Some ["en"]) (fun _ => Ok []) (fun _ => Some ReadList)
             (fun _ => Some (RatingsDict [])) (fun _ _ => Some []).

(** The service answers every id with an object. *)
Definition srv_echo : mangadex :=
  mkMangadex (Some ["en"]) (fun batch => Ok (map (fun i => item i None) batch))
             (fun _ => Some ReadList)
             (fun _ => Some (RatingsDict [])) (fun _ _ => Some []).

Definition chapter_of (i c v : string) : chapter :=
  mkChapter i "chapter" (Some [("chapter", VStr c); ("volume", VStr v)]).


(** A chapter numbered below zero. *)
Definition chapters_negative : list chapter := [chapter_of "a" "-1" "2"].

(** The destination service accepts every mutation. *)
Definition post_accepted : dict jvalue -> option exn := fun _ => None.

(** An item for the remote import. *)
Definition item_al : manga :=
  mkManga (Some "id3")
          (mkAttributes [("en", VStr "Three")]
                        (Some (VDict [("al", VStr "30013")])) None)
          (Some "on_hold")
          (Some (SOfNum (NFloat (FFin (Qmake 25 2)))))
          (Some (SLit "n/a"))
          (Some (VInt 8)).

End Examples.

(* ===================================================================== *)
(** * main.py: enrichment, XML export, remote import and menu            *)
(* ===================================================================== *)

Module MainRest.
Import Py Http Main2.

(** ** [get_manga_info] (main.py, lines 94-116) *)

Section Enrichment.
Variable srv : mangadex.

(** Lines 109-113: the loop body is that of lines 185-187 of main2.py;
    the whole loop is skipped when [status_map] is [None] or empty. *)
Definition attach_all (status_map : option (dict string)) (data : list manga)
           : list manga :=
  match status_map with
  | None | Some [] => data
  | Some d => map (attach_status d) data
  end.

(** The body of [for i in range(0, len(manga_ids), 100)] over the batches
    [manga_ids[i:i+100]]; the half-second sleep has no effect on the
    result. *)
Fixpoint batch_loop (status_map : option (dict string))
         (todo : list (list string))
         (all_info : list manga) : result (list manga) :=
  match todo with
  | [] => Ok all_info
  | batch :: rest =>
      match manga_batch srv batch with
      | Raise e => Raise e
      | Ok data => batch_loop status_map rest (all_info ++ attach_all status_map data)
      end
  end.

Definition get_manga_info (manga_ids : list string)
           (status_map : option (dict string)) : result (list manga) :=
  batch_loop status_map
             (map (fun i => slice manga_ids i (i + 100))
                  (range_step (length manga_ids) 100))
             [].
End Enrichment.

(** ** [export_manga_list_to_xml] (main.py, lines 226-359) *)

(** The child nodes of an element of the document written: text nodes
    and CDATA sections. *)
Inductive cnode :=
| CText (t : xtext)
| CSection (t : xtext).

#[warnings="-register-all"]
Inductive element :=
| Elem (tag : string) (content : list cnode) (children : list element).

Definition etag (e : element) : string :=
  match e with Elem t _ _ => t end.

Definition econtent (e : element) : list cnode :=
  match e with Elem _ c _ => c end.

Definition echildren (e : element) : list element :=
  match e with Elem _ _ c => c end.

(** A leaf whose text the last pass leaves alone.  An empty text, which
    has no node in the document, is written as an empty text node. *)
Definition text_leaf (tag : string) (t : xtext) : element :=
  Elem tag [CText t] [].

(** Lines 319-324: the text of [manga_title] becomes one CDATA section. *)
Definition title_leaf (t : xtext) : element :=
  Elem "manga_title" [CSection t] [].

(** Lines 325-346: the children of the element are removed and two CDATA
    sections are appended. *)
Definition nested_cdata_leaf (tag : string) : element :=
  Elem tag [CSection (XLit "<![CDATA[]]"); CSection (XLit ">")] [].

(** Lines 278-303 after the passes of lines 319-346. *)
Definition manga_elem (m : manga) (mal_id : value) (status : string) : element :=
  Elem "manga" []
    [ text_leaf "manga_mangadb_id" (XValue mal_id);
      title_leaf (XValue (title_of m));
      text_leaf "manga_volumes" (XLit "0");
      text_leaf "manga_chapters" (XLit "0");
      text_leaf "my_id" (XLit "0");
      text_leaf "my_read_volumes" (XLit "0");
      text_leaf "my_read_chapters" (XLit "0");
      text_leaf "my_start_date" (XLit "0000-00-00");
      text_leaf "my_finish_date" (XLit "0000-00-00");
      nested_cdata_leaf "my_scanalation_group";
      text_leaf "my_score" (XLit "0");
      text_leaf "my_storage" (XLit " ");
      text_leaf "my_retail_volumes" (XLit "0");
      text_leaf "my_status" (XLit status);
      nested_cdata_leaf "my_comments";
      text_leaf "my_times_read" (XLit "0");
      nested_cdata_leaf "my_tags";
      text_leaf "my_priority" (XLit "Low");
      text_leaf "my_reread_value" (XLit EmptyString);
      text_leaf "my_rereading" (XLit "NO");
      text_leaf "my_discuss" (XLit "YES");
      text_leaf "my_sns" (XLit "default");
      text_leaf "update_on_import" (XLit "1") ].

(** The local variables of lines 229-237 that the loop updates. *)
Record xml_state := mkXmlState {
  total_reading : nat;
  total_completed : nat;
  total_onhold : nat;
  total_dropped : nat;
  total_plantoread : nat;
  exported : nat;
  not_found : nat;
  unlisted : list manga;
  entries : list element
}.

(** The body of the loop of lines 251-303; lines 252-277 are lines
    370-395 of main2.py. *)
Definition xml_step (st : xml_state) (m : manga) : xml_state :=
  let mal_id := mal_id_of m in
  if negb (truthy mal_id) then
    mkXmlState (total_reading st) (total_completed st) (total_onhold st)
               (total_dropped st) (total_plantoread st) (exported st)
               (S (not_found st)) (unlisted st ++ [m]) (entries st)
  else
    let status := xml_status m in
    let bump (label : string) (n : nat) : nat :=
      if String.eqb status label then S n else n in
    mkXmlState (bump "Reading" (total_reading st))
               (bump "Completed" (total_completed st))
               (bump "On-Hold" (total_onhold st))
               (bump "Dropped" (total_dropped st))
               (bump "Plan to Read" (total_plantoread st))
               (S (exported st)) (not_found st) (unlisted st)
               (entries st ++ [manga_elem m mal_id status]).

Definition xml_loop (manga_info_list : list manga) : xml_state :=
  fold_left xml_step manga_info_list (mkXmlState 0 0 0 0 0 0 0 [] []).

(** The document written (lines 238-242, 304-309, 317-349). *)
Definition xml_document (st : xml_state) : element :=
  Elem "myanimelist" []
    (Elem "myinfo" []
       [ text_leaf "user_id" (XLit "00000000");
         text_leaf "user_name" (XLit "YourName");
         text_leaf "user_export_type" (XLit "2");
         text_leaf "user_total_manga" (XNat (exported st));
         text_leaf "user_total_reading" (XNat (total_reading st));
         text_leaf "user_total_completed" (XNat (total_completed st));
         text_leaf "user_total_onhold" (XNat (total_onhold st));
         text_leaf "user_total_dropped" (XNat (total_dropped st));
         text_leaf "user_total_plantoread" (XNat (total_plantoread st)) ]
     :: entries st).

(** Line 349: [dom.writexml] raises ValueError at a CDATA section whose
    text holds the end mark of a section. *)
Definition breaks_cdata (e : element) : bool :=
  existsb (fun c => match c with
                    | CSection t =>
                        match xtext_string t with
                        | Some s => contains "]]>" s
                        | None => false
                        end
                    | CText _ => false
                    end) (econtent e).

Definition writexml_error (doc : element) : option exn :=
  if existsb (fun entry => existsb breaks_cdata (echildren entry))
             (echildren doc)
  then Some (ValueError "']]>' not allowed in a CDATA section")
  else None.

Section XmlExport.
(** Lines 310-348: the exception that [os.makedirs], [tree.write],
    [minidom.parseString] or [open] raise for the document, if any. *)
Variable serialize : element -> option exn.

(** Lines 310-349: writing the document, which comes before the prompt. *)
Definition write_document (doc : element) : option exn :=
  match serialize doc with
  | Some e => Some e
  | None => writexml_error doc
  end.

(** The document built and how the function ends: with the exception
    raised while the document is written, or with the sink the unlisted
    items are handed to (lines 351-359): [SyncToAnilist] stands for
    [sync_unlisted_to_anilist], [ExportUnlinkedCsv] for
    [export_unlisted_to_csv]. *)
Definition export_manga_list_to_xml (manga_info_list : list manga)
           (answer : string) : element * result sink_call :=
  let st := xml_loop manga_info_list in
  let doc := xml_document st in
  (doc,
   match write_document doc with
   | Some e => Raise e
   | None =>
       Ok (if String.eqb answer "y" then SyncToAnilist (unlisted st)
           else if String.eqb answer "n"
                then ExportUnlinkedCsv (unlisted st) "export/unlisted_by_MAL.csv"
                else ExportUnlinkedCsv (unlisted st) "export/unlisted_by_MAL.csv")
   end).
End XmlExport.

Definition myinfo_of (doc : element) : list element :=
  match echildren doc with
  | myinfo :: _ => echildren myinfo
  | [] => []
  end.

Fixpoint child_content (cs : list element) (t : string) : option (list cnode) :=
  match cs with
  | [] => None
  | c :: r => if String.eqb (etag c) t then Some (econtent c)
              else child_content r t
  end.

Definition manga_elements (doc : element) : list element :=
  filter (fun e => String.eqb (etag e) "manga") (echildren doc).

(** ** [sync_unlisted_to_anilist] (main.py, lines 362-419) *)

Section RemoteImport.
Variable int_of_string : string -> option Z.
Variable post : dict jvalue -> option exn.

(** Lines 391-401: the variables of the mutation, or the exception of
    [int(al_id)]. *)
Definition mutation_variables (m : manga) (al_id : value) : result (dict jvalue) :=
  match py_int int_of_string al_id with
  | None => Raise (int_error al_id)
  | Some media_id =>
      Ok [("mediaId", JInt media_id); ("status", JStr (mapped_status m))]
  end.

(** The loop of lines 382-413. *)
Fixpoint mutations (todo : list manga) : list (dict jvalue) * option exn :=
  match todo with
  | [] => ([], None)
  | m :: rest =>
      let al_id := al_id_of m in
      if negb (truthy al_id) then mutations rest
      else match mutation_variables m al_id with
           | Raise e => ([], Some e)
           | Ok variables =>
               match post variables with
               | Some e => ([variables], Some e)
               | None =>
                   let '(posted, e) := mutations rest in
                   (variables :: posted, e)
               end
           end
  end.

(** What [anilist_authorization_code_flow] (line 380) raises, if
    anything. *)
Variable authorize : option exn.

Definition sync_unlisted_to_anilist (unlisted : list manga)
           : list (dict jvalue) * result (list sink_call) :=
  match filter (fun m => truthy (al_id_of m)) unlisted with
  | [] => ([], Ok [ExportUnlinkedCsv unlisted "export/unlisted_by_MAL.csv"])
  | unlisted_with_alid =>
      match authorize with
      | Some e => ([], Raise e)
      | None =>
          match mutations unlisted_with_alid with
          | (posted, Some e) => (posted, Raise e)
          | (posted, None) =>
              (posted,
               Ok (match filter (fun m => negb (truthy (al_id_of m))) unlisted with
                   | [] => []
                   | l => [ExportUnlinkedCsv l "export/unlisted_by_MAL_&_AL.csv"]
                   end))
          end
      end
  end.
End RemoteImport.

(** ** The menu (main.py, lines 464-470 and 553-577) *)

Inductive format := Xml | Json | Csv.

(** [c in choices] *)
Definition chosen (c : string) (choices : list string) : bool :=
  existsb (String.eqb c) choices.

(** What one round of the menu loop does with the choices read.
    [Fetch exports] stands for [ensure_valid_session],
    [fetch_and_prepare_manga_info] and [export_all], which exports the
    formats [exports]; the XML export among them goes on to its
    secondary sink, the remote import included. *)
Inductive menu_outcome :=
| Invalid
| Quit
| Logout
| Nothing
| Fetch (exports : list format).

(** [export_all]: the formats exported, in order. *)
Definition export_all (choices : list string) : list format :=
  (if chosen "1" choices then [Xml] else [])
  ++ (if chosen "2" choices then [Json] else [])
  ++ (if chosen "3" choices then [Csv] else []).

(** The printed menu (lines 556-558): the format each number stands for. *)
Definition menu_label (c : string) : option format :=
  if String.eqb c "1" then Some Xml
  else if String.eqb c "2" then Some Json
  else if String.eqb c "3" then Some Csv
  else None.

(** Lines 562-577, for the list [choices] of line 562. *)
Definition menu_round (choices : list string) : menu_outcome :=
  if negb (forallb (fun c => chosen c ["1"; "2"; "3"; "4"; "q"]) choices)
  then Invalid
  else if chosen "q" choices then Quit
  else if chosen "4" choices then Logout
  else if existsb (fun c => chosen c ["1"; "2"; "3"]) choices
       then Fetch (export_all choices)
       else Nothing.

End MainRest.

(* ===================================================================== *)
(** * main2.py: library fetch, pipeline and menu                         *)
(* ===================================================================== *)

Module Main2Rest.
Import Py Http Main2.

(** ** [get_manga_library] (lines 93-100) *)

Section Library.
Variable net : network.

(** [session_headers] is [session.headers]. *)
Definition get_manga_library (depth : nat) (session_headers : dict hval)
           : run value :=
  fun w =>
    match request_with_retry net depth
            (mkRequest "GET" MANGA_LIBRARY_ENDPOINT (Some session_headers) VNone)
            6 10%Z w with
    | None => None
    | Some (Raise e, w1) => Some (Raise e, w1)
    | Some (Ok None, w1) => Some (Raise (OtherError "AttributeError"), w1)
    | Some (Ok (Some resp), w1) =>
        match raise_for_status resp with
        | Some e => Some (Raise e, w1)
        | None =>
            match json resp with
            | None => Some (Raise JSONDecodeError, w1)
            | Some (VDict data) =>
                if negb (is_str (get_or_none data "result") "ok")
                then Some (Raise (OtherError "Failed to fetch manga library"), w1)
                else Some (subscript (VDict data) "statuses", w1)
            | Some _ => Some (Raise (OtherError "AttributeError"), w1)
            end
        end
    end.
End Library.

(** ** [fetch_and_prepare_manga_info] (lines 235-239) *)

(** For the library [get_manga_library] returned, an object from manga
    id to status. *)
Definition fetch_and_prepare_manga_info
           (float_of_string : string -> option pyfloat) (srv : mangadex)
           (manga_library : dict string) : result (list manga) :=
  get_manga_info float_of_string srv (map fst manga_library)
                 (Some manga_library).

(** ** The menu (lines 604-610 and 742-776) *)

Import MainRest.

(** [export_all] (lines 604-610) *)
Definition export_all (choices : list string) : list format :=
  (if chosen "1" choices then [Xml] else [])
  ++ (if chosen "2" choices then [Json] else [])
  ++ (if chosen "3" choices then [Csv] else []).

(** The printed menu (lines 746-748). *)
Definition menu_label (c : string) : option format :=
  if String.eqb c "2" then Some Xml
  else if String.eqb c "3" then Some Json
  else if String.eqb c "4" then Some Csv
  else None.

(** What one round of the menu loop of main2.py does.  [Fetch] stands
    for [ensure_valid_session] and [fetch_and_prepare_manga_info],
    followed by [import_to_anilist_then_export] when
    [import_to_anilist] is set, and by [export_all] for the formats
    [exports]. *)
Inductive menu_outcome :=
| Invalid
| Quit
| Logout
| Declined
| Fetch (import_to_anilist : bool) (exports : list format).

(** Lines 752-776, for the list [choices] of line 752 and the answer to
    the warning of line 767 (read only when choice 1 is made). *)
Definition menu_round (choices : list string) (answer : string) : menu_outcome :=
  if negb (forallb (fun c => chosen c ["1"; "2"; "3"; "4"; "5"; "q"]) choices)
  then Invalid
  else if chosen "q" choices then Quit
  else if chosen "5" choices then Logout
  else if chosen "1" choices && negb (String.eqb answer "y") then Declined
  else Fetch (chosen "1" choices)
             (if existsb (fun c => chosen c ["2"; "3"; "4"]) choices
              then export_all choices else []).

(** Lines 759-763: the logout. *)
Definition logout (w : world) : world :=
  mkWorld None (SESSION_CREDENTIALS w) (sent w) (trace w).

End Main2Rest.

(* ===================================================================== *)
(** * Vocabulary of the further properties                               *)
(* ===================================================================== *)

Module MoreProps.
Import Py Http Main2 Props.

(** A result of the transport layer is an exception or a response that
    [raise_for_status] accepts; it is never the [None] of falling out of
    the loop. *)
Definition successful (out : result (option response)) : Prop :=
  match out with
  | Ok (Some r) => raise_for_status r = None
  | Ok None => False
  | Raise _ => True
  end.

(** A computation of main2.py that leaves the stored credentials alone. *)
Definition keeps_credentials {A} (c : run A) : Prop :=
  forall w out w', c w = Some (out, w') ->
                   SESSION_CREDENTIALS w' = SESSION_CREDENTIALS w.

(** [requests.request] raises no [ValueError] (of any subclass). *)
Definition net_raises_no_value_error (net : network) : Prop :=
  forall n q e, net n q = NetRaise e -> is_value_error e = false.

(** The result is not an exception of the class [ValueError] itself, as
    the [raise ValueError(...)] of lines 31 and 33 would be. *)
Definition no_plain_value_error {A} (out : result A) : Prop :=
  forall msg, out <> Raise (ValueError msg).

(** The only [ValueError] the result can be is a [JSONDecodeError]. *)
Definition only_json_value_error {A} (out : result A) : Prop :=
  forall e, out = Raise e -> is_value_error e = true -> e = JSONDecodeError.

(** [q] is the call [kwargs] up to its headers. *)
Definition same_call (q kwargs : request) : Prop :=
  method q = method kwargs /\ url q = url kwargs /\ payload q = payload kwargs.

(** The identity, the attributes and the status of an item: what both
    variants of [get_manga_info] deliver. *)
Definition core (m : manga) : option string * manga_attributes * option string :=
  (id m, attributes m, reading_status m).

(** The mutation of main2.py for an item. *)
Definition variables_of (float_of_string : string -> option pyfloat)
           (int_of_string : string -> option Z) (m : manga)
           : result (dict jvalue) :=
  mutation_variables float_of_string int_of_string m (al_id_of m).

(** Every item with a true [al_id] has one that [int] accepts. *)
Definition al_ids_are_integers (int_of_string : string -> option Z)
           (l : list manga) : Prop :=
  forall m, In m l -> truthy (al_id_of m) = true ->
            exists n, py_int int_of_string (al_id_of m) = Some n.

(** The items of the CSV exports among the sinks called. *)
Definition csv_items (calls : list sink_call) : list manga :=
  concat (map (fun c => match c with
                        | ExportUnlinkedCsv l _ => l
                        | _ => []
                        end) calls).


(** ** Enrichment *)

(** The object list of an accepted metadata answer. *)
Definition answer_of (srv : mangadex) (batch : list string) : list manga :=
  match manga_batch srv batch with Ok data => data | Raise _ => [] end.

(** The maps of lines 161-181 for a batch. *)
Definition read_map_of (srv : mangadex) (batch : list string)
           : dict (list string) :=
  match read_batch srv batch with Some (ReadDict d) => d | _ => [] end.

Definition ratings_map_of (srv : mangadex) (batch : list string)
           : dict (dict value) :=
  match rating_batch srv batch with Some (RatingsDict d) => d | _ => [] end.

(** The language list of lines 107-114. *)
Definition language_of (srv : mangadex) : list string :=
  match settings srv with Some l => l | None => ["en"] end.

(** The items main2.py makes of the objects of a batch. *)
Definition batch_items (float_of_string : string -> option pyfloat)
           (srv : mangadex) (status_map : dict string) (batch : list string)
           : list manga :=
  map (enrich_one status_map (language_of srv) (read_map_of srv batch)
                  (ratings_map_of srv batch) float_of_string srv)
      (answer_of srv batch).

(** [m'] is [m] enriched: the same id and attributes, the status of the
    status map when the id is a key of it and the status of [m]
    otherwise, and both progress keys set. *)
Definition enriched (status_map : dict string) (m m' : manga) : Prop :=
  id m' = id m
  /\ attributes m' = attributes m
  /\ read_chapter m' <> None
  /\ read_volume m' <> None
  /\ reading_status m'
     = match id m with
       | Some i =>
           if String.eqb i EmptyString then reading_status m
           else match dict_get status_map i with
                | Some s => Some s
                | None => reading_status m
                end
       | None => reading_status m
       end.

(** The item carries the id and the status of a library entry. *)
Definition entry_of (m : manga) : option string * option string :=
  (id m, reading_status m).

Definition library_entry (kv : string * string) : option string * option string :=
  (Some (fst kv), Some (snd kv)).

(** The item left the enrichment with progress ["0"], ["0"]. *)
Definition zero_progress (m : manga) : Prop :=
  read_chapter m = Some (SLit "0") /\ read_volume m = Some (SLit "0").


(** Two results of [get_manga_info] agree: the same exception, or lists
    of items with the same ids, attributes and statuses. *)
Definition agree_on_core (r1 r2 : result (list manga)) : Prop :=
  match r1, r2 with
  | Ok a, Ok b => map core a = map core b
  | Raise e1, Raise e2 => e1 = e2
  | _, _ => False
  end.

(** No batch of the ids has read chapters reported. *)
Definition nothing_read (srv : mangadex) (manga_ids : list string) : Prop :=
  forall batch, In batch (batches manga_ids) -> read_map_of srv batch = [].


(** ** Sinks *)

(** The transport returned for every one of the mutations. *)
Definition accepted (post : dict jvalue -> option exn)
           (posted : list (dict jvalue)) : Prop :=
  Forall (fun v => post v = None) posted.

(** How the mutation loop over [items] ended after [k] mutations, with
    the exception [e] if any: all items were handled, or [int(al_id)] of
    item [k] raised, or the call for the last mutation raised. *)
Definition loop_outcome (float_of_string : string -> option pyfloat)
           (int_of_string : string -> option Z)
           (post : dict jvalue -> option exn) (items : list manga)
           (posted : list (dict jvalue)) (k : nat) (e : option exn) : Prop :=
  match e with
  | None => k = length items /\ accepted post posted
  | Some e =>
      (exists m, nth_error items k = Some m
                 /\ variables_of float_of_string int_of_string m = Raise e
                 /\ accepted post posted)
      \/ (exists before v, posted = before ++ [v]
                           /\ accepted post before /\ post v = Some e)
  end.

(** The variables main.py sends. *)
Definition main_keys (kv : string * jvalue) : bool :=
  String.eqb (fst kv) "mediaId" || String.eqb (fst kv) "status".

(** The tags of the totals in [myinfo]. *)
Definition total_tags : list string :=
  ["user_total_manga"; "user_total_reading"; "user_total_completed";
   "user_total_onhold"; "user_total_dropped"; "user_total_plantoread"].

(** The text [t] as main.py's document holds it. *)
Definition as_text (t : option xtext) : option (list MainRest.cnode) :=
  option_map (fun x => [MainRest.CText x]) t.

(** An entry of main.py's document and one of main2.py's name the same
    manga with the same status. *)
Definition same_entry (e1 : MainRest.element) (e2 : xml) : Prop :=
  (forall tag, In tag ["manga_mangadb_id"; "my_status"] ->
               MainRest.child_content (MainRest.echildren e1) tag
               = as_text (child_text (children_of e2) tag))
  /\ exists t,
       MainRest.child_content (MainRest.echildren e1) "manga_title"
       = Some [MainRest.CSection t]
       /\ child_text (children_of e2) "manga_title" = Some (XCData t).

(** The loop states of the two XML exports agree on the counters and on
    the items set aside. *)
Definition same_counts (a : MainRest.xml_state) (b : xml_state) : Prop :=
  MainRest.total_reading a = total_reading b
  /\ MainRest.total_completed a = total_completed b
  /\ MainRest.total_onhold a = total_onhold b
  /\ MainRest.total_dropped a = total_dropped b
  /\ MainRest.total_plantoread a = total_plantoread b
  /\ MainRest.exported a = exported b
  /\ MainRest.not_found a = not_found b
  /\ MainRest.unlisted a = unlinked b.

(** A progress string of the enrichment: the literal ["0"] or [str] of a
    number clamped at 0. *)
Definition clamped_progress (s : option pystr) : Prop :=
  s = Some (SLit "0") \/ exists k, s = Some (SOfNum (max2 k (NInt 0))).

(** [float("0")] *)
Definition parses_zero (float_of_string : string -> option pyfloat) : Prop :=
  float_of_string "0" = Some (FFin (inject_Z 0)).

(** ** Menu *)



(** ** Logout *)

(** Two states that differ at most in the stored tokens. *)
Definition same_but_tokens (w1 w2 : world) : Prop :=
  SESSION_CREDENTIALS w1 = SESSION_CREDENTIALS w2
  /\ sent w1 = sent w2
  /\ trace w1 = trace w2.

(** Two runs ended alike: with the same result, in states that differ at
    most in the stored tokens. *)
Definition alike {A} (o1 o2 : option (result A * world)) : Prop :=
  match o1, o2 with
  | Some (r1, w1), Some (r2, w2) => r1 = r2 /\ same_but_tokens w1 w2
  | None, None => True
  | _, _ => False
  end.

(** A computation that does not read the stored tokens. *)
Definition blind_to_tokens {A} (c : run A) : Prop :=
  forall w1 w2, same_but_tokens w1 w2 -> alike (c w1) (c w2).


(** Line 186 raises for an answered batch of [todo]. *)
Definition membership_fails (srv : mangadex) (todo : list (list string))
           : Prop :=
  exists batch data,
    In batch todo /\ manga_batch srv batch = Ok data
    /\ membership_raises data = true.


(** The last event of the run from [w] to [w'] is a request that is the
    call [kwargs] up to its headers, and [r] is the network's answer to
    it: the run sent [n] requests before it and the network answers the
    [n]-th with [r]. *)
Definition answers_last_call (net : network) (kwargs : request)
           (w w' : world) (r : response) : Prop :=
  exists q t n,
    same_call q kwargs
    /\ trace w' = trace w ++ t ++ [ERequest q]
    /\ sent w' = S n
    /\ net n q = NetResp r.

End MoreProps.

(* ===================================================================== *)
(** * Further concrete inputs                                            *)
(* ===================================================================== *)

Module MoreExamples.
Import Py Http Main2 Examples.

(** A world without stored credentials. *)
Definition anonymous : world := mkWorld None None 0 [].

(** The metadata call of the second batch fails. *)
Definition srv_second_batch_fails : mangadex :=
  mkMangadex (Some ["en"])
             (fun batch => match batch with
                           | "id101" :: _ => Raise (HTTPError 500)
                           | _ => Ok (map (fun i => item i None) batch)
                           end)
             (fun _ => Some ReadList)
             (fun _ => Some (RatingsDict [])) (fun _ _ => Some []).

(** The status endpoint answers with a library of one item. *)
Definition library_body : value :=
  VDict [("result", VStr "ok");
         ("statuses", VDict [("id1", VStr "reading")])].

Definition net_library : network :=
  fun _ _ => NetResp (mkResponse 200 (Some library_body)).

(** The status endpoint answers 200 with an error body. *)
Definition net_library_error : network :=
  fun _ _ => NetResp (mkResponse 200 (Some (VDict [("result", VStr "error")]))).

(** 101 ids: a full batch and a batch of one. *)
Definition ids_two_batches : list string := repeat "x" 100 ++ ["id101"].

(** The read-chapters call fails; the user rated [id1] with 8. *)
Definition srv_read_fails : mangadex :=
  mkMangadex (Some ["en"])
             (fun _ => Ok [item1; item2])
             (fun _ => None)
             (fun _ => Some (RatingsDict [("id1", [("rating", VInt 8)])]))
             (fun _ _ => Some []).

(** An item with Id-B and no Id-A, and an item with neither. *)
Definition item_b : manga := item "id4" (Some (VDict [("al", VStr "44")])).
Definition item_none : manga := item "id5" (Some (VDict [])).


(** One manga with Id-B; chapter [a] of it is read, and the feed numbers
    that chapter -1, of volume 2. *)
Definition srv_history : mangadex :=
  mkMangadex (Some ["en"])
             (fun _ => Ok [item_b])
             (fun _ => Some (ReadDict [("id4", ["a"])]))
             (fun _ => Some (RatingsDict [("id4", [("rating", VInt 7)])]))
             (fun _ _ => Some chapters_negative).

(** [item_b] as the enrichment returns it from [srv_history]. *)
Definition item_b_enriched : manga :=
  mkManga (Some "id4")
          (mkAttributes [("en", VStr "id4")] (Some (VDict [("al", VStr "44")])) None)
          (Some "reading")
          (Some (SOfNum (NInt 0)))
          (Some (SOfNum (NFloat (FFin (Qmake 2 1)))))
          (Some (VInt 7)).


(** Every call is answered 200 with a body that is no JSON. *)
Definition net_not_json : network :=
  fun _ _ => NetResp (mkResponse 200 None).


(** [logged_in] after the run of [net_expired]: the call, the login and
    the call with the new header were sent, and the new tokens stored. *)
Definition renewed : world :=
  mkWorld (Some fresh_tokens) (Some ("user", "secret")) 3
          [ERequest get_library;
           ERequest (login_request "user" "secret");
           ERequest (set_authorization get_library (VStr "new"))].


(** [float] as [Examples.float_of_decimal], reading [nan] too. *)
Definition float_with_nan (s : string) : option pyfloat :=
  if String.eqb s "nan" then Some FNaN else float_of_decimal s.

(** The environment lets every document be written. *)
Definition writes_all : xml -> option exn := fun _ => None.
Definition main_writes_all : MainRest.element -> option exn := fun _ => None.


(** The authorization always succeeds. *)
Definition authorized : option exn := None.

(** An item whose Id-B is no number. *)
Definition item_al_word : manga := item "id7" (Some (VDict [("al", VStr "abc")])).

(** An expired session on a bad line: every call is answered 401, every
    login succeeds, and every repeated call hits a connection error. *)
Definition net_relogin_reset : network :=
  fun n _ => match (n mod 3)%nat with
             | 0 => NetResp (mkResponse 401 None)
             | 1 => NetResp (mkResponse 200 (Some fresh_tokens))
             | _ => NetRaise ConnectionError
             end.

End MoreExamples.

(* ===================================================================== *)
(** * The retry loop of main2.py as a relation                           *)
(* ===================================================================== *)

Module LoopRel.
Import Py Http Main2.

(** The credentials line 681 finds for a call. *)
Definition stored_credentials (kwargs : request) (w : world)
           : option (string * string) :=
  if negb (contains "LOGIN_ENDPOINT" (url kwargs))
  then SESSION_CREDENTIALS w else None.

Section Relation.
Variable net : network.
Variable login : string -> string -> run value.
Variable max_retries : nat.
Variable delay : Z.

(** The ways one attempt returns a response: the first answer, when it
    is no error, or the answer to the call repeated after a login. *)
Inductive attempt_returns (kwargs : request) (w : world)
  : response -> world -> Prop :=
| returned_at_once (r : response) :
    net (sent w) kwargs = NetResp r ->
    raise_for_status r = None ->
    status_code r <> 401%Z \/ stored_credentials kwargs w = None ->
    attempt_returns kwargs w r (send w kwargs)
| returned_after_login (r : response) (credentials : string * string)
                       (tokens session : value) (w2 : world) (r' : response) :
    net (sent w) kwargs = NetResp r ->
    status_code r = 401%Z ->
    stored_credentials kwargs w = Some credentials ->
    login (fst credentials) (snd credentials) (send w kwargs)
    = Some (Ok tokens, w2) ->
    session_of tokens = Ok session ->
    net (sent w2) (set_authorization kwargs session) = NetResp r' ->
    raise_for_status r' = None ->
    attempt_returns kwargs w r'
      (send (save_session tokens (Some credentials) w2)
            (set_authorization kwargs session)).

(** The ways one attempt hands an exception to the handlers of lines
    705-714, with the [kwargs] and the state at that point. *)
Inductive attempt_raises (kwargs : request) (w : world)
  : exn -> request -> world -> Prop :=
| raised_by_call (e : exn) :
    net (sent w) kwargs = NetRaise e ->
    attempt_raises kwargs w e kwargs (send w kwargs)
| raised_by_status (r : response) (e : exn) :
    net (sent w) kwargs = NetResp r ->
    raise_for_status r = Some e ->
    status_code r <> 401%Z \/ stored_credentials kwargs w = None ->
    attempt_raises kwargs w e kwargs (send w kwargs)
| raised_by_login (r : response) (credentials : string * string)
                  (e : exn) (w2 : world) :
    net (sent w) kwargs = NetResp r ->
    status_code r = 401%Z ->
    stored_credentials kwargs w = Some credentials ->
    login (fst credentials) (snd credentials) (send w kwargs)
    = Some (Raise e, w2) ->
    attempt_raises kwargs w e kwargs w2
| raised_by_tokens (r : response) (credentials : string * string)
                   (tokens : value) (e : exn) (w2 : world) :
    net (sent w) kwargs = NetResp r ->
    status_code r = 401%Z ->
    stored_credentials kwargs w = Some credentials ->
    login (fst credentials) (snd credentials) (send w kwargs)
    = Some (Ok tokens, w2) ->
    session_of tokens = Raise e ->
    attempt_raises kwargs w e kwargs (save_session tokens (Some credentials) w2)
| raised_by_repeated_call (r : response) (credentials : string * string)
                          (tokens session : value) (e : exn) (w2 : world) :
    net (sent w) kwargs = NetResp r ->
    status_code r = 401%Z ->
    stored_credentials kwargs w = Some credentials ->
    login (fst credentials) (snd credentials) (send w kwargs)
    = Some (Ok tokens, w2) ->
    session_of tokens = Ok session ->
    net (sent w2) (set_authorization kwargs session) = NetRaise e ->
    attempt_raises kwargs w e (set_authorization kwargs session)
      (send (save_session tokens (Some credentials) w2)
            (set_authorization kwargs session))
| raised_by_repeated_status (r : response) (credentials : string * string)
                            (tokens session : value) (e : exn) (w2 : world)
                            (r' : response) :
    net (sent w) kwargs = NetResp r ->
    status_code r = 401%Z ->
    stored_credentials kwargs w = Some credentials ->
    login (fst credentials) (snd credentials) (send w kwargs)
    = Some (Ok tokens, w2) ->
    session_of tokens = Ok session ->
    net (sent w2) (set_authorization kwargs session) = NetResp r' ->
    raise_for_status r' = Some e ->
    attempt_raises kwargs w e (set_authorization kwargs session)
      (send (save_session tokens (Some credentials) w2)
            (set_authorization kwargs session)).

(** How the loop over the attempts left ends. *)
Inductive loop_ends
  : list nat -> request -> world -> result (option response) -> world -> Prop :=
| ends_exhausted (kwargs : request) (w : world) :
    loop_ends [] kwargs w (Ok None) w
| ends_returning (attempt : nat) (rest : list nat) (kwargs : request)
                 (w : world) (r : response) (w1 : world) :
    attempt_returns kwargs w r w1 ->
    loop_ends (attempt :: rest) kwargs w (Ok (Some r)) w1
| ends_raising (attempt : nat) (rest : list nat) (kwargs : request)
               (w : world) (e : exn) (kwargs' : request) (w1 : world) :
    attempt_raises kwargs w e kwargs' w1 ->
    is_network_failure e && (attempt <? max_retries - 1)%nat = false ->
    loop_ends (attempt :: rest) kwargs w (Raise e) w1
| ends_later (attempt : nat) (rest : list nat) (kwargs : request)
             (w : world) (e : exn) (kwargs' : request) (w1 : world)
             (out : result (option response)) (w' : world) :
    attempt_raises kwargs w e kwargs' w1 ->
    is_network_failure e = true ->
    (attempt <? max_retries - 1)%nat = true ->
    loop_ends rest kwargs' (sleep delay w1) out w' ->
    loop_ends (attempt :: rest) kwargs w out w'.
End Relation.

End LoopRel.

(* ===================================================================== *)
(** * Transport layer: retry and re-authentication                       *)
(* ===================================================================== *)

Module TransportFacts.
Import Py Http Props.

Lemma after_failures_world (kwargs : request) (delay : Z) (k : nat) :
  forall w,
    after_failures kwargs delay k w
    = mkWorld (SESSION_TOKENS w) (SESSION_CREDENTIALS w) (sent w + k)
              (trace w ++ failed_attempts kwargs delay k).
Proof.
  induction k as [|k IH]; intros w.
  - destruct w; unfold failed_attempts; simpl.
    now rewrite Nat.add_0_r, app_nil_r.
  - simpl after_failures. rewrite IH. unfold failed_attempts. simpl.
    rewrite <- !app_assoc. simpl. f_equal. lia.
Qed.

Lemma fails_first_head net kwargs w k :
  fails_first net kwargs w (S k) ->
  exists e, net (sent w) kwargs = NetRaise e /\ is_network_failure e = true.
Proof.
  intros H. destruct (H 0%nat) as [e He]; [lia|].
  rewrite Nat.add_0_r in He. now exists e.
Qed.

Lemma fails_first_tail net kwargs delay w k :
  fails_first net kwargs w (S k) ->
  fails_first net kwargs (sleep delay (send w kwargs)) k.
Proof.
  intros H i Hi. simpl. destruct (H (S i)) as [e He]; [lia|].
  exists e. now rewrite Nat.add_succ_r in He.
Qed.

Lemma seq_step (a m : nat) :
  (a < m)%nat -> seq a (m - a) = a :: seq (S a) (m - S a).
Proof.
  intros H. replace (m - a)%nat with (S (m - S a)) by lia. reflexivity.
Qed.

(** main.py: [k] failed attempts leave the loop at attempt [a + k]. *)
Lemma main_retry_failures net kwargs m delay :
  forall k a w,
    (a + k < m)%nat ->
    fails_first net kwargs w k ->
    Main.retry_loop net m delay (seq a (m - a)) kwargs w
    = Main.retry_loop net m delay (seq (a + k) (m - (a + k))) kwargs
                      (after_failures kwargs delay k w).
Proof.
  induction k as [|k IH]; intros a w Hlt Hf.
  - now rewrite Nat.add_0_r.
  - destruct (fails_first_head _ _ _ _ Hf) as [e [He Hn]].
    rewrite seq_step by lia. simpl Main.retry_loop. rewrite He, Hn.
    replace (a <? m - 1)%nat with true
      by (symmetry; apply Nat.ltb_lt; lia).
    rewrite (IH (S a)); [|lia|now apply fails_first_tail].
    now rewrite Nat.add_succ_r.
Qed.

(** main2.py: the same, whatever [login] does. *)
Lemma main2_retry_failures net login kwargs m delay :
  forall k a w,
    (a + k < m)%nat ->
    fails_first net kwargs w k ->
    Main2.retry_loop net login m delay (seq a (m - a)) kwargs w
    = Main2.retry_loop net login m delay (seq (a + k) (m - (a + k))) kwargs
                       (after_failures kwargs delay k w).
Proof.
  induction k as [|k IH]; intros a w Hlt Hf.
  - now rewrite Nat.add_0_r.
  - destruct (fails_first_head _ _ _ _ Hf) as [e [He Hn]].
    rewrite seq_step by lia. simpl Main2.retry_loop. rewrite He.
    unfold Main2.handlers at 1. rewrite Hn.
    replace (a <? m - 1)%nat with true
      by (symmetry; apply Nat.ltb_lt; lia).
    rewrite (IH (S a)); [|lia|now apply fails_first_tail].
    now rewrite Nat.add_succ_r.
Qed.

Lemma sent_after_failures kwargs delay k w :
  sent (after_failures kwargs delay k w) = (sent w + k)%nat.
Proof. now rewrite after_failures_world. Qed.

Lemma send_after_failures kwargs delay k w :
  send (after_failures kwargs delay k w) kwargs
  = mkWorld (SESSION_TOKENS w) (SESSION_CREDENTIALS w) (sent w + k + 1)
            (trace w ++ failed_attempts kwargs delay k ++ [ERequest kwargs]).
Proof.
  rewrite after_failures_world. unfold send. simpl.
  rewrite <- app_assoc. f_equal. lia.
Qed.

Lemma raise_for_status_error r :
  (400 <= status_code r < 600)%Z ->
  raise_for_status r = Some (HTTPError (status_code r)).
Proof.
  intros [H1 H2]. unfold raise_for_status.
  apply Z.leb_le in H1. apply Z.ltb_lt in H2. now rewrite H1, H2.
Qed.

(** What the attempt after [k] failures does, in both variants. *)
Lemma last_attempt_main net kwargs w k :
  (k <= 5)%nat ->
  fails_first net kwargs w k ->
  Main.request_with_retry net kwargs 6 10%Z w
  = Main.retry_loop net 6 10%Z (seq k (6 - k)) kwargs
                    (after_failures kwargs 10%Z k w).
Proof.
  intros Hk Hf. unfold Main.request_with_retry.
  change (seq 0 6) with (seq 0 (6 - 0)).
  now rewrite (main_retry_failures net kwargs 6 10%Z k 0 w) by (lia || assumption).
Qed.

Lemma last_attempt_main2 net kwargs w k depth :
  (k <= 5)%nat ->
  fails_first net kwargs w k ->
  Main2.request_with_retry net (S depth) kwargs 6 10%Z w
  = Main2.retry_loop net
      (Main2.login_with (fun r => Main2.request_with_retry net depth r 6 10%Z))
      6 10%Z (seq k (6 - k)) kwargs (after_failures kwargs 10%Z k w).
Proof.
  intros Hk Hf.
  change (Main2.request_with_retry net (S depth) kwargs 6 10%Z w)
    with (Main2.retry_loop net
            (Main2.login_with (fun r => Main2.request_with_retry net depth r 6 10%Z))
            6 10%Z (seq 0 (6 - 0)) kwargs w).
  now rewrite (main2_retry_failures net _ kwargs 6 10%Z k 0 w) by (lia || assumption).
Qed.

Lemma count_requests_failed kwargs delay k :
  count_requests (failed_attempts kwargs delay k ++ [ERequest kwargs]) = S k.
Proof.
  unfold count_requests, failed_attempts.
  induction k as [|k IH]; simpl; [reflexivity|]. now rewrite IH.
Qed.

Lemma count_sleeps_failed kwargs delay k :
  count_sleeps delay (failed_attempts kwargs delay k ++ [ERequest kwargs]) = k.
Proof.
  unfold count_sleeps, failed_attempts.
  induction k as [|k IH]; simpl; [reflexivity|].
  rewrite Z.eqb_refl. simpl. now rewrite IH.
Qed.


Ltac after_failed_attempts Hk Hf :=
  split;
  [ rewrite (last_attempt_main _ _ _ _ Hk Hf)
  | intros depth; rewrite (last_attempt_main2 _ _ _ _ depth Hk Hf) ].

(** Both variants of [request_with_retry], called with the defaults,
    after [k] calls that failed with a connection error or a timeout:
    the call was sent again after each sleep of 10 seconds; when the
    sixth attempt fails too, its failure is raised, after 6 calls and 5
    sleeps; an answer with a status below 400 is returned; an answer
    with an error status other than 401 raises [HTTPError] at once, with
    no further call. *)
Lemma after_consecutive_failures :
  forall (net : network) (kwargs : request) (w : world) (k : nat),
    (k <= 5)%nat ->
    fails_first net kwargs w k ->
    let t := failed_attempts kwargs 10%Z k ++ [ERequest kwargs] in
    let w' := mkWorld (SESSION_TOKENS w) (SESSION_CREDENTIALS w)
                      (sent w + k + 1) (trace w ++ t) in
    (forall e, k = 5%nat ->
               net (sent w + 5)%nat kwargs = NetRaise e ->
               is_network_failure e = true ->
               both_variants net kwargs w (Raise e, w'))
    /\ (forall r, net (sent w + k)%nat kwargs = NetResp r ->
                  raise_for_status r = None ->
                  both_variants net kwargs w (Ok (Some r), w'))
    /\ (forall r, net (sent w + k)%nat kwargs = NetResp r ->
                  status_code r <> 401%Z ->
                  (400 <= status_code r < 600)%Z ->
                  both_variants net kwargs w (Raise (HTTPError (status_code r)), w'))
    /\ count_requests t = S k
    /\ count_sleeps 10%Z t = k.
Proof.
  intros net kwargs w k Hk Hf t w'. subst t w'.
  split; [|split; [|split; [|split]]].
  - intros e Hk5 He Hn. rewrite <- send_after_failures.
    assert (Hlast : (k <? 6 - 1)%nat = false) by (apply Nat.ltb_ge; lia).
    after_failed_attempts Hk Hf;
      rewrite seq_step by lia;
      cbn [Main.retry_loop Main2.retry_loop];
      rewrite sent_after_failures;
      replace (sent w + k)%nat with (sent w + 5)%nat by lia;
      rewrite He; [|unfold Main2.handlers];
      now rewrite Hn, Hlast.
  - intros r Hr Hs. rewrite <- send_after_failures.
    after_failed_attempts Hk Hf;
      rewrite seq_step by lia;
      cbn [Main.retry_loop Main2.retry_loop];
      rewrite sent_after_failures, Hr, Hs; [reflexivity|].
    unfold raise_for_status in Hs.
    destruct (status_code r =? 401)%Z eqn:E; [|reflexivity].
    apply Z.eqb_eq in E. rewrite E in Hs. discriminate.
  - intros r Hr H401 Hs. rewrite <- send_after_failures.
    pose proof (raise_for_status_error r Hs) as Hraise.
    after_failed_attempts Hk Hf;
      rewrite seq_step by lia;
      cbn [Main.retry_loop Main2.retry_loop];
      rewrite sent_after_failures, Hr; [now rewrite Hraise|].
    apply Z.eqb_neq in H401. rewrite H401, Hraise. reflexivity.
  - apply count_requests_failed.
  - apply count_sleeps_failed.
Qed.

(** The network is down: six calls, five sleeps, then [ConnectionError]. *)
Lemma network_down_fails_five_times :
  fails_first Examples.net_down Examples.get_library Examples.logged_in 5.
Proof. intros i _. exists ConnectionError. split; reflexivity. Qed.

(** Two timeouts and then a 500: three calls, two sleeps, [HTTPError]. *)
Example flaky_then_500 :
  Main2.request_with_retry Examples.net_flaky_500 1 Examples.get_library 6 10%Z
                           Examples.logged_in
  = Some (Raise (HTTPError 500),
          mkWorld (SESSION_TOKENS Examples.logged_in)
                  (SESSION_CREDENTIALS Examples.logged_in) 3
                  [ERequest Examples.get_library; ESleep 10;
                   ERequest Examples.get_library; ESleep 10;
                   ERequest Examples.get_library]).
Proof. reflexivity. Qed.

(** The test of line 681 looks for the text [LOGIN_ENDPOINT] in the URL,
    and the login URL does not contain it. *)
Lemma login_url_passes_guard :
  contains "LOGIN_ENDPOINT" LOGIN_ENDPOINT = false.
Proof. reflexivity. Qed.

(** ** Traces only grow *)

Lemma extends_refl (w : world) : extends w w.
Proof. exists []. now rewrite app_nil_r. Qed.

Lemma extends_trans (w1 w2 w3 : world) :
  extends w1 w2 -> extends w2 w3 -> extends w1 w3.
Proof.
  intros [t1 H1] [t2 H2]. exists (t1 ++ t2). now rewrite H2, H1, app_assoc.
Qed.

Lemma extends_send (w : world) (r : request) : extends w (send w r).
Proof. now exists [ERequest r]. Qed.

Lemma extends_sleep (w : world) (d : Z) : extends w (sleep d w).
Proof. now exists [ESleep d]. Qed.

Lemma extends_save_session (w : world) tokens credentials :
  extends w (Main2.save_session tokens credentials w).
Proof. exists []. simpl. now rewrite app_nil_r. Qed.

Create HintDb trace.
#[local] Hint Resolve extends_refl extends_send extends_sleep
  extends_save_session : trace.

Ltac chain w := apply (extends_trans _ w); eauto with trace.

Ltac by_growth Hg H :=
  let G := fresh in
  pose proof Hg as G; unfold growing in G; apply G in H; clear G.

Lemma growing_handlers max_retries delay attempt next e kwargs :
  (forall kw, growing (next kw)) ->
  growing (Main2.handlers max_retries delay attempt next e kwargs).
Proof.
  intros Hnext w out w' H. unfold Main2.handlers in H.
  destruct (is_network_failure e); [destruct (attempt <? max_retries - 1)%nat|];
    try (injection H as <- <-; auto with trace).
  chain (sleep delay w). now by_growth (Hnext kwargs) H.
Qed.

Lemma growing_retry_loop net login max_retries delay :
  (forall u p, growing (login u p)) ->
  forall attempts kwargs,
    growing (Main2.retry_loop net login max_retries delay attempts kwargs).
Proof.
  intros Hlogin. induction attempts as [|attempt rest IH]; intros kwargs w out w' H.
  - injection H as <- <-. auto with trace.
  - pose proof (fun e kw => growing_handlers max_retries delay attempt
                                  (Main2.retry_loop net login max_retries delay rest)
                                  e kw IH) as Hh.
    cbn [Main2.retry_loop] in H.
    destruct (net (sent w) kwargs) as [e|response].
    { chain (send w kwargs). now by_growth Hh H. }
    assert (Hfin : forall out w',
               match raise_for_status response with
               | Some e => Main2.handlers max_retries delay attempt
                             (Main2.retry_loop net login max_retries delay rest)
                             e kwargs (send w kwargs)
               | None => Some (Ok (Some response), send w kwargs)
               end = Some (out, w') -> extends w w').
    { intros o x Hx. chain (send w kwargs).
      destruct (raise_for_status response).
      - now by_growth Hh Hx.
      - injection Hx as <- <-. auto with trace. }
    destruct (status_code response =? 401)%Z; [|exact (Hfin _ _ H)].
    destruct (if negb (contains "LOGIN_ENDPOINT" (url kwargs))
              then Main2.load_credentials (send w kwargs) else None)
      as [[username password]|].
    + destruct (login username password (send w kwargs))
        as [[[tokens|e] w2]|] eqn:Hl; [| |discriminate].
      * by_growth Hlogin Hl.
        chain (send w kwargs). chain w2.
        destruct (Main2.session_of tokens) as [session|e].
        -- chain (Main2.save_session tokens (Some (username, password)) w2).
           match type of H with
           | context [net ?n ?k] => destruct (net n k) as [e|response']
           end.
           ++ match type of H with
              | Main2.handlers _ _ _ _ _ _ ?x = _ => chain x
              end.
              now by_growth Hh H.
           ++ match type of H with
              | context [send ?a ?b] => chain (send a b)
              end.
              destruct (raise_for_status response').
              ** now by_growth Hh H.
              ** injection H as <- <-. auto with trace.
        -- chain (Main2.save_session tokens (Some (username, password)) w2).
           now by_growth Hh H.
      * by_growth Hlogin Hl. chain (send w kwargs). chain w2.
        now by_growth Hh H.
    + destruct (raise_for_status response) eqn:Hr.
      * chain (send w kwargs). now by_growth Hh H.
      * injection H as <- <-. auto with trace.
Qed.

Lemma growing_login_with request_with_retry username password :
  (forall r, growing (request_with_retry r)) ->
  growing (Main2.login_with request_with_retry username password).
Proof.
  intros Hr w out w' H. unfold Main2.login_with in H.
  destruct (request_with_retry (Main2.login_request username password) w)
    as [[[[resp|]|e] w1]|] eqn:E; [| | |discriminate];
    by_growth Hr E.
  - destruct (status_code resp =? 401)%Z;
      repeat match type of H with
             | context [match ?x with _ => _ end] => destruct x
             | context [if ?x then _ else _] => destruct x
             end;
      injection H as <- <-; exact E.
  - injection H as <- <-. exact E.
  - injection H as <- <-. exact E.
Qed.

Lemma growing_request_with_retry net :
  forall depth kwargs max_retries delay,
    growing (Main2.request_with_retry net depth kwargs max_retries delay).
Proof.
  induction depth as [|depth IH]; intros kwargs max_retries delay.
  - intros w out w' H. discriminate.
  - cbn [Main2.request_with_retry]. apply growing_retry_loop.
    intros u p. apply growing_login_with. intros r. apply IH.
Qed.

(** A call that ends began by sending its request. *)
Lemma request_is_sent_first net depth kwargs w out w' :
  Main2.request_with_retry net depth kwargs 6 10%Z w = Some (out, w') ->
  exists t, trace w' = trace w ++ ERequest kwargs :: t.
Proof.
  destruct depth as [|depth]; [discriminate|]. intros H.
  cbn [Main2.request_with_retry] in H.
  set (login := Main2.login_with _) in H.
  assert (Hlogin : forall u p, growing (login u p)).
  { intros u p. apply growing_login_with. intros r.
    apply growing_request_with_retry. }
  pose proof (growing_retry_loop net login 6 10%Z Hlogin) as Hloop.
  pose proof (fun a e kw => growing_handlers 6 10%Z a _ e kw
                              (Hloop (seq 1 5))) as Hh.
  assert (Hgo : forall x, extends (send w kwargs) x ->
                          exists t, trace x = trace w ++ ERequest kwargs :: t).
  { intros x [t Ht]. exists t. rewrite Ht. simpl. now rewrite <- app_assoc. }
  apply Hgo.
  change (seq 0 6) with (0%nat :: seq 1 5) in H.
  cbn [Main2.retry_loop] in H.
  destruct (net (sent w) kwargs) as [e|response].
  { now by_growth Hh H. }
  assert (Hfin : forall out w',
             match raise_for_status response with
             | Some e => Main2.handlers 6 10%Z 0
                           (Main2.retry_loop net login 6 10%Z (seq 1 5))
                           e kwargs (send w kwargs)
             | None => Some (Ok (Some response), send w kwargs)
             end = Some (out, w') -> extends (send w kwargs) w').
  { intros o x Hx. destruct (raise_for_status response).
    - now by_growth Hh Hx.
    - injection Hx as <- <-. auto with trace. }
  destruct (status_code response =? 401)%Z; [|exact (Hfin _ _ H)].
  destruct (if negb (contains "LOGIN_ENDPOINT" (url kwargs))
            then Main2.load_credentials (send w kwargs) else None)
    as [[username password]|].
  - destruct (login username password (send w kwargs))
      as [[[tokens|e] w2]|] eqn:Hl; [| |discriminate];
      by_growth Hlogin Hl; chain w2.
    + chain (Main2.save_session tokens (Some (username, password)) w2).
      destruct (Main2.session_of tokens) as [session|e];
        [|now by_growth Hh H].
      match type of H with
      | context [net ?n ?k] => destruct (net n k) as [e|response']
      end.
      * match type of H with
        | Main2.handlers _ _ _ _ _ _ ?x = _ => chain x
        end.
        now by_growth Hh H.
      * match type of H with
        | context [send ?a ?b] => chain (send a b)
        end.
        destruct (raise_for_status response').
        -- now by_growth Hh H.
        -- injection H as <- <-. auto with trace.
    + now by_growth Hh H.
  - destruct (raise_for_status response) eqn:Hr.
    + now by_growth Hh H.
    + injection H as <- <-. auto with trace.
Qed.

(** [login] ends in the state its [request_with_retry] ended in. *)
Lemma login_with_world request_with_retry username password w out w' :
  Main2.login_with request_with_retry username password w = Some (out, w') ->
  exists res,
    request_with_retry (Main2.login_request username password) w = Some (res, w').
Proof.
  unfold Main2.login_with. intros H.
  destruct (request_with_retry (Main2.login_request username password) w)
    as [[[[resp|]|e] w1]|]; [| | |discriminate].
  - destruct (status_code resp =? 401)%Z;
      repeat match type of H with
             | context [match ?x with _ => _ end] => destruct x
             | context [if ?x then _ else _] => destruct x
             end;
      injection H as <- <-; now eexists.
  - injection H as <- <-. now eexists.
  - injection H as <- <-. now eexists.
Qed.

(** An attempt answered by 401 while the guard of line 681 lets the
    stored credentials through runs [login] with them. *)
Lemma relogin_step net login max_retries delay attempt rest kwargs w out w'
      (r : response) (username password : string) :
  (forall u p, growing (login u p)) ->
  net (sent w) kwargs = NetResp r ->
  status_code r = 401%Z ->
  contains "LOGIN_ENDPOINT" (url kwargs) = false ->
  SESSION_CREDENTIALS w = Some (username, password) ->
  Main2.retry_loop net login max_retries delay (attempt :: rest) kwargs w
  = Some (out, w') ->
  exists res w2,
    login username password (send w kwargs) = Some (res, w2)
    /\ extends w2 w'.
Proof.
  intros Hlogin Hnet H401 Hguard Hcred H.
  pose proof (growing_retry_loop net login max_retries delay Hlogin rest) as IH.
  pose proof (fun e kw => growing_handlers max_retries delay attempt
                            (Main2.retry_loop net login max_retries delay rest)
                            e kw IH) as Hh.
  cbn [Main2.retry_loop] in H. rewrite Hnet, H401, Hguard in H.
  cbn [negb Z.eqb Pos.eqb Main2.load_credentials send SESSION_CREDENTIALS] in H.
  rewrite Hcred in H.
  destruct (login username password (send w kwargs))
    as [[[tokens|e] w2]|] eqn:Hl; [| |discriminate];
    (do 2 eexists; split; [reflexivity|]).
  - chain (Main2.save_session tokens (Some (username, password)) w2).
    destruct (Main2.session_of tokens) as [session|e];
      [|now by_growth Hh H].
    match type of H with
    | context [net ?n ?k] => destruct (net n k) as [e|response']
    end.
    + match type of H with
      | Main2.handlers _ _ _ _ _ _ ?x = _ => chain x
      end.
      now by_growth Hh H.
    + match type of H with
      | context [send ?a ?b] => chain (send a b)
      end.
      destruct (raise_for_status response').
      * now by_growth Hh H.
      * injection H as <- <-. auto with trace.
  - now by_growth Hh H.
Qed.

(** C3.  On the code: when the login endpoint itself answers 401 and
    credentials are stored, [request_with_retry] re-authenticates; the
    call after the login request is a second login request, with the
    stored credentials. *)
Theorem login_401_reauthenticates :
  forall (net : network) (depth : nat) (w : world)
         (username password stored_username stored_password : string)
         (r : response),
    SESSION_CREDENTIALS w = Some (stored_username, stored_password) ->
    net (sent w) (Main2.login_request username password) = NetResp r ->
    status_code r = 401%Z ->
    forall out w',
      Main2.request_with_retry net depth
        (Main2.login_request username password) 6 10%Z w = Some (out, w') ->
      exists t,
        trace w'
        = trace w
          ++ ERequest (Main2.login_request username password)
          :: ERequest (Main2.login_request stored_username stored_password)
          :: t.
Proof.
  intros net depth w u p su sp r Hcred Hnet H401 out w' H.
  destruct depth as [|depth]; [discriminate|].
  cbn [Main2.request_with_retry] in H.
  change (seq 0 6) with (0%nat :: seq 1 5) in H.
  eapply relogin_step in H; eauto using login_url_passes_guard.
  - destruct H as [res [w2 [Hl [t2 Ht2]]]].
    apply login_with_world in Hl. destruct Hl as [res' Hl].
    apply request_is_sent_first in Hl. destruct Hl as [t1 Ht1].
    exists (t1 ++ t2). rewrite Ht2, Ht1. simpl.
    now rewrite <- !app_assoc.
  - intros a b. apply growing_login_with. intros q.
    apply growing_request_with_retry.
Qed.

(** After a logout the user types a wrong password: the login endpoint
    answers 401, the code logs in with the stored credentials (second
    call), stores the new tokens and repeats the call (third call),
    whose 401 it raises. *)
Example login_401_run :
  Main2.request_with_retry Examples.net_login_401 2
    (Main2.login_request "user" "typo") 6 10%Z Examples.logged_out
  = Some (Raise (HTTPError 401),
          mkWorld (Some Examples.fresh_tokens) (Some ("user", "secret")) 3
                  [ERequest (Main2.login_request "user" "typo");
                   ERequest (Main2.login_request "user" "secret");
                   ERequest (mkRequest "POST" LOGIN_ENDPOINT
                               (Some [("Authorization", HBearer (VStr "new"))])
                               (VDict [("username", VStr "user");
                                       ("password", VStr "typo")]))]).
Proof. reflexivity. Qed.

Lemma login_401_reauthenticates_witness :
  exists out w',
    Main2.request_with_retry Examples.net_login_401 2
      (Main2.login_request "user" "typo") 6 10%Z Examples.logged_out
    = Some (out, w')
    /\ exists t,
         trace w'
         = trace Examples.logged_out
           ++ ERequest (Main2.login_request "user" "typo")
           :: ERequest (Main2.login_request "user" "secret")
           :: t.
Proof.
  eexists. eexists. split; [reflexivity|].
  exact (login_401_reauthenticates Examples.net_login_401 2 Examples.logged_out
           "user" "typo" "user" "secret" (mkResponse 401 None)
           eq_refl eq_refl eq_refl _ _ eq_refl).
Defined.

(** While the login endpoint keeps answering 401, every login calls
    [request_with_retry], which calls [login] again: whatever the
    recursion limit, the nesting reaches it and the call ends with
    RecursionError. *)
Lemma login_401_forever_reaches_the_recursion_limit :
  forall (depth : nat) (w : world) (username password : string),
    SESSION_CREDENTIALS w <> None ->
    Main2.request_with_retry Examples.net_unauthorized depth
      (Main2.login_request username password) 6 10%Z w = None.
Proof.
  induction depth as [|depth IH]; intros w u p Hcred; [reflexivity|].
  cbn [Main2.request_with_retry].
  change (seq 0 6) with (0%nat :: seq 1 5).
  cbn [Main2.retry_loop]. unfold Examples.net_unauthorized at 1.
  cbn [status_code Z.eqb Pos.eqb].
  change (contains "LOGIN_ENDPOINT" (url (Main2.login_request u p))) with false.
  cbn [negb Main2.load_credentials send SESSION_CREDENTIALS].
  destruct (SESSION_CREDENTIALS w) as [[su sp]|] eqn:E; [|congruence].
  unfold Main2.login_with at 1. rewrite IH; [reflexivity|].
  simpl. rewrite E. discriminate.
Qed.

(** An expired session on another endpoint: one login, the tokens are
    replaced, the call is repeated once with the new header and its
    answer is returned. *)
Example expired_session_reauthenticates_once :
  Main2.request_with_retry Examples.net_expired 2 Examples.get_library 6 10%Z
                           Examples.logged_in
  = Some (Ok (Some (mkResponse 200 (Some (VDict [("result", VStr "ok")])))),
          mkWorld (Some Examples.fresh_tokens) (Some ("user", "secret")) 3
                  [ERequest Examples.get_library;
                   ERequest (Main2.login_request "user" "secret");
                   ERequest (mkRequest "GET" MANGA_LIBRARY_ENDPOINT
                               (Some [("Authorization", HBearer (VStr "new"))])
                               VNone)]).
Proof. reflexivity. Qed.

(** When the repeated call fails with a connection error the loop goes
    on: it sleeps and sends the call a third time. *)
Example repeated_call_is_retried_on_network_failure :
  Main2.request_with_retry Examples.net_expired_then_reset 2 Examples.get_library
                           6 10%Z Examples.logged_in
  = Some (Ok (Some (mkResponse 200 (Some (VDict [("result", VStr "ok")])))),
          mkWorld (Some Examples.fresh_tokens) (Some ("user", "secret")) 4
                  (let again :=
                     mkRequest "GET" MANGA_LIBRARY_ENDPOINT
                               (Some [("Authorization", HBearer (VStr "new"))])
                               VNone in
                   [ERequest Examples.get_library;
                    ERequest (Main2.login_request "user" "secret");
                    ERequest again; ESleep 10; ERequest again])).
Proof. reflexivity. Qed.

End TransportFacts.

(* ===================================================================== *)
(** * Metadata enrichment                                                *)
(* ===================================================================== *)

Module EnrichmentFacts.
Import Py Http Main2 Props.

(** ** Batching *)

Lemma firstn_plus {A} (a b : nat) : forall l : list A,
  firstn (a + b) l = firstn a l ++ firstn b (skipn a l).
Proof.
  induction a as [|a IH]; intros l; [reflexivity|].
  destruct l as [|x l]; simpl.
  - now rewrite firstn_nil.
  - now rewrite IH.
Qed.

Lemma slice_chunk {A} (l : list A) (n k : nat) :
  slice l (k * n) (k * n + n) = firstn n (skipn (k * n) l).
Proof. unfold slice. f_equal. lia. Qed.

(** The first [k] slices of width [n] make up the first [k * n] elements. *)
Lemma concat_slices {A} (l : list A) (n k : nat) :
  concat (map (fun i => slice l i (i + n)) (map (fun j => j * n) (seq 0 k)))
  = firstn (k * n) l.
Proof.
  induction k as [|k IH]; [reflexivity|].
  rewrite seq_S, !map_app, concat_app, IH. simpl.
  rewrite app_nil_r, slice_chunk.
  replace (n + k * n)%nat with (k * n + n)%nat by lia.
  now rewrite firstn_plus.
Qed.

Lemma range_covers (len n : nat) :
  (0 < n)%nat -> (len <= (len + n - 1) / n * n)%nat.
Proof.
  intros Hn.
  pose proof (Nat.div_mod_eq (len + n - 1) n) as E.
  pose proof (Nat.mod_upper_bound (len + n - 1) n) as U.
  nia.
Qed.

(** The batches, in order, are the list of ids cut in pieces. *)
Lemma concat_batches (manga_ids : list string) :
  concat (batches manga_ids) = manga_ids.
Proof.
  unfold batches, range_step. rewrite concat_slices.
  apply firstn_all2. apply range_covers. unfold batch_size. lia.
Qed.

(** No batch is longer than 100 ids. *)
Lemma batches_at_most_100 (manga_ids batch : list string) :
  In batch (batches manga_ids) -> (length batch <= 100)%nat.
Proof.
  unfold batches. rewrite in_map_iff. intros [i [<- _]].
  unfold slice. rewrite length_firstn. unfold batch_size. lia.
Qed.

(** ** The two loops over a batch *)

Section Batch.
Variable float_of_string : string -> option pyfloat.
Variable srv : mangadex.
Variable status_map : dict string.
Variable user_language : list string.
Variable read_status_map : dict (list string).
Variable ratings_map : dict (dict value).

Let one := enrich_one status_map user_language read_status_map ratings_map
                      float_of_string srv.

Lemma update_at_app (f : manga -> manga) (pre : list manga) (m : manga)
      (rest : list manga) :
  update_at (length pre) f (pre ++ m :: rest) = pre ++ f m :: rest.
Proof. induction pre as [|x pre IH]; simpl; [reflexivity|now rewrite IH]. Qed.

(** The futures point at the objects of [data]: running the second loop
    on the outcome of the first updates every object in place. *)
Lemma two_loops_pointwise :
  forall (data pre : list manga),
    let '(data', futures) :=
      first_loop srv status_map user_language read_status_map (length pre) data in
    second_loop float_of_string ratings_map futures (pre ++ data')
    = pre ++ map one data.
Proof.
  induction data as [|m rest IH]; intros pre.
  - reflexivity.
  - simpl first_loop.
    specialize (IH (pre ++ [match submit srv status_map user_language
                                        read_status_map m with
                            | (m', Some chs) => merge float_of_string ratings_map chs m'
                            | (m', None) => m'
                            end])).
    rewrite length_app in IH. simpl in IH. rewrite Nat.add_1_r in IH.
    subst one. unfold enrich_one in *. simpl map.
    destruct (submit srv status_map user_language read_status_map m)
      as [m' [chs|]];
      destruct (first_loop srv status_map user_language read_status_map
                           (S (length pre)) rest) as [rest' futures];
      unfold second_loop in *; simpl fold_left;
      [rewrite update_at_app|];
      rewrite <- !app_assoc in IH; simpl in IH; exact IH.
Qed.

Lemma process_batch_pointwise (data : list manga) :
  process_batch float_of_string srv status_map user_language read_status_map
                ratings_map data
  = map one data.
Proof.
  unfold process_batch. pose proof (two_loops_pointwise data []) as H.
  simpl in H.
  destruct (first_loop srv status_map user_language read_status_map 0 data).
  exact H.
Qed.

Lemma id_attach_status (m : manga) : id (attach_status status_map m) = id m.
Proof.
  unfold attach_status. destruct (id m) as [i|] eqn:E; [|exact E].
  destruct (negb (String.eqb i EmptyString)); [|exact E].
  destruct (dict_get status_map i); [simpl|]; exact E.
Qed.

Lemma id_enrich_one (m : manga) : id (one m) = id m.
Proof.
  subst one. unfold enrich_one, submit.
  destruct (id m) as [i|] eqn:E; simpl.
  - destruct (get_default read_status_map i []); simpl.
    + rewrite id_attach_status. exact E.
    + unfold merge. destruct (progress_of _ _). simpl.
      rewrite id_attach_status. exact E.
  - rewrite id_attach_status. exact E.
Qed.

Lemma ids_process_batch (data : list manga) :
  map id (process_batch float_of_string srv status_map user_language
                        read_status_map ratings_map data)
  = map id data.
Proof.
  rewrite process_batch_pointwise, map_map.
  apply map_ext. apply id_enrich_one.
Qed.
End Batch.


(** ** One item per id *)

Lemma batch_loop_ids float_of_string srv status_map user_language :
  forall (todo : list (list string)) (all_info : list manga),
    (forall batch, In batch todo -> answers_every_id srv batch) ->
    exists out,
      batch_loop float_of_string srv (Some status_map) user_language todo all_info
      = Ok (all_info ++ out)
      /\ Permutation (map id out) (map Some (concat todo)).
Proof.
  induction todo as [|batch rest IH]; intros all_info Hsrv.
  - exists []. split; [now rewrite app_nil_r|constructor].
  - destruct (Hsrv batch (or_introl eq_refl)) as [data [Hdata Hperm]].
    simpl batch_loop. rewrite Hdata.
    edestruct IH as [out [Hout Hids]];
      [intros b Hb; apply Hsrv; now right|].
    rewrite Hout. eexists. split; [now rewrite <- app_assoc|].
    simpl concat. rewrite !map_app, ids_process_batch.
    now apply Permutation_app.
Qed.

(** C1, as amended.  When the metadata call of every batch succeeds and
    answers with one object per id asked, [get_manga_info] returns one
    item per input id: no id is dropped and none appears more often than
    it was given, however many batches of 100 the ids fill. *)
Theorem one_item_per_answered_id :
  forall (float_of_string : string -> option pyfloat) (srv : mangadex)
         (manga_ids : list string) (status_map : dict string),
    (forall batch, In batch (batches manga_ids) -> answers_every_id srv batch) ->
    one_item_per_id float_of_string srv manga_ids status_map.
Proof.
  intros fos srv manga_ids status_map Hsrv.
  unfold one_item_per_id, get_manga_info.
  destruct (batch_loop_ids fos srv status_map
              (match settings srv with Some l => l | None => ["en"] end)
              (batches manga_ids) [] Hsrv) as [out [Hout Hids]].
  exists out. split; [exact Hout|].
  now rewrite concat_batches in Hids.
Qed.

Lemma one_item_per_answered_id_witness :
  (forall batch, In batch (batches ["id1"; "id2"]) ->
                 answers_every_id Examples.srv_echo batch)
  /\ one_item_per_id Examples.float_of_decimal Examples.srv_echo
                     ["id1"; "id2"] Examples.library.
Proof.
  assert (H : forall batch, In batch (batches ["id1"; "id2"]) ->
                            answers_every_id Examples.srv_echo batch).
  { intros batch _. exists (map (fun i => Examples.item i None) batch).
    split; [reflexivity|]. rewrite map_map. simpl. apply Permutation_refl. }
  split; [exact H|].
  exact (one_item_per_answered_id Examples.float_of_decimal Examples.srv_echo
           ["id1"; "id2"] Examples.library H).
Defined.

(** The service has no object for [id1]: the id is dropped. *)
Lemma dropped_id_counterexample :
  ~ one_item_per_id Examples.float_of_decimal Examples.srv_drop
                    ["id1"] [("id1", "reading")].
Proof.
  intros [all_info [H P]]. vm_compute in H. injection H as <-.
  simpl in P. apply Permutation_nil in P. discriminate.
Qed.

(** ** Items without read history *)

(** An item without read chapters leaves the first loop with progress
    ["0"], ["0"] and never enters the second loop, where the rating is
    stored: its [user_rating] stays as it came. *)
Lemma skipped_item_keeps_rating float_of_string srv status_map user_language
      read_status_map ratings_map (m : manga) :
  match id m with
  | Some i => get_default read_status_map i [] = []
  | None => True
  end ->
  let m' := enrich_one status_map user_language read_status_map ratings_map
                       float_of_string srv m in
  read_chapter m' = Some (SLit "0")
  /\ read_volume m' = Some (SLit "0")
  /\ user_rating m' = user_rating m.
Proof.
  intros H. unfold enrich_one, submit.
  assert (R : user_rating (attach_status status_map m) = user_rating m).
  { unfold attach_status. destruct (id m) as [i|]; [|reflexivity].
    destruct (negb (String.eqb i EmptyString)); [|reflexivity].
    now destruct (dict_get status_map i). }
  destruct (id m) as [i|]; [rewrite H|]; simpl; auto.
Qed.

(** C5.  The scenario on the code: both items get the progress strings
    ["0"] and ["0"] and no [user_rating] at all, and the partitioner
    puts [id1] with the Id-A items and [id2] with the unlinked ones. *)
Theorem scenario_without_read_history :
  exists e1 e2,
    get_manga_info Examples.float_of_decimal Examples.srv_scenario
                   (map fst Examples.library) (Some Examples.library)
    = Ok [e1; e2]
    /\ (id e1 = Some "id1" /\ id e2 = Some "id2")
    /\ (read_chapter e1 = Some (SLit "0") /\ read_volume e1 = Some (SLit "0"))
    /\ (read_chapter e2 = Some (SLit "0") /\ read_volume e2 = Some (SLit "0"))
    /\ (user_rating e1 = None /\ user_rating e2 = None)
    /\ split_by_links [e1; e2] = mkPartition [] [e1] [e2].
Proof.
  eexists. eexists. split; [vm_compute; reflexivity|].
  repeat split.
Qed.

(** The same library when the user rated [id1] with 8: the rating is not
    merged, because [id1] has no read chapter. *)
Example rating_of_unread_item_is_lost :
  exists e1 e2,
    get_manga_info Examples.float_of_decimal Examples.srv_rated
                   (map fst Examples.library) (Some Examples.library)
    = Ok [e1; e2]
    /\ rating_of [("id1", [("rating", VInt 8)])] (id e1) = VInt 8
    /\ user_rating e1 = None.
Proof.
  eexists. eexists. split; [vm_compute; reflexivity|]. split; reflexivity.
Qed.

End EnrichmentFacts.

(* ===================================================================== *)
(** * Furthest-read progress                                             *)
(* ===================================================================== *)

Module ProgressFacts.
Import Py Http Main2 Props.

(** ** The order [>] of Python floats *)

Lemma Qgt_false (p q : Q) : negb (Qle_bool p q) = false <-> (p <= q)%Q.
Proof. rewrite negb_false_iff. apply Qle_bool_iff. Qed.

Lemma Qgt_true (p q : Q) : negb (Qle_bool p q) = true <-> (q < p)%Q.
Proof.
  rewrite negb_true_iff. split.
  - intros H. apply Qnot_le_lt. intros L. apply Qle_bool_iff in L. congruence.
  - intros H. destruct (Qle_bool p q) eqn:E; [|reflexivity].
    apply Qle_bool_iff in E. exfalso. exact (Qlt_not_le _ _ H E).
Qed.

Ltac float_cases :=
  repeat match goal with
         | f : pyfloat |- _ => destruct f as [|[|]|?]
         end;
  simpl; try congruence.

Lemma float_gt_irrefl (a : pyfloat) : float_gt a a = false.
Proof. float_cases. apply Qgt_false. apply Qle_refl. Qed.

Lemma float_gt_asym (a b : pyfloat) :
  float_gt a b = true -> float_gt b a = false.
Proof.
  float_cases. rewrite Qgt_true, Qgt_false. apply Qlt_le_weak.
Qed.

Lemma float_gt_trans (a b c : pyfloat) :
  float_gt a b = true -> float_gt b c = true -> float_gt a c = true.
Proof.
  float_cases. rewrite !Qgt_true. intros H1 H2. exact (Qlt_trans _ _ _ H2 H1).
Qed.

(** If [y] is not above [b] and [x] is above [b], then [y] is not above
    [x]; this holds with NaN too, which is above nothing and below
    nothing. *)
Lemma float_not_gt_below (y x b : pyfloat) :
  float_gt y b = false -> float_gt x b = true -> float_gt y x = false.
Proof.
  float_cases. rewrite !Qgt_false, Qgt_true. intros H1 H2.
  apply Qlt_le_weak. exact (Qle_lt_trans _ _ _ H1 H2).
Qed.

Lemma num_gt_irrefl (a : pynum) : num_gt a a = false.
Proof. apply float_gt_irrefl. Qed.

Lemma num_gt_asym (a b : pynum) : num_gt a b = true -> num_gt b a = false.
Proof. apply float_gt_asym. Qed.

Lemma num_gt_trans (a b c : pynum) :
  num_gt a b = true -> num_gt b c = true -> num_gt a c = true.
Proof. apply float_gt_trans. Qed.

Lemma num_not_gt_below (y x b : pynum) :
  num_gt y b = false -> num_gt x b = true -> num_gt y x = false.
Proof. apply float_not_gt_below. Qed.

(** ** The order [<=] of the specification and [>] of Python *)

Lemma float_not_gt_is_le (a b : pyfloat) :
  a <> FNaN -> b <> FNaN -> float_gt a b = false -> float_le a b = true.
Proof.
  destruct a as [|[|]|p], b as [|[|]|q]; simpl; try congruence.
  intros _ _. rewrite Qgt_false. apply Qle_bool_iff.
Qed.

Lemma float_gt_is_le (a b : pyfloat) :
  float_gt a b = true -> float_le b a = true.
Proof.
  destruct a as [|[|]|p], b as [|[|]|q]; simpl; try congruence.
  rewrite Qgt_true. intros H. apply Qle_bool_iff. now apply Qlt_le_weak.
Qed.


Lemma is_nan_false (a : pynum) : is_nan a = false -> num_to_float a <> FNaN.
Proof. unfold is_nan. destruct (num_to_float a); congruence. Qed.

Lemma not_gt_is_le (a b : pynum) :
  is_nan a = false -> is_nan b = false ->
  num_gt a b = false -> num_le a b = true.
Proof.
  intros Ha Hb. apply float_not_gt_is_le; now apply is_nan_false.
Qed.

Lemma gt_is_le (a b : pynum) : num_gt a b = true -> num_le b a = true.
Proof. apply float_gt_is_le. Qed.


Lemma num_le_refl (a : pynum) : is_nan a = false -> num_le a a = true.
Proof.
  intros H. apply not_gt_is_le; try assumption. apply num_gt_irrefl.
Qed.

(** ** [max(l, key=key)] *)

Section MaxBy.
Context {A : Type}.
Variable key : A -> pynum.

(** The result is the start or lies strictly above it, it is an
    element, and no element passed lies above it. *)
Lemma max_from_spec : forall (l : list A) (best : A),
  let r := max_from key best l in
  (r = best \/ num_gt (key r) (key best) = true)
  /\ In r (best :: l)
  /\ forall c, In c l -> num_gt (key c) (key r) = false.
Proof.
  induction l as [|x l IH]; intros best; simpl.
  - split; [now left|]. split; [now left|]. intros c [].
  - destruct (num_gt (key x) (key best)) eqn:E.
    + destruct (IH x) as [Hr [Hin Hub]]. split; [|split].
      * right. destruct Hr as [->|Hr]; [exact E|].
        exact (num_gt_trans _ _ _ Hr E).
      * simpl in Hin. tauto.
      * intros c [<-|Hc]; [|now apply Hub].
        destruct Hr as [->|Hr]; [apply num_gt_irrefl|now apply num_gt_asym].
    + destruct (IH best) as [Hr [Hin Hub]]. split; [exact Hr|split].
      * simpl in Hin. tauto.
      * intros c [<-|Hc]; [|now apply Hub].
        destruct Hr as [->|Hr]; [exact E|].
        exact (num_not_gt_below _ _ _ E Hr).
Qed.

Lemma max_from_is_max (c : A) (l : list A) :
  (forall x, In x (c :: l) -> is_nan (key x) = false) ->
  is_max_of key (c :: l) (key (max_from key c l)).
Proof.
  intros Hnan.
  destruct (max_from_spec l c) as [Hr [Hin Hub]]. split.
  - now exists (max_from key c l).
  - intros x [<-|Hx].
    + destruct Hr as [->|Hr];
        [apply num_le_refl; apply Hnan; now left|now apply gt_is_le].
    + apply not_gt_is_le; [apply Hnan; now right|now apply Hnan|now apply Hub].
Qed.


(** When 0 is not above the maximum, [max(k, 0)] is the maximum. *)
Lemma clamp_keeps_nonnegative (k : pynum) :
  num_gt (NInt 0) k = false -> max2 k (NInt 0) = k.
Proof. intros E. unfold max2. now rewrite E. Qed.
End MaxBy.

(** A chapter without attributes, without a chapter number, or with a
    number that [float] rejects counts as 0. *)
Lemma unparsable_chapter_counts_as_zero
      (float_of_string : string -> option pyfloat) (ch : chapter) :
  match ch_attributes ch with
  | None => True
  | Some attrs =>
      truthy (get_or_none attrs "chapter") = false
      \/ py_float float_of_string (get_or_none attrs "chapter") = None
  end ->
  num_to_float (parse_chapter_num float_of_string ch) = FFin (inject_Z 0).
Proof.
  unfold parse_chapter_num, py_or.
  destruct (ch_attributes ch) as [attrs|]; [|reflexivity].
  intros [H|H].
  - now rewrite H.
  - destruct (truthy (get_or_none attrs "chapter")); [now rewrite H|reflexivity].
Qed.

Lemma unparsable_volume_counts_as_zero
      (float_of_string : string -> option pyfloat) (ch : chapter) :
  match ch_attributes ch with
  | None => True
  | Some attrs =>
      get_or_none attrs "volume" = VNone
      \/ py_float float_of_string (get_or_none attrs "volume") = None
  end ->
  parse_volume_num float_of_string ch = NInt 0.
Proof.
  unfold parse_volume_num.
  destruct (ch_attributes ch) as [attrs|]; [|reflexivity].
  intros [H|H]; [now rewrite H|].
  destruct (get_or_none attrs "volume"); try reflexivity;
    first [now rewrite H | simpl in H; discriminate].
Qed.




(** When no parsed number is NaN or below 0 the pair holds the two
    maxima. *)
Lemma furthest_read_is_maximum_when_nonnegative :
  forall (float_of_string : string -> option pyfloat) (chapters : list chapter),
    chapters <> [] ->
    no_nan float_of_string chapters ->
    (forall c, In c chapters ->
               num_gt (NInt 0) (parse_chapter_num float_of_string c) = false
               /\ num_gt (NInt 0) (parse_volume_num float_of_string c) = false) ->
    furthest_is_maximum float_of_string chapters.
Proof.
  intros fos [|c rest] Hne Hnan Hpos; [congruence|].
  unfold furthest_is_maximum, progress_of.
  destruct (max_from_spec (parse_chapter_num fos) rest c) as [_ [Hc _]].
  destruct (max_from_spec (parse_volume_num fos) rest c) as [_ [Hv _]].
  rewrite (clamp_keeps_nonnegative _ (proj1 (Hpos _ Hc))).
  rewrite (clamp_keeps_nonnegative _ (proj2 (Hpos _ Hv))).
  eexists. eexists. split; [reflexivity|].
  split; apply max_from_is_max; intros x Hx; now apply Hnan.
Qed.

(** [float] reads the text [nan] as NaN, which compares false with every
    number: [max] keeps a NaN it starts from and never picks one up
    later, so the progress depends on the order of the chapters. *)
Example nan_chapter_depends_on_the_order :
  fst (progress_of MoreExamples.float_with_nan
                   [Examples.chapter_of "a" "nan" "1";
                    Examples.chapter_of "b" "5" "1"])
  = SOfNum (NFloat FNaN)
  /\ fst (progress_of MoreExamples.float_with_nan
                      [Examples.chapter_of "b" "5" "1";
                       Examples.chapter_of "a" "nan" "1"])
     = SOfNum (NFloat (FFin (Qmake 5 1))).
Proof. split; reflexivity. Qed.

End ProgressFacts.

(* ===================================================================== *)
(** * Partitioner and file sink                                          *)
(* ===================================================================== *)

Module SinkFacts.
Import Py Http Main2 Props.

(** ** Filters *)

Lemma filter_all {A} (f : A -> bool) (l : list A) :
  (forall x, In x l -> f x = true) -> filter f l = l.
Proof.
  induction l as [|x l IH]; intros H; [reflexivity|]. simpl.
  rewrite (H x (or_introl eq_refl)). f_equal. apply IH.
  intros y Hy. apply H. now right.
Qed.

Lemma filter_none {A} (f : A -> bool) (l : list A) :
  (forall x, In x l -> f x = false) -> filter f l = [].
Proof.
  induction l as [|x l IH]; intros H; [reflexivity|]. simpl.
  rewrite (H x (or_introl eq_refl)). apply IH.
  intros y Hy. apply H. now right.
Qed.

Lemma filter_nil_negb {A} (f : A -> bool) (l : list A) :
  filter f l = [] -> filter (fun x => negb (f x)) l = l.
Proof.
  induction l as [|x l IH]; [reflexivity|]. simpl.
  destruct (f x); [discriminate|]. intros H. simpl. f_equal. now apply IH.
Qed.

Lemma in_firstn {A} (x : A) : forall (k : nat) (l : list A),
  In x (firstn k l) -> In x l.
Proof.
  induction k as [|k IH]; intros [|y l] H; try contradiction.
  destruct H as [->|H]; [now left|right; now apply IH].
Qed.

Lemma filter_lengths {A} (f : A -> bool) (l : list A) :
  (length (filter f l) + length (filter (fun x => negb (f x)) l)
   = length l)%nat.
Proof.
  induction l as [|x l IH]; [reflexivity|]. simpl.
  destruct (f x); simpl; lia.
Qed.

(** ** The tests of the code and the identifiers of an item *)

(** [links.get(k)] on [attributes.get('links', {})], as the partitioner
    reads it, is true exactly when the item carries the identifier. *)
Lemma link_default_carries (k : string) (m : manga) :
  truthy (link (links_get_default m) k) = carries k m.
Proof.
  unfold links_get_default, link, carries, external_id, get_or_none,
    get_default.
  destruct (links (attributes m)) as [[| | | | | |d]|]; try reflexivity.
  now destruct (dict_get d k).
Qed.

(** [links.get(k)] behind [isinstance(links, dict)], as the exporters
    read it, likewise. *)
Lemma link_carries (k : string) (m : manga) :
  truthy (link (links_get m) k) = carries k m.
Proof.
  unfold links_get, link, carries, external_id, get_or_none, get_default.
  destruct (links (attributes m)) as [[| | | | | |d]|]; try reflexivity.
  now destruct (dict_get d k).
Qed.

Lemma mal_id_is_has_mal (m : manga) : truthy (mal_id_of m) = has_mal m.
Proof. apply link_carries. Qed.

Lemma al_id_is_has_al (m : manga) : truthy (al_id_of m) = has_al m.
Proof. apply link_carries. Qed.


(** ** The three-way split *)

Lemma fold_classify : forall (l : list manga) (p : partition),
  fold_left classify l p
  = mkPartition (manga_with_alid p ++ filter carries_id_b l)
                (manga_with_malid p ++ filter carries_id_a_only l)
                (manga_unlinked p ++ filter carries_neither l).
Proof.
  induction l as [|m l IH]; intros p; cbn [fold_left filter].
  - destruct p; simpl. now rewrite !app_nil_r.
  - rewrite IH. unfold classify, carries_id_b, carries_id_a_only,
      carries_neither, has_al, has_mal.
    rewrite !link_default_carries.
    destruct (carries "al" m); [|destruct (carries "mal" m)];
      simpl; now rewrite <- ?app_assoc.
Qed.

Lemma classes_exclusive (m : manga) :
  exactly_one (carries_id_b m) (carries_id_a_only m) (carries_neither m).
Proof.
  unfold exactly_one, carries_id_b, carries_id_a_only, carries_neither.
  destruct (has_al m), (has_mal m); simpl; tauto.
Qed.

Lemma three_filters_permutation (l : list manga) :
  Permutation l (filter carries_id_b l ++ filter carries_id_a_only l
                 ++ filter carries_neither l).
Proof.
  induction l as [|m l IH]; [constructor|]. cbn [filter].
  destruct (classes_exclusive m) as [[-> [-> ->]]|[[-> [-> ->]]|[-> [-> ->]]]].
  - now constructor.
  - now apply Permutation_cons_app.
  - rewrite app_assoc. apply Permutation_cons_app. now rewrite <- app_assoc.
Qed.

(** C2.  The loop of [import_to_anilist_then_export] splits the items in
    three sequences: the items that carry Id-B (their [links] object
    holds a true value under [al]), those that carry Id-A (a true value
    under [mal]) and no Id-B, and those that carry neither.  Each
    sequence is the input filtered by that test on the item's links, so
    the input order is kept; the tests are Id-B first, else Id-A, else
    neither, and exactly one holds for an item; the three sequences
    together hold every input item exactly as often as the input. *)
Theorem partition_is_three_way_split :
  forall manga_info : list manga,
    let p := split_by_links manga_info in
    manga_with_alid p = filter carries_id_b manga_info
    /\ manga_with_malid p = filter carries_id_a_only manga_info
    /\ manga_unlinked p = filter carries_neither manga_info
    /\ (forall m, exactly_one (carries_id_b m) (carries_id_a_only m)
                              (carries_neither m))
    /\ Permutation manga_info
                   (manga_with_alid p ++ manga_with_malid p ++ manga_unlinked p).
Proof.
  intros manga_info p. subst p. unfold split_by_links. rewrite fold_classify.
  cbn [manga_with_alid manga_with_malid manga_unlinked app].
  repeat split; try reflexivity.
  - apply classes_exclusive.
  - apply three_filters_permutation.
Qed.

(** An item whose [links] hold Id-B and Id-A goes with the Id-B items,
    one with an empty Id-B and an Id-A with the Id-A items, one whose
    [links] are no object with the unlinked ones. *)
Example partition_reads_the_links :
  let both := Examples.item "a" (Some (VDict [("al", VStr "1"); ("mal", VStr "2")])) in
  let only_a := Examples.item "b" (Some (VDict [("al", VStr EmptyString); ("mal", VInt 2)])) in
  let odd := Examples.item "c" (Some (VStr "al")) in
  split_by_links [odd; only_a; both] = mkPartition [both] [only_a] [odd].
Proof. reflexivity. Qed.

(** ** The XML export *)

(** The status label is one of the five of the counters. *)
Lemma xml_status_cases (m : manga) :
  In (xml_status m) ["Reading"; "Completed"; "On-Hold"; "Dropped"; "Plan to Read"].
Proof.
  unfold xml_status.
  match goal with |- In (get_default _ ?s _) _ => generalize s end.
  intros s. unfold get_default.
  let table := eval vm_compute in manga_status_map in
  change manga_status_map with table.
  simpl dict_get.
  repeat match goal with
         | |- context [String.eqb s ?k] => destruct (String.eqb s k)
         end; simpl; tauto.
Qed.

(** What the loop keeps true: the total is the sum of the five counters. *)
Lemma xml_step_invariant (st : xml_state) (m : manga) :
  exported st = (total_reading st + total_completed st + total_onhold st
                 + total_dropped st + total_plantoread st)%nat ->
  exported (xml_step st m)
  = (total_reading (xml_step st m) + total_completed (xml_step st m)
     + total_onhold (xml_step st m) + total_dropped (xml_step st m)
     + total_plantoread (xml_step st m))%nat.
Proof.
  intros H. unfold xml_step.
  destruct (negb (truthy (mal_id_of m))); simpl; [exact H|].
  pose proof (xml_status_cases m) as C. simpl in C.
  destruct C as [<-|[<-|[<-|[<-|[<-|[]]]]]]; simpl; lia.
Qed.

Lemma fold_xml_step : forall (l : list manga) (st : xml_state),
  let st' := fold_left xml_step l st in
  entries st'
  = entries st
    ++ map (fun m => manga_elem m (mal_id_of m) (xml_status m))
           (filter has_mal l)
  /\ unlinked st' = unlinked st ++ filter lacks_mal l
  /\ exported st' = (exported st + length (filter has_mal l))%nat
  /\ (exported st = (total_reading st + total_completed st + total_onhold st
                     + total_dropped st + total_plantoread st)%nat ->
      exported st' = (total_reading st' + total_completed st' + total_onhold st'
                      + total_dropped st' + total_plantoread st')%nat).
Proof.
  induction l as [|m l IH]; intros st; cbn [fold_left filter map].
  - rewrite !app_nil_r, Nat.add_0_r. auto.
  - destruct (IH (xml_step st m)) as [He [Hu [Hx Hs]]].
    rewrite He, Hu, Hx. unfold lacks_mal at 2.
    split; [|split; [|split]].
    + unfold xml_step. rewrite mal_id_is_has_mal.
      destruct (has_mal m); simpl; now rewrite <- ?app_assoc.
    + unfold xml_step. rewrite mal_id_is_has_mal.
      destruct (has_mal m); simpl; now rewrite <- ?app_assoc.
    + unfold xml_step. rewrite mal_id_is_has_mal.
      destruct (has_mal m); simpl; lia.
    + intros H. rewrite <- Hx. apply Hs. now apply xml_step_invariant.
Qed.

Lemma tag_cdata_titles (e : xml) : tag_of (cdata_titles e) = tag_of e.
Proof. now destruct e. Qed.

Lemma manga_elements_document (st : xml_state) :
  (forall e, In e (entries st) -> tag_of e = "manga") ->
  manga_elements (xml_document st) = map cdata_titles (entries st).
Proof.
  intros H. unfold manga_elements, xml_document. simpl.
  induction (entries st) as [|e es IH]; [reflexivity|]. simpl.
  rewrite tag_cdata_titles, (H e (or_introl eq_refl)). simpl.
  f_equal. apply IH. intros x Hx. apply H. now right.
Qed.

Lemma manga_elements_export serialize (l : list manga) (answer : string) :
  manga_elements (fst (export_manga_list_to_xml serialize l answer))
  = map (fun m => cdata_titles (manga_elem m (mal_id_of m) (xml_status m)))
        (filter has_mal l).
Proof.
  unfold export_manga_list_to_xml, xml_loop. cbn [fst].
  destruct (fold_xml_step l (mkXmlState 0 0 0 0 0 0 0 [] [])) as [He _].
  simpl in He. rewrite manga_elements_document.
  - now rewrite He, map_map.
  - intros e. rewrite He, in_map_iff. now intros [m [<- _]].
Qed.

(** How the export ends: by the exception of writing the document, or
    with the unlisted items handed to a secondary sink. *)
Lemma export_outcome serialize (l : list manga) (answer : string) :
  let out := export_manga_list_to_xml serialize l answer in
  match snd out with
  | Ok sink =>
      write_document serialize (fst out) = None
      /\ sink_items sink = filter lacks_mal l
      /\ is_secondary_sink sink = true
  | Raise e => write_document serialize (fst out) = Some e
  end.
Proof.
  unfold export_manga_list_to_xml, xml_loop. cbn [fst snd].
  destruct (fold_xml_step l (mkXmlState 0 0 0 0 0 0 0 [] []))
    as [_ [Hu _]].
  simpl in Hu.
  destruct (write_document serialize _); [reflexivity|].
  split; [reflexivity|].
  destruct (String.eqb answer "y"); [|destruct (String.eqb answer "n")];
    simpl; now rewrite Hu.
Qed.

(** C4.  In the document of [export_manga_list_to_xml], for every item
    list, [user_total_manga] is the sum of the five status totals, and
    it is the number of [manga] elements. *)
Theorem xml_totals_agree :
  forall (serialize : xml -> option exn) (manga_info_list : list manga)
         (answer : string),
    let doc := fst (export_manga_list_to_xml serialize manga_info_list answer) in
    exists total reading completed onhold dropped plantoread : nat,
      child_text (myinfo_of doc) "user_total_manga" = Some (XNat total)
      /\ child_text (myinfo_of doc) "user_total_reading" = Some (XNat reading)
      /\ child_text (myinfo_of doc) "user_total_completed" = Some (XNat completed)
      /\ child_text (myinfo_of doc) "user_total_onhold" = Some (XNat onhold)
      /\ child_text (myinfo_of doc) "user_total_dropped" = Some (XNat dropped)
      /\ child_text (myinfo_of doc) "user_total_plantoread" = Some (XNat plantoread)
      /\ total = (reading + completed + onhold + dropped + plantoread)%nat
      /\ length (manga_elements doc) = total.
Proof.
  intros serialize l answer doc.
  pose proof (manga_elements_export serialize l answer) as Hm. fold doc in Hm.
  rewrite Hm, length_map. subst doc.
  unfold export_manga_list_to_xml, xml_loop. cbn [fst].
  destruct (fold_xml_step l (mkXmlState 0 0 0 0 0 0 0 [] []))
    as [_ [_ [Hx Hs]]].
  simpl in Hx, Hs.
  do 6 eexists. repeat split; try reflexivity; simpl.
  - now apply Hs.
  - now rewrite Hx.
Qed.

(** The empty list: all totals are 0 and there is no entry. *)
Example xml_totals_of_nothing :
  let doc := fst (export_manga_list_to_xml MoreExamples.writes_all [] "n") in
  child_text (myinfo_of doc) "user_total_manga" = Some (XNat 0)
  /\ manga_elements doc = [].
Proof. split; reflexivity. Qed.





End SinkFacts.

(* ===================================================================== *)
(** * Remote import                                                      *)
(* ===================================================================== *)

Module RemoteImportFacts.
Import Py Http Main2 Props MoreProps SinkFacts.

(** [int(f)] truncates toward zero. *)
Lemma float_to_int_truncates (q : Q) (z : Z) :
  float_to_int (FFin q) = Some z ->
  ((0 <= q)%Q -> (inject_Z z <= q)%Q /\ (q < inject_Z z + 1)%Q)
  /\ ((q <= 0)%Q -> (inject_Z z - 1 < q)%Q /\ (q <= inject_Z z)%Q).
Proof.
  destruct q as [a b]. simpl. intros [= <-].
  pose proof (Z.quot_rem' a (Z.pos b)) as E.
  unfold Qle, Qlt. simpl. rewrite !Z.mul_1_r.
  split; intros H.
  - pose proof (Z.rem_bound_pos a (Z.pos b)) as B. nia.
  - pose proof (Z.rem_bound_pos (- a) (Z.pos b)) as B.
    rewrite Z.rem_opp_l' in B. nia.
Qed.

(** The status table of lines 509-518 is the table of the specification. *)
Lemma mapped_status_table (m : manga) :
  mapped_status m = anilist_status_spec (reading_status m).
Proof.
  unfold mapped_status, anilist_status_spec.
  destruct (reading_status m) as [s|]; [|reflexivity].
  unfold get_default.
  let table := eval vm_compute in reading_status_map in
  change reading_status_map with table.
  simpl dict_get.
  repeat match goal with
         | |- context [String.eqb s ?k] => destruct (String.eqb s k)
         end; reflexivity.
Qed.

Lemma mem_is_key (variables : dict jvalue) (k : string) :
  dict_mem variables k = true -> In k (map fst variables).
Proof.
  unfold dict_mem. induction variables as [|[k' v] r IH]; simpl; [discriminate|].
  destruct (String.eqb_spec k k') as [->|_]; [now left|]. intros H. right. now apply IH.
Qed.

(** ** The variables of the code and the payload of the specification *)

Lemma al_id_of_carrier (m : manga) :
  has_al m = true -> external_id "al" m = Some (al_id_of m).
Proof.
  unfold has_al, carries, al_id_of, links_get, link, external_id,
    get_or_none, get_default.
  destruct (links (attributes m)) as [[| | | | | |d]|]; try discriminate.
  now destruct (dict_get d "al").
Qed.

Lemma score_is_rating_number float_of_string (m : manga) :
  score_of float_of_string m = rating_number float_of_string m.
Proof.
  unfold score_of, rating_number.
  destruct (user_rating m) as [[]|]; reflexivity.
Qed.

Lemma progress_is_truncated float_of_string (s : option pystr) :
  progress_int float_of_string s = truncated float_of_string s.
Proof.
  unfold progress_int, truncated. destruct s as [t|]; [|reflexivity].
  destruct (float_of_pystr float_of_string t) as [[| |q]|]; reflexivity.
Qed.

(** For an item that carries Id-B the code builds the payload of the
    specification, and raises where the specification has none. *)
Lemma variables_are_the_payload float_of_string int_of_string (m : manga) :
  has_al m = true ->
  variables_of float_of_string int_of_string m
  = match payload_spec float_of_string int_of_string m with
    | Some variables => Ok variables
    | None => Raise (int_error (al_id_of m))
    end.
Proof.
  intros H. unfold variables_of, mutation_variables, payload_spec,
    integer_id_b.
  rewrite (al_id_of_carrier m H), mapped_status_table,
    score_is_rating_number,
    (progress_is_truncated float_of_string (read_chapter m)),
    (progress_is_truncated float_of_string (read_volume m)).
  destruct (py_int int_of_string (al_id_of m)); [|reflexivity].
  destruct (rating_number float_of_string m),
    (truncated float_of_string (read_chapter m)),
    (truncated float_of_string (read_volume m)); reflexivity.
Qed.

Lemma mutations_prefix float_of_string int_of_string post :
  forall todo : list manga,
    (forall m, In m todo -> truthy (al_id_of m) = true) ->
    exists k,
      map Ok (fst (mutations float_of_string int_of_string post todo))
      = map (variables_of float_of_string int_of_string) (firstn k todo)
      /\ loop_outcome float_of_string int_of_string post todo
           (fst (mutations float_of_string int_of_string post todo)) k
           (snd (mutations float_of_string int_of_string post todo)).
Proof.
  induction todo as [|m rest IH]; intros Hal.
  - exists 0%nat. simpl. split; [reflexivity|]. split; [reflexivity|constructor].
  - simpl mutations. rewrite (Hal m (or_introl eq_refl)). simpl negb. cbv iota.
    destruct (mutation_variables float_of_string int_of_string m (al_id_of m))
      as [variables|e] eqn:Hv.
    + destruct (post variables) as [e|] eqn:Hp.
      * exists 1%nat. simpl. unfold variables_of. rewrite Hv.
        split; [reflexivity|]. right. exists [], variables.
        split; [reflexivity|]. split; [constructor|exact Hp].
      * destruct IH as [k [Hk Ho]]; [intros x Hx; apply Hal; now right|].
        destruct (mutations float_of_string int_of_string post rest)
          as [posted e]. simpl in Hk, Ho.
        exists (S k). simpl. unfold variables_of at 1. rewrite Hv, Hk.
        split; [reflexivity|].
        destruct e as [e|].
        -- destruct Ho as [[x [Hx [Hr Ha]]]|[before [v [-> [Ha Hr]]]]].
           ++ left. exists x. split; [exact Hx|]. split; [exact Hr|].
              now constructor.
           ++ right. exists (variables :: before), v.
              split; [reflexivity|]. split; [now constructor|exact Hr].
        -- destruct Ho as [-> Ha]. split; [reflexivity|now constructor].
    + exists 0%nat. simpl. split; [reflexivity|]. left. exists m.
      split; [reflexivity|]. split; [exact Hv|constructor].
Qed.

Lemma sent_are_payloads float_of_string int_of_string :
  forall (items : list manga) (posted : list (dict jvalue)),
    (forall m, In m items -> has_al m = true) ->
    map Ok posted = map (variables_of float_of_string int_of_string) items ->
    map Some posted = map (payload_spec float_of_string int_of_string) items.
Proof.
  induction items as [|m items IH]; intros [|v posted] Hal H;
    try discriminate; [reflexivity|].
  simpl in H. injection H as Hv Hrest. simpl.
  rewrite (variables_are_the_payload _ _ m (Hal m (or_introl eq_refl))) in Hv.
  destruct (payload_spec float_of_string int_of_string m); [|discriminate].
  injection Hv as ->. f_equal. apply IH; [|exact Hrest].
  intros x Hx. apply Hal. now right.
Qed.

Lemma all_are_sent float_of_string int_of_string post :
  (forall variables, post variables = None) ->
  forall todo : list manga,
    (forall m, In m todo ->
               has_al m = true
               /\ payload_spec float_of_string int_of_string m <> None) ->
    exists posted,
      mutations float_of_string int_of_string post todo = (posted, None)
      /\ map Some posted
         = map (payload_spec float_of_string int_of_string) todo.
Proof.
  intros Hpost. induction todo as [|m rest IH]; intros H.
  - exists []. split; reflexivity.
  - destruct (H m (or_introl eq_refl)) as [Hal Hp].
    destruct IH as [posted [Hm Hs]]; [intros x Hx; apply H; now right|].
    cbn [mutations]. rewrite al_id_is_has_al, Hal. cbn [negb].
    pose proof (variables_are_the_payload float_of_string int_of_string m Hal)
      as Hv. unfold variables_of in Hv. rewrite Hv.
    destruct (payload_spec float_of_string int_of_string m) as [v|] eqn:E;
      [|congruence].
    rewrite Hpost, Hm. exists (v :: posted). split; [reflexivity|].
    simpl. now rewrite E, Hs.
Qed.

(** C8, as amended.  The payloads [sync_to_anilist] sends are, in input
    order, those of the first items that carry Id-B, each as the
    specification words it: [mediaId] the integer parse of Id-B, the
    status of the six-to-five table ([CURRENT] when the status is absent
    or not in the table), the score [float(user_rating)], [progress] and
    [progressVolumes] the truncations of the furthest-read chapter and
    volume, a key whose value is not derivable left out, and no other
    key.  When the authorization returns, every Id-B reads as an integer
    and every call returns, these are all the items that carry Id-B, and
    the function returns; whenever it returns, all were sent. *)
Theorem payloads_follow_the_specification :
  forall (float_of_string : string -> option pyfloat)
         (int_of_string : string -> option Z)
         (post : dict jvalue -> option exn) (authorize : option exn)
         (mangas : list manga),
    let out := sync_to_anilist float_of_string int_of_string post authorize
                               mangas in
    let items := filter has_al mangas in
    (exists k,
        map Some (fst out)
        = map (payload_spec float_of_string int_of_string) (firstn k items)
        /\ (forall calls, snd out = Ok calls -> k = length items))
    /\ (authorize = None ->
        (forall m, In m items ->
                   payload_spec float_of_string int_of_string m <> None) ->
        (forall variables, post variables = None) ->
        map Some (fst out)
        = map (payload_spec float_of_string int_of_string) items
        /\ exists calls, snd out = Ok calls).
Proof.
  intros fos ios post authorize mangas out items. subst out items.
  assert (Hf : manga_with_al_id mangas = filter has_al mangas).
  { unfold manga_with_al_id. apply filter_ext. apply al_id_is_has_al. }
  assert (Hal : forall m, In m (filter has_al mangas) -> has_al m = true).
  { intros m Hm. now apply filter_In in Hm. }
  unfold sync_to_anilist. rewrite Hf.
  destruct (filter has_al mangas) as [|m l] eqn:Hw.
  - split.
    + exists 0%nat. split; [reflexivity|]. reflexivity.
    + intros _ _ _. split; [reflexivity|]. eexists. reflexivity.
  - split.
    + destruct authorize as [e|].
      * exists 0%nat. split; [reflexivity|]. discriminate.
      * destruct (mutations_prefix fos ios post (m :: l)) as [k [Hk Ho]].
        { intros x Hx. rewrite al_id_is_has_al. now apply Hal. }
        exists k.
        destruct (mutations fos ios post (m :: l)) as [posted [e|]];
          cbn [fst snd] in *.
        -- split; [|discriminate]. apply sent_are_payloads; [|exact Hk].
           intros x Hx. apply Hal. eapply in_firstn; exact Hx.
        -- split; [|intros _ _; apply Ho]. apply sent_are_payloads; [|exact Hk].
           intros x Hx. apply Hal. eapply in_firstn; exact Hx.
    + intros -> Hp Hpost.
      destruct (all_are_sent fos ios post Hpost (m :: l)) as [posted [Hm Hs]].
      { intros x Hx. split; [now apply Hal|now apply Hp]. }
      rewrite Hm. cbn [fst snd]. split; [exact Hs|]. eexists. reflexivity.
Qed.

(** The item on hold, rated 8, read up to chapter 12.5, with a volume
    field that is no number, and an item without Id-B: one payload, and
    the other item goes to the CSV export. *)
Lemma payloads_follow_the_specification_witness :
  map Some (fst (sync_to_anilist Examples.float_of_decimal
                   Examples.int_of_decimal Examples.post_accepted
                   MoreExamples.authorized [Examples.item_al; Examples.item2]))
  = [Some [("mediaId", JInt 30013); ("status", JStr "PAUSED");
           ("score", JFloat (FFin (inject_Z 8))); ("progress", JInt 12)]]
  /\ exists calls,
       snd (sync_to_anilist Examples.float_of_decimal Examples.int_of_decimal
              Examples.post_accepted MoreExamples.authorized
              [Examples.item_al; Examples.item2]) = Ok calls.
Proof.
  apply (proj2 (payloads_follow_the_specification Examples.float_of_decimal
                  Examples.int_of_decimal Examples.post_accepted
                  MoreExamples.authorized [Examples.item_al; Examples.item2])).
  - reflexivity.
  - intros m [<-|[]]. discriminate.
  - reflexivity.
Defined.

(** An Id-B that is no number: [int(al_id)] raises, and the import sends
    nothing for the item. *)
Lemma word_id_b_counterexample :
  ~ every_id_b_item_is_sent Examples.float_of_decimal Examples.int_of_decimal
      Examples.post_accepted MoreExamples.authorized
      [MoreExamples.item_al_word].
Proof.
  intros H. destruct (H MoreExamples.item_al_word (or_introl eq_refl) eq_refl)
    as [variables [n [Hin _]]].
  exact Hin.
Qed.


(** The item on hold, rated 8, read up to chapter 12.5, with a volume
    field that is no number: [progressVolumes] is left out. *)
Example mutation_of_item_on_hold :
  mutations Examples.float_of_decimal Examples.int_of_decimal
            Examples.post_accepted [Examples.item_al]
  = ([[("mediaId", JInt 30013); ("status", JStr "PAUSED");
       ("score", JFloat (FFin (inject_Z 8))); ("progress", JInt 12)]], None).
Proof. reflexivity. Qed.

(** An [al_id] that is no integer: [int(al_id)] raises, nothing is posted
    for the item and the loop ends. *)
Lemma non_numeric_al_id_raises
      (float_of_string : string -> option pyfloat)
      (int_of_string : string -> option Z)
      (post : dict jvalue -> option exn) (m : manga) (rest : list manga) :
  truthy (al_id_of m) = true ->
  py_int int_of_string (al_id_of m) = None ->
  exists e,
    mutations float_of_string int_of_string post (m :: rest) = ([], Some e).
Proof.
  intros Hal Hint. simpl. rewrite Hal. simpl. unfold mutation_variables.
  rewrite Hint. now eexists.
Qed.

(** A mutation the transport raises on ends the loop: the items after it
    are not posted. *)
Lemma failed_mutation_ends_the_loop
      (float_of_string : string -> option pyfloat)
      (int_of_string : string -> option Z)
      (post : dict jvalue -> option exn) (m : manga) (rest : list manga)
      (variables : dict jvalue) (e : exn) :
  truthy (al_id_of m) = true ->
  mutation_variables float_of_string int_of_string m (al_id_of m) = Ok variables ->
  post variables = Some e ->
  mutations float_of_string int_of_string post (m :: rest)
  = ([variables], Some e).
Proof.
  intros Hal Hv Hp. simpl. rewrite Hal. simpl. now rewrite Hv, Hp.
Qed.

End RemoteImportFacts.

(* ===================================================================== *)
(** * Language names                                                     *)
(* ===================================================================== *)

Module LanguageFacts.
Import Py Props.

Lemma same_tables :
  Main.special = Main2.special /\ Main.iso_map = Main2.iso_map.
Proof. split; vm_compute; reflexivity. Qed.

Lemma lookup_is_spec (special iso_map : dict string) (code : string) :
  (if dict_mem special code then get_default special code code
   else if dict_mem iso_map code then get_default iso_map code code
        else code)
  = language_spec special iso_map code.
Proof.
  unfold language_spec, dict_mem, get_default.
  destruct (dict_get special code); [reflexivity|].
  now destruct (dict_get iso_map code).
Qed.

(** C10.  The two variants of [iso6391_to_language] give the same name
    for every code; the name is that of the table of irregular codes when
    the code is there, else that of the ISO table, else the code itself;
    [zh] is [Simplified Chinese]. *)
Theorem language_lookup_variants_agree :
  forall code : string,
    Main.iso6391_to_language code = Main2.iso6391_to_language code
    /\ Main2.iso6391_to_language code
       = match dict_get Main2.special code with
         | Some name => name
         | None => match dict_get Main2.iso_map code with
                   | Some name => name
                   | None => code
                   end
         end
    /\ Main2.iso6391_to_language "zh" = "Simplified Chinese"
    /\ dict_get Main2.iso_map "zh" = Some "Chinese".
Proof.
  intros code. destruct same_tables as [Hs Hi].
  split; [|split; [|split]].
  - unfold Main.iso6391_to_language, Main2.iso6391_to_language.
    now rewrite Hs, Hi.
  - unfold Main2.iso6391_to_language. apply lookup_is_spec.
  - vm_compute. reflexivity.
  - vm_compute. reflexivity.
Qed.

Example language_examples :
  Main2.iso6391_to_language "es" = "Castilian Spanish"
  /\ Main2.iso6391_to_language "ja" = "Japanese"
  /\ Main2.iso6391_to_language "pt-br" = "Brazilian Portuguese"
  /\ Main2.iso6391_to_language "tlh" = "tlh".
Proof. repeat split; vm_compute; reflexivity. Qed.

End LanguageFacts.

(* ===================================================================== *)
(** * The retry loop of main2.py and its relation                        *)
(* ===================================================================== *)

Module LoopRelFacts.
Import Py Http Main2 Props LoopRel.

Section Sound.
Variable net : network.
Variable login : string -> string -> run value.
Variable max_retries : nat.
Variable delay : Z.


Lemma handlers_sound attempt rest kwargs0 w0 e kwargs w1 out w' :
  attempt_raises net login kwargs0 w0 e kwargs w1 ->
  (forall kw w o x,
      retry_loop net login max_retries delay rest kw w = Some (o, x) ->
      loop_ends net login max_retries delay rest kw w o x) ->
  handlers max_retries delay attempt
           (retry_loop net login max_retries delay rest) e kwargs w1
  = Some (out, w') ->
  loop_ends net login max_retries delay (attempt :: rest) kwargs0 w0 out w'.
Proof.
  intros Hraise IH H. unfold handlers in H.
  destruct (is_network_failure e) eqn:En;
    [destruct (attempt <? max_retries - 1)%nat eqn:Ea|].
  - eapply ends_later; [eassumption|assumption|assumption|now apply IH].
  - injection H as <- <-. eapply ends_raising; eauto. now rewrite En, Ea.
  - injection H as <- <-. eapply ends_raising; eauto. now rewrite En.
Qed.

(** Every way the loop function ends is a way of the relation. *)
Lemma retry_loop_sound : forall attempts kwargs w out w',
  retry_loop net login max_retries delay attempts kwargs w = Some (out, w') ->
  loop_ends net login max_retries delay attempts kwargs w out w'.
Proof.
  induction attempts as [|attempt rest IH]; intros kwargs w out w' H.
  - injection H as <- <-. constructor.
  - cbn [retry_loop] in H.
    change (if negb (contains "LOGIN_ENDPOINT" (url kwargs))
            then load_credentials (send w kwargs) else None)
      with (stored_credentials kwargs w) in H.
    destruct (net (sent w) kwargs) as [e|r] eqn:Hnet.
    { eapply handlers_sound; eauto. now constructor. }
    destruct (status_code r =? 401)%Z eqn:E401.
    + apply Z.eqb_eq in E401.
      destruct (stored_credentials kwargs w) as [[u p]|] eqn:Hcred.
      * destruct (login u p (send w kwargs)) as [[[tokens|e] w2]|] eqn:Hl;
          [| |discriminate].
        -- destruct (session_of tokens) as [session|e] eqn:Hs.
           ++ cbn [sent save_session] in H.
              destruct (net (sent w2) (set_authorization kwargs session))
                as [e|r'] eqn:Hnet'.
              ** eapply handlers_sound; eauto.
                 eapply (raised_by_repeated_call _ _ _ _ r (u, p)); eauto.
              ** destruct (raise_for_status r') as [e|] eqn:Hr'.
                 --- eapply handlers_sound; eauto.
                     eapply (raised_by_repeated_status _ _ _ _ r (u, p)); eauto.
                 --- injection H as <- <-. apply ends_returning.
                     eapply (returned_after_login _ _ _ _ r (u, p)); eauto.
           ++ eapply handlers_sound; eauto.
              eapply (raised_by_tokens _ _ _ _ r (u, p)); eauto.
        -- eapply handlers_sound; eauto.
           eapply (raised_by_login _ _ _ _ r (u, p)); eauto.
      * destruct (raise_for_status r) as [e|] eqn:Hr.
        -- eapply handlers_sound; eauto.
           eapply raised_by_status; eauto.
        -- injection H as <- <-. apply ends_returning.
           apply returned_at_once; auto.
    + apply Z.eqb_neq in E401.
      destruct (raise_for_status r) as [e|] eqn:Hr.
      * eapply handlers_sound; eauto. eapply raised_by_status; eauto.
      * injection H as <- <-. apply ends_returning.
        apply returned_at_once; auto.
Qed.
End Sound.

End LoopRelFacts.

(* ===================================================================== *)
(** * Transport layer: what every call keeps                             *)
(* ===================================================================== *)

Module TransportMore.
Import Py Http Main2 Props MoreProps LoopRel LoopRelFacts TransportFacts.

Lemma raise_for_status_is_http_error (r : response) (e : exn) :
  raise_for_status r = Some e -> is_network_failure e = false.
Proof.
  unfold raise_for_status.
  destruct ((400 <=? status_code r)%Z && (status_code r <? 600)%Z);
    [|discriminate].
  now intros [= <-].
Qed.

Lemma raise_for_status_raises_http_error (r : response) (e : exn) :
  raise_for_status r = Some e -> e = HTTPError (status_code r).
Proof.
  unfold raise_for_status.
  destruct ((400 <=? status_code r)%Z && (status_code r <? 600)%Z);
    [|discriminate].
  now intros [= <-].
Qed.

Lemma accepted_is_not_401 (r : response) :
  raise_for_status r = None -> (status_code r =? 401)%Z = false.
Proof.
  unfold raise_for_status. intros H. apply Z.eqb_neq. intros E.
  rewrite E in H. discriminate.
Qed.

(** ** Only successful responses are returned *)

Lemma main_loop_successful net m d kwargs :
  forall n a w,
    (1 <= n)%nat -> (a + n = m)%nat ->
    successful (fst (Main.retry_loop net m d (seq a n) kwargs w)).
Proof.
  induction n as [|n IH]; intros a w Hn Hm; [lia|].
  cbn [seq Main.retry_loop].
  destruct (net (sent w) kwargs) as [e|r].
  - destruct (is_network_failure e); [|exact I].
    destruct (a <? m - 1)%nat eqn:Ea; [|exact I].
    apply Nat.ltb_lt in Ea. apply IH; lia.
  - destruct (raise_for_status r) eqn:Hr; [exact I|exact Hr].
Qed.

Lemma ends_successful net login m d attempts kwargs w out w' :
  loop_ends net login m d attempts kwargs w out w' ->
  forall a n, attempts = seq a n -> (1 <= n)%nat -> (a + n = m)%nat ->
              successful out.
Proof.
  induction 1 as [kw w|attempt rest kw w r w1 Hret|attempt rest kw w e kw' w1 _ _
                  |attempt rest kw w e kw' w1 out w' _ _ Ea _ IH];
    intros a n Hseq Hn Hm.
  - destruct n; [lia|discriminate].
  - now destruct Hret.
  - exact I.
  - destruct n as [|n]; [lia|]. injection Hseq as -> ->.
    apply Nat.ltb_lt in Ea. apply (IH (S a) n); [reflexivity|lia|lia].
Qed.

(** X1.  In both variants, with at least one attempt allowed,
    [request_with_retry] ends with an exception or returns a response
    that [raise_for_status] accepts: it never returns an error response
    and never falls out of the loop returning [None]. *)
Theorem only_accepted_responses_are_returned :
  forall (net : network) (kwargs : request) (max_retries : nat) (delay : Z)
         (w : world),
    (1 <= max_retries)%nat ->
    successful (fst (Main.request_with_retry net kwargs max_retries delay w))
    /\ forall depth out w',
         Main2.request_with_retry net depth kwargs max_retries delay w
         = Some (out, w') ->
         successful out.
Proof.
  intros net kwargs m d w Hm. split.
  - apply main_loop_successful; lia.
  - intros [|depth] out w' H; [discriminate|].
    cbn [Main2.request_with_retry] in H. apply retry_loop_sound in H.
    eapply ends_successful; eauto.
Qed.

Lemma only_accepted_responses_are_returned_witness :
  (1 <= 6)%nat
  /\ successful (fst (Main.request_with_retry Examples.net_flaky_500
                        Examples.get_library 6 10%Z Examples.logged_in))
  /\ forall depth out w',
       Main2.request_with_retry Examples.net_flaky_500 depth
         Examples.get_library 6 10%Z Examples.logged_in = Some (out, w') ->
       successful out.
Proof.
  assert (H : (1 <= 6)%nat) by lia.
  split; [exact H|].
  exact (only_accepted_responses_are_returned Examples.net_flaky_500
           Examples.get_library 6 10%Z Examples.logged_in H).
Defined.

(** ** Without stored credentials main2.py behaves as main.py *)

Lemma no_credentials_same_loop net login m d :
  forall attempts kwargs w,
    SESSION_CREDENTIALS w = None ->
    Main2.retry_loop net login m d attempts kwargs w
    = Some (Main.retry_loop net m d attempts kwargs w).
Proof.
  induction attempts as [|attempt rest IH]; intros kwargs w Hc; [reflexivity|].
  cbn [Main2.retry_loop Main.retry_loop].
  destruct (net (sent w) kwargs) as [e|r].
  - unfold handlers. destruct (is_network_failure e); [|reflexivity].
    destruct (attempt <? m - 1)%nat; [|reflexivity]. now apply IH.
  - assert (Hfin : match raise_for_status r with
                   | Some e => handlers m d attempt
                                 (Main2.retry_loop net login m d rest) e kwargs
                                 (send w kwargs)
                   | None => Some (Ok (Some r), send w kwargs)
                   end
                   = Some match raise_for_status r with
                          | Some e => (Raise e, send w kwargs)
                          | None => (Ok (Some r), send w kwargs)
                          end).
    { destruct (raise_for_status r) as [e|] eqn:Hr; [|reflexivity].
      unfold handlers. now rewrite (raise_for_status_is_http_error r e Hr). }
    destruct (status_code r =? 401)%Z; [|exact Hfin].
    cbn [load_credentials send SESSION_CREDENTIALS]. rewrite Hc.
    destruct (negb (contains "LOGIN_ENDPOINT" (url kwargs)));
      (destruct (raise_for_status r) as [e|] eqn:Hr; [|reflexivity]);
      unfold handlers; now rewrite (raise_for_status_is_http_error r e Hr).
Qed.

(** X2.  As long as no credentials are stored, [request_with_retry] of
    main2.py does exactly what that of main.py does: the same result,
    the same calls and sleeps, and no login. *)
Theorem without_credentials_main2_is_main :
  forall (net : network) (depth : nat) (kwargs : request) (max_retries : nat)
         (delay : Z) (w : world),
    SESSION_CREDENTIALS w = None ->
    Main2.request_with_retry net (S depth) kwargs max_retries delay w
    = Some (Main.request_with_retry net kwargs max_retries delay w).
Proof.
  intros net depth kwargs m d w Hc. cbn [Main2.request_with_retry].
  now apply no_credentials_same_loop.
Qed.

Lemma without_credentials_main2_is_main_witness :
  SESSION_CREDENTIALS MoreExamples.anonymous = None
  /\ Main2.request_with_retry Examples.net_unauthorized 1 Examples.get_library
       6 10%Z MoreExamples.anonymous
     = Some (Main.request_with_retry Examples.net_unauthorized
               Examples.get_library 6 10%Z MoreExamples.anonymous).
Proof.
  split; [reflexivity|].
  exact (without_credentials_main2_is_main Examples.net_unauthorized 0
           Examples.get_library 6 10%Z MoreExamples.anonymous eq_refl).
Defined.

(** ** The stored credentials are never changed *)

Lemma stored_credentials_are_stored kwargs w c :
  stored_credentials kwargs w = Some c -> SESSION_CREDENTIALS w = Some c.
Proof.
  unfold stored_credentials.
  now destruct (negb (contains "LOGIN_ENDPOINT" (url kwargs))).
Qed.

Section Credentials.
Variable net : network.
Variable login : string -> string -> run value.
Variable max_retries : nat.
Variable delay : Z.
Hypothesis login_keeps : forall u p, keeps_credentials (login u p).

Lemma returns_keeps_credentials kwargs w r w1 :
  attempt_returns net login kwargs w r w1 ->
  SESSION_CREDENTIALS w1 = SESSION_CREDENTIALS w.
Proof.
  intros [r0 _ _ _|r0 c tokens session w2 r' _ _ Hc Hl _ _ _]; [reflexivity|].
  simpl. now rewrite (stored_credentials_are_stored _ _ _ Hc).
Qed.

Lemma raises_keeps_credentials kwargs w e kwargs' w1 :
  attempt_raises net login kwargs w e kwargs' w1 ->
  SESSION_CREDENTIALS w1 = SESSION_CREDENTIALS w.
Proof.
  intros [e0 _|r e0 _ _ _|r c e0 w2 _ _ Hc Hl|r c tokens e0 w2 _ _ Hc Hl _
          |r c tokens session e0 w2 _ _ Hc Hl _ _
          |r c tokens session e0 w2 r' _ _ Hc Hl _ _ _];
    try reflexivity;
    try (simpl; now rewrite (stored_credentials_are_stored _ _ _ Hc)).
  now apply login_keeps in Hl.
Qed.

Lemma ends_keeps_credentials attempts kwargs w out w' :
  loop_ends net login max_retries delay attempts kwargs w out w' ->
  SESSION_CREDENTIALS w' = SESSION_CREDENTIALS w.
Proof.
  induction 1 as [kw w|attempt rest kw w r w1 Hret
                  |attempt rest kw w e kw' w1 Hraise _
                  |attempt rest kw w e kw' w1 out w' Hraise _ _ _ IH].
  - reflexivity.
  - eapply returns_keeps_credentials; eauto.
  - eapply raises_keeps_credentials; eauto.
  - rewrite IH. simpl. eapply raises_keeps_credentials; eauto.
Qed.
End Credentials.

Lemma login_with_keeps_credentials request_with_retry username password :
  (forall r, keeps_credentials (request_with_retry r)) ->
  keeps_credentials (login_with request_with_retry username password).
Proof.
  intros Hr w out w' H. apply login_with_world in H. destruct H as [res H].
  now apply Hr in H.
Qed.

Lemma request_with_retry_keeps_credentials net :
  forall depth kwargs max_retries delay,
    keeps_credentials (Main2.request_with_retry net depth kwargs max_retries delay).
Proof.
  induction depth as [|depth IH]; intros kwargs m d w out w' H; [discriminate|].
  cbn [Main2.request_with_retry] in H. apply retry_loop_sound in H.
  eapply ends_keeps_credentials; [|exact H].
  intros u p. apply login_with_keeps_credentials. intros r. apply IH.
Qed.

(** X3.  [request_with_retry] of main2.py never changes the stored
    credentials, whatever the answers and however often it logs in
    again: it stores new tokens only next to the credentials it used. *)
Theorem credentials_are_never_changed :
  forall (net : network) (depth : nat) (kwargs : request) (max_retries : nat)
         (delay : Z) (w : world) (out : result (option response)) (w' : world),
    Main2.request_with_retry net depth kwargs max_retries delay w
    = Some (out, w') ->
    SESSION_CREDENTIALS w' = SESSION_CREDENTIALS w.
Proof.
  intros net depth kwargs m d w out w' H.
  exact (request_with_retry_keeps_credentials net depth kwargs m d w out w' H).
Qed.

Lemma credentials_are_never_changed_witness :
  exists out w',
    Main2.request_with_retry Examples.net_expired 2 Examples.get_library 6 10%Z
                             Examples.logged_in = Some (out, w')
    /\ SESSION_CREDENTIALS w' = SESSION_CREDENTIALS Examples.logged_in.
Proof.
  do 2 eexists. split; [reflexivity|].
  exact (credentials_are_never_changed Examples.net_expired 2
           Examples.get_library 6 10%Z Examples.logged_in _ _ eq_refl).
Defined.

(** ** main.py: the shape of every run *)

Lemma main_loop_shape net m d kwargs :
  forall n a w,
    (1 <= n)%nat -> (a + n = m)%nat ->
    exists k, (k < n)%nat
              /\ snd (Main.retry_loop net m d (seq a n) kwargs w)
                 = send (after_failures kwargs d k w) kwargs.
Proof.
  induction n as [|n IH]; intros a w Hn Hm; [lia|].
  cbn [seq Main.retry_loop].
  assert (H0 : exists k, (k < S n)%nat
                         /\ send w kwargs
                            = send (after_failures kwargs d k w) kwargs)
    by (exists 0%nat; split; [lia|reflexivity]).
  destruct (net (sent w) kwargs) as [e|r].
  - destruct (is_network_failure e); [|exact H0].
    destruct (a <? m - 1)%nat eqn:Ea; [|exact H0].
    apply Nat.ltb_lt in Ea.
    destruct (IH (S a) (sleep d (send w kwargs))) as [k [Hk E]]; [lia|lia|].
    exists (S k). split; [lia|exact E].
  - destruct (raise_for_status r); exact H0.
Qed.

(** X4.  [request_with_retry] of main.py, with at least one attempt
    allowed, sends the call between 1 and [max_retries] times, sleeps
    [delay] seconds after every call but the last, does nothing else,
    and leaves the session state alone. *)
Theorem main_py_run_is_calls_and_sleeps :
  forall (net : network) (kwargs : request) (max_retries : nat) (delay : Z)
         (w : world),
    (1 <= max_retries)%nat ->
    exists k,
      (k < max_retries)%nat
      /\ snd (Main.request_with_retry net kwargs max_retries delay w)
         = mkWorld (SESSION_TOKENS w) (SESSION_CREDENTIALS w) (sent w + k + 1)
                   (trace w ++ failed_attempts kwargs delay k ++ [ERequest kwargs]).
Proof.
  intros net kwargs m d w Hm.
  destruct (main_loop_shape net m d kwargs m 0 w) as [k [Hk E]]; [lia|lia|].
  exists k. split; [exact Hk|].
  unfold Main.request_with_retry. rewrite E. apply send_after_failures.
Qed.

Lemma main_py_run_is_calls_and_sleeps_witness :
  (1 <= 6)%nat
  /\ exists k,
       (k < 6)%nat
       /\ snd (Main.request_with_retry Examples.net_flaky_500
                 Examples.get_library 6 10%Z Examples.logged_in)
          = mkWorld (SESSION_TOKENS Examples.logged_in)
                    (SESSION_CREDENTIALS Examples.logged_in)
                    (sent Examples.logged_in + k + 1)
                    (trace Examples.logged_in
                     ++ failed_attempts Examples.get_library 10%Z k
                     ++ [ERequest Examples.get_library]).
Proof.
  assert (H : (1 <= 6)%nat) by lia.
  split; [exact H|].
  exact (main_py_run_is_calls_and_sleeps Examples.net_flaky_500
           Examples.get_library 6 10%Z Examples.logged_in H).
Defined.

(** ** A successful re-authentication *)

Lemma login_succeeds net depth username password w r tokens :
  net (sent w) (login_request username password) = NetResp r ->
  raise_for_status r = None ->
  json r = Some tokens ->
  login net (S depth) username password w
  = Some (Ok tokens, send w (login_request username password)).
Proof.
  intros Hnet Hr Hj. unfold login, login_with.
  cbn [Main2.request_with_retry].
  change (seq 0 6) with (0%nat :: seq 1 5). cbn [retry_loop].
  rewrite Hnet, (accepted_is_not_401 r Hr), Hr. cbv beta iota.
  now rewrite (accepted_is_not_401 r Hr), Hr, Hj.
Qed.

Lemma dict_get_set_same {V} (d : dict V) (k : string) (v : V) :
  dict_get (dict_set d k v) k = Some v.
Proof.
  induction d as [|[k' v'] d IH]; simpl.
  - now rewrite String.eqb_refl.
  - destruct (String.eqb k k') eqn:E; simpl; now rewrite E.
Qed.

Lemma authorization_is_set kwargs session :
  exists h,
    headers (set_authorization kwargs session) = Some h
    /\ dict_get h "Authorization" = Some (HBearer session).
Proof.
  unfold set_authorization. destruct (headers kwargs) as [[|kv hs]|];
    try (eexists; split; reflexivity).
  eexists. split; [reflexivity|]. apply dict_get_set_same.
Qed.

(** X5.  An expired session on an endpoint whose URL does not contain the
    text of line 681, with stored credentials: when the answer is 401,
    the login is accepted and answers tokens with a session, and the
    repeated call is accepted, [request_with_retry] makes exactly these
    three calls, without sleeping, stores the new tokens, sends the
    repeated call with the new [Authorization] header and returns its
    answer. *)
Theorem expired_session_is_renewed :
  forall (net : network) (depth : nat) (kwargs : request) (w : world)
         (username password : string) (r r1 r2 : response)
         (tokens session : value),
    contains "LOGIN_ENDPOINT" (url kwargs) = false ->
    SESSION_CREDENTIALS w = Some (username, password) ->
    net (sent w) kwargs = NetResp r ->
    status_code r = 401%Z ->
    net (S (sent w)) (login_request username password) = NetResp r1 ->
    raise_for_status r1 = None ->
    json r1 = Some tokens ->
    session_of tokens = Ok session ->
    net (S (S (sent w))) (set_authorization kwargs session) = NetResp r2 ->
    raise_for_status r2 = None ->
    Main2.request_with_retry net (S (S depth)) kwargs 6 10%Z w
    = Some (Ok (Some r2),
            mkWorld (Some tokens) (Some (username, password)) (sent w + 3)
                    (trace w ++ [ERequest kwargs;
                                 ERequest (login_request username password);
                                 ERequest (set_authorization kwargs session)]))
    /\ exists h,
         headers (set_authorization kwargs session) = Some h
         /\ dict_get h "Authorization" = Some (HBearer session).
Proof.
  intros net depth kwargs w u p r r1 r2 tokens session
         Hguard Hcred Hnet H401 Hnet1 Hr1 Hj Hs Hnet2 Hr2.
  split; [|apply authorization_is_set].
  change (Main2.request_with_retry net (S (S depth)) kwargs 6 10%Z w)
    with (retry_loop net (login net (S depth)) 6 10%Z (0%nat :: seq 1 5)
                     kwargs w).
  cbn [retry_loop].
  rewrite Hnet, H401, Hguard.
  cbn [negb Z.eqb Pos.eqb load_credentials send SESSION_CREDENTIALS].
  rewrite Hcred.
  rewrite (login_succeeds net depth u p (send w kwargs) r1 tokens Hnet1 Hr1 Hj),
    Hs.
  cbn [sent save_session send]. rewrite Hnet2, Hr2.
  unfold send, save_session. cbn [sent trace SESSION_TOKENS SESSION_CREDENTIALS].
  rewrite <- !app_assoc. cbn [app].
  now replace (S (S (S (sent w)))) with (sent w + 3)%nat by lia.
Qed.

Lemma expired_session_is_renewed_witness :
  Main2.request_with_retry Examples.net_expired 2 Examples.get_library 6 10%Z
                           Examples.logged_in
  = Some (Ok (Some (mkResponse 200 (Some (VDict [("result", VStr "ok")])))),
          mkWorld (Some Examples.fresh_tokens) (Some ("user", "secret"))
                  (sent Examples.logged_in + 3)
                  (trace Examples.logged_in
                   ++ [ERequest Examples.get_library;
                       ERequest (login_request "user" "secret");
                       ERequest (set_authorization Examples.get_library
                                                   (VStr "new"))]))
  /\ exists h,
       headers (set_authorization Examples.get_library (VStr "new")) = Some h
       /\ dict_get h "Authorization" = Some (HBearer (VStr "new")).
Proof.
  exact (expired_session_is_renewed Examples.net_expired 0 Examples.get_library
           Examples.logged_in "user" "secret"
           (mkResponse 401 None)
           (mkResponse 200 (Some Examples.fresh_tokens))
           (mkResponse 200 (Some (VDict [("result", VStr "ok")])))
           Examples.fresh_tokens (VStr "new")
           eq_refl eq_refl eq_refl eq_refl eq_refl eq_refl eq_refl eq_refl
           eq_refl eq_refl).
Defined.

(** ** [login] never raises the [ValueError] of lines 26-34 *)

Section NoValueError.
Variable net : network.
Variable login : string -> string -> run value.
Variable max_retries : nat.
Variable delay : Z.
Hypothesis net_ok : forall n q msg, net n q <> NetRaise (ValueError msg).
Hypothesis login_ok :
  forall u p w out w', login u p w = Some (out, w') -> no_plain_value_error out.

Lemma subscript_no_value_error v k e msg :
  subscript v k = Raise e -> e <> ValueError msg.
Proof.
  unfold subscript. destruct v; try (intros [= <-]; discriminate).
  destruct (dict_get d k); [discriminate|]. intros [= <-]. discriminate.
Qed.

Lemma raises_no_value_error kwargs w e kwargs' w1 msg :
  attempt_raises net login kwargs w e kwargs' w1 -> e <> ValueError msg.
Proof.
  intros [e0 Hn|r e0 _ Hr _|r c e0 w2 _ _ _ Hl|r c tokens e0 w2 _ _ _ _ Hs
          |r c tokens session e0 w2 _ _ _ _ _ Hn
          |r c tokens session e0 w2 r' _ _ _ _ _ _ Hr] E; subst.
  - exact (net_ok _ _ _ Hn).
  - apply raise_for_status_raises_http_error in Hr. discriminate.
  - exact (login_ok _ _ _ _ _ Hl msg eq_refl).
  - unfold session_of in Hs.
    destruct (subscript tokens "token") as [t|e1] eqn:Ht.
    + exact (subscript_no_value_error _ _ _ msg Hs eq_refl).
    + injection Hs as ->. exact (subscript_no_value_error _ _ _ msg Ht eq_refl).
  - exact (net_ok _ _ _ Hn).
  - apply raise_for_status_raises_http_error in Hr. discriminate.
Qed.

Lemma ends_no_value_error attempts kwargs w out w' :
  loop_ends net login max_retries delay attempts kwargs w out w' ->
  no_plain_value_error out.
Proof.
  induction 1 as [kw w|attempt rest kw w r w1 _
                  |attempt rest kw w e kw' w1 Hraise _
                  |attempt rest kw w e kw' w1 out w' _ _ _ _ IH];
    intros msg; try discriminate; [|exact (IH msg)].
  intros [= E]. exact (raises_no_value_error _ _ _ _ _ msg Hraise E).
Qed.
End NoValueError.

Lemma login_with_no_value_error request_with_retry username password :
  (forall r w out w', request_with_retry r w = Some (out, w') ->
                      no_plain_value_error out /\ successful out) ->
  forall w out w',
    login_with request_with_retry username password w = Some (out, w') ->
    no_plain_value_error out.
Proof.
  intros Hr w out w' H msg. unfold login_with in H.
  destruct (request_with_retry (login_request username password) w)
    as [[[[resp|]|e] w1]|] eqn:E; [| | |discriminate];
    destruct (Hr _ _ _ _ E) as [Hv Hs].
  - simpl in Hs. rewrite (accepted_is_not_401 resp Hs), Hs in H.
    destruct (json resp); injection H as <- <-; discriminate.
  - contradiction.
  - injection H as <- <-. intros [= ->]. exact (Hv msg eq_refl).
Qed.

Lemma request_with_retry_no_value_error net :
  (forall n q msg, net n q <> NetRaise (ValueError msg)) ->
  forall depth kwargs max_retries delay w out w',
    Main2.request_with_retry net depth kwargs max_retries delay w
    = Some (out, w') ->
    no_plain_value_error out.
Proof.
  intros Hnet. induction depth as [|depth IH];
    intros kwargs m d w out w' H; [discriminate|].
  cbn [Main2.request_with_retry] in H. apply retry_loop_sound in H.
  eapply ends_no_value_error; [exact Hnet| |exact H].
  intros u p. apply login_with_no_value_error.
  intros r x o x' Hx. split; [exact (IH _ _ _ _ _ _ Hx)|].
  destruct depth as [|depth']; [discriminate|].
  cbn [Main2.request_with_retry] in Hx. apply retry_loop_sound in Hx.
  apply (ends_successful _ _ _ _ _ _ _ _ _ Hx 0%nat 6%nat);
    [reflexivity|lia|reflexivity].
Qed.

(** X6.  Unless [requests.request] itself raises a [ValueError], the
    only [ValueError] that [login] raises is the [JSONDecodeError] of
    [resp.json()] (line 36, or that of a login nested in the transport):
    the [ValueError] of lines 26-34, which turns a 401 answer into
    "Login failed", is never raised, because [request_with_retry] raises
    [HTTPError] on a 401 instead of returning it. *)
Theorem login_value_error_is_json_decode_error :
  forall (net : network) (depth : nat) (username password : string)
         (w : world) (out : result value) (w' : world),
    net_raises_no_value_error net ->
    login net depth username password w = Some (out, w') ->
    only_json_value_error out.
Proof.
  intros net depth u p w out w' Hnet H e -> He.
  assert (Hplain : forall n q msg, net n q <> NetRaise (ValueError msg)).
  { intros n q msg E. apply Hnet in E. discriminate. }
  assert (Hno : no_plain_value_error (A := value) (Raise e)).
  { unfold login in H. eapply login_with_no_value_error; [|exact H].
    intros r x o x' Hx. split.
    - exact (request_with_retry_no_value_error net Hplain _ _ _ _ _ _ _ Hx).
    - destruct depth as [|depth']; [discriminate|].
      cbn [Main2.request_with_retry] in Hx. apply retry_loop_sound in Hx.
      apply (ends_successful _ _ _ _ _ _ _ _ _ Hx 0%nat 6%nat);
        [reflexivity|lia|reflexivity]. }
  destruct e; try discriminate; [|reflexivity].
  exfalso. exact (Hno msg eq_refl).
Qed.

(** The login endpoint answers 200 with a body that is no JSON: [login]
    raises [JSONDecodeError], which [except ValueError] catches. *)
Lemma login_value_error_is_json_decode_error_witness :
  net_raises_no_value_error MoreExamples.net_not_json
  /\ login MoreExamples.net_not_json 1 "user" "secret" MoreExamples.anonymous
     = Some (Raise JSONDecodeError,
             send MoreExamples.anonymous (login_request "user" "secret"))
  /\ only_json_value_error (A := value) (Raise JSONDecodeError).
Proof.
  assert (H : net_raises_no_value_error MoreExamples.net_not_json)
    by (intros n q e; discriminate).
  split; [exact H|]. split; [reflexivity|].
  exact (login_value_error_is_json_decode_error MoreExamples.net_not_json 1
           "user" "secret" MoreExamples.anonymous _ _ H eq_refl).
Defined.

(** A wrong password and no stored credentials: the 401 of the login
    endpoint comes out of [login] as [HTTPError], not as the "Login
    failed" of line 33. *)
Example wrong_password_raises_http_error :
  login Examples.net_unauthorized 1 "user" "typo" MoreExamples.anonymous
  = Some (Raise (HTTPError 401),
          send MoreExamples.anonymous (login_request "user" "typo")).
Proof. reflexivity. Qed.

(** ** The response returned answers the call *)

Lemma set_authorization_same_call kwargs session :
  same_call (set_authorization kwargs session) kwargs.
Proof.
  unfold same_call, set_authorization.
  destruct (headers kwargs) as [[|kv hs]|]; repeat split.
Qed.

Lemma same_call_trans (a b c : request) :
  same_call a b -> same_call b c -> same_call a c.
Proof.
  unfold same_call. intros [H1 [H2 H3]] [H4 [H5 H6]].
  repeat split; congruence.
Qed.

Lemma same_call_refl (a : request) : same_call a a.
Proof. repeat split. Qed.

Section Provenance.
Variable net : network.
Variable login : string -> string -> run value.
Variable max_retries : nat.
Variable delay : Z.

Lemma raises_same_call kwargs w e kwargs' w1 :
  attempt_raises net login kwargs w e kwargs' w1 -> same_call kwargs' kwargs.
Proof.
  intros []; try apply same_call_refl; apply set_authorization_same_call.
Qed.

Lemma ends_provenance attempts kwargs w out w' :
  loop_ends net login max_retries delay attempts kwargs w out w' ->
  forall r, out = Ok (Some r) ->
            exists n q, net n q = NetResp r /\ same_call q kwargs.
Proof.
  induction 1 as [kw w|attempt rest kw w r0 w1 Hret
                  |attempt rest kw w e kw' w1 _ _
                  |attempt rest kw w e kw' w1 out w' Hraise _ _ _ IH];
    intros r E; try discriminate.
  - injection E as ->.
    destruct Hret as [r0 Hn _ _|r0 c tokens session w2 r' _ _ _ _ _ Hn _].
    + exists (sent w), kw. split; [exact Hn|apply same_call_refl].
    + exists (sent w2), (set_authorization kw session).
      split; [exact Hn|apply set_authorization_same_call].
  - destruct (IH r E) as [n [q [Hn Hq]]]. exists n, q. split; [exact Hn|].
    eapply same_call_trans; [exact Hq|]. eapply raises_same_call; eauto.
Qed.
End Provenance.

(** Whatever the run ends with: a response in its result is an answer to
    the call. *)
Lemma answered_call (net : network) (depth : nat) (kwargs : request)
      (max_retries : nat) (delay : Z) (w : world)
      (out : result (option response)) (w' : world) :
  Main2.request_with_retry net depth kwargs max_retries delay w
  = Some (out, w') ->
  forall r, out = Ok (Some r) ->
            exists n q, net n q = NetResp r /\ same_call q kwargs.
Proof.
  destruct depth as [|depth]; [discriminate|].
  cbn [Main2.request_with_retry]. intros H.
  apply retry_loop_sound in H. intros r E.
  exact (ends_provenance _ _ _ _ _ _ _ _ _ H r E).
Qed.

Section LastCall.
Variable net : network.
Variable login : string -> string -> run value.
Variable max_retries : nat.
Variable delay : Z.
Hypothesis login_grows : forall u p, growing (login u p).

Lemma raises_extends kwargs w e kwargs' w1 :
  attempt_raises net login kwargs w e kwargs' w1 -> extends w w1.
Proof.
  intros [e0 _|r e0 _ _ _|r c e0 w2 _ _ _ Hl|r c tokens e0 w2 _ _ _ Hl _
          |r c tokens session e0 w2 _ _ _ Hl _ _
          |r c tokens session e0 w2 r' _ _ _ Hl _ _ _];
    try apply extends_send;
    apply login_grows in Hl;
    pose proof (extends_trans _ _ _ (extends_send w kwargs) Hl) as H2.
  - exact H2.
  - eapply extends_trans; [exact H2|apply extends_save_session].
  - eapply extends_trans; [exact H2|].
    eapply extends_trans; [apply extends_save_session|apply extends_send].
  - eapply extends_trans; [exact H2|].
    eapply extends_trans; [apply extends_save_session|apply extends_send].
Qed.

Lemma ends_last_call attempts kwargs w out w' :
  loop_ends net login max_retries delay attempts kwargs w out w' ->
  forall r, out = Ok (Some r) -> answers_last_call net kwargs w w' r.
Proof.
  induction 1 as [kw w|attempt rest kw w r0 w1 Hret
                  |attempt rest kw w e kw' w1 _ _
                  |attempt rest kw w e kw' w1 out w' Hraise _ _ _ IH];
    intros r E; try discriminate.
  - injection E as ->.
    destruct Hret as [r0 Hn _ _|r0 c tokens session w2 r' _ _ _ Hl _ Hn _].
    + exists kw, [], (sent w). repeat split; try reflexivity; assumption.
    + apply login_grows in Hl. destruct Hl as [t Ht].
      exists (set_authorization kw session), (ERequest kw :: t), (sent w2).
      split; [apply set_authorization_same_call|].
      split; [|split; [reflexivity|exact Hn]].
      cbn [send save_session trace] in *. rewrite Ht.
      now rewrite <- !app_assoc.
  - destruct (IH r E) as [q [t [n [Hq [Ht [Hs Hn]]]]]].
    destruct (raises_extends _ _ _ _ _ Hraise) as [t1 Ht1].
    exists q, (t1 ++ ESleep delay :: t), n.
    split; [eapply same_call_trans; [exact Hq|];
            eapply raises_same_call; eauto|].
    split; [|split; assumption].
    rewrite Ht. cbn [sleep trace]. rewrite Ht1.
    now rewrite <- !app_assoc.
Qed.
End LastCall.

(** X7.  A response that [request_with_retry] of main2.py returns is the
    network's answer to the last request the run sent, and that request
    is this call, with its method, URL and payload (the headers may be
    the renewed ones): whatever was sent in between, a login included,
    lies before it in the trace, and its answer is not what is
    returned. *)
Theorem returned_response_answers_the_call :
  forall (net : network) (depth : nat) (kwargs : request) (max_retries : nat)
         (delay : Z) (w : world) (r : response) (w' : world),
    Main2.request_with_retry net depth kwargs max_retries delay w
    = Some (Ok (Some r), w') ->
    answers_last_call net kwargs w w' r.
Proof.
  intros net [|depth] kwargs m d w r w' H; [discriminate|].
  cbn [Main2.request_with_retry] in H. apply retry_loop_sound in H.
  eapply ends_last_call; [|exact H|reflexivity].
  intros u p. apply growing_login_with. intros q.
  apply growing_request_with_retry.
Qed.

(** The expired session of [Examples.net_expired]: the response returned
    is the third answer, to the call with the renewed header; the
    second, to the login, is not. *)
Lemma returned_response_answers_the_call_witness :
  Main2.request_with_retry Examples.net_expired 2 Examples.get_library 6 10%Z
                           Examples.logged_in
  = Some (Ok (Some (mkResponse 200 (Some (VDict [("result", VStr "ok")])))),
          MoreExamples.renewed)
  /\ answers_last_call Examples.net_expired Examples.get_library
                       Examples.logged_in MoreExamples.renewed
                       (mkResponse 200 (Some (VDict [("result", VStr "ok")]))).
Proof.
  assert (H : Main2.request_with_retry Examples.net_expired 2
                Examples.get_library 6 10%Z Examples.logged_in
              = Some (Ok (Some (mkResponse 200
                                  (Some (VDict [("result", VStr "ok")])))),
                      MoreExamples.renewed)) by reflexivity.
  split; [exact H|].
  exact (returned_response_answers_the_call Examples.net_expired 2
           Examples.get_library 6 10%Z Examples.logged_in _ _ H).
Defined.

(** ** [get_manga_library] *)

Lemma is_str_eq (v : value) (s : string) : is_str v s = true -> v = VStr s.
Proof.
  destruct v; try discriminate. simpl. intros H.
  apply String.eqb_eq in H. now subst.
Qed.

(** X8.  When [get_manga_library] returns, what it returns is the
    [statuses] member of an object whose [result] is ["ok"], the body of
    an accepted answer to a GET of the status endpoint; with any other
    body it raises. *)
Theorem library_comes_from_an_ok_answer :
  forall (net : network) (depth : nat) (session_headers : dict hval)
         (w : world) (statuses : value) (w' : world),
    Main2Rest.get_manga_library net depth session_headers w
    = Some (Ok statuses, w') ->
    exists n q r data,
      net n q = NetResp r
      /\ method q = "GET" /\ url q = MANGA_LIBRARY_ENDPOINT
      /\ raise_for_status r = None
      /\ json r = Some (VDict data)
      /\ get_or_none data "result" = VStr "ok"
      /\ dict_get data "statuses" = Some statuses.
Proof.
  intros net depth h w statuses w' H. unfold Main2Rest.get_manga_library in H.
  destruct (Main2.request_with_retry net depth _ 6 10%Z w)
    as [[[[r|]|e] w1]|] eqn:E; try discriminate.
  destruct (answered_call _ _ _ _ _ _ _ _ E r eq_refl)
    as [n [q [Hn [Hm [Hu _]]]]].
  destruct (raise_for_status r) eqn:Hr; [discriminate|].
  destruct (json r) as [[| | | | | |data]|] eqn:Hj; try discriminate.
  destruct (is_str (get_or_none data "result") "ok") eqn:Hok;
    [|discriminate].
  simpl in H. destruct (dict_get data "statuses") eqn:Hs; [|discriminate].
  injection H as <- <-.
  exists n, q, r, data. repeat split; auto. now apply is_str_eq.
Qed.

Lemma library_comes_from_an_ok_answer_witness :
  exists statuses w',
    Main2Rest.get_manga_library MoreExamples.net_library 1
      [("Authorization", HBearer (VStr "old"))] Examples.logged_in
    = Some (Ok statuses, w')
    /\ exists n q r data,
         MoreExamples.net_library n q = NetResp r
         /\ method q = "GET" /\ url q = MANGA_LIBRARY_ENDPOINT
         /\ raise_for_status r = None
         /\ json r = Some (VDict data)
         /\ get_or_none data "result" = VStr "ok"
         /\ dict_get data "statuses" = Some statuses.
Proof.
  do 2 eexists. split; [reflexivity|].
  exact (library_comes_from_an_ok_answer MoreExamples.net_library 1
           [("Authorization", HBearer (VStr "old"))] Examples.logged_in
           _ _ eq_refl).
Defined.

(** A 200 answer whose body says [error] makes [get_manga_library] raise. *)
Example library_error_body_raises :
  Main2Rest.get_manga_library MoreExamples.net_library_error 1
    [("Authorization", HBearer (VStr "old"))] Examples.logged_in
  = Some (Raise (OtherError "Failed to fetch manga library"),
          send Examples.logged_in
               (mkRequest "GET" MANGA_LIBRARY_ENDPOINT
                          (Some [("Authorization", HBearer (VStr "old"))]) VNone)).
Proof. reflexivity. Qed.

(** ** The stored tokens and the logout *)

Section Blind.
Variable net : network.

Lemma same_send (w1 w2 : world) (q : request) :
  same_but_tokens w1 w2 -> same_but_tokens (send w1 q) (send w2 q).
Proof. intros [Hc [Hs Ht]]. unfold send. repeat split; simpl; congruence. Qed.

Lemma same_sleep (w1 w2 : world) (delay : Z) :
  same_but_tokens w1 w2 -> same_but_tokens (sleep delay w1) (sleep delay w2).
Proof. intros [Hc [Hs Ht]]. unfold sleep. repeat split; simpl; congruence. Qed.

Lemma same_save (w1 w2 : world) (tokens : value)
      (credentials : option (string * string)) :
  same_but_tokens w1 w2 ->
  same_but_tokens (save_session tokens credentials w1)
                  (save_session tokens credentials w2).
Proof.
  intros [Hc [Hs Ht]]. unfold save_session.
  repeat split; simpl; [now destruct credentials|assumption|assumption].
Qed.

Lemma alike_same {A} (r : result A) (w1 w2 : world) :
  same_but_tokens w1 w2 -> alike (Some (r, w1)) (Some (r, w2)).
Proof. intros H. split; [reflexivity|exact H]. Qed.

Lemma login_with_blind (rwr : request -> run (option response))
      (username password : string) :
  (forall q, blind_to_tokens (rwr q)) ->
  blind_to_tokens (login_with rwr username password).
Proof.
  intros Hr w1 w2 Hw. unfold login_with.
  pose proof (Hr (login_request username password) w1 w2 Hw) as H.
  destruct (rwr (login_request username password) w1) as [[o1 wa]|],
    (rwr (login_request username password) w2) as [[o2 wb]|];
    simpl in H; try contradiction; [|exact I].
  destruct H as [<- Hab].
  destruct o1 as [[resp|]|e]; try now apply alike_same.
  destruct (status_code resp =? 401)%Z.
  - destruct (json resp) as [[]|]; try now apply alike_same.
    destruct (is_str _ _); [now apply alike_same|].
    destruct (raise_for_status resp); now apply alike_same.
  - destruct (raise_for_status resp); [now apply alike_same|].
    destruct (json resp); now apply alike_same.
Qed.

Lemma handlers_blind (max_retries : nat) (delay : Z) (attempt : nat)
      (next : request -> run (option response)) (e : exn) (kwargs : request) :
  (forall q, blind_to_tokens (next q)) ->
  blind_to_tokens (handlers max_retries delay attempt next e kwargs).
Proof.
  intros Hn w1 w2 Hw. unfold handlers.
  destruct (is_network_failure e); [|now apply alike_same].
  destruct (attempt <? max_retries - 1)%nat; [|now apply alike_same].
  apply Hn. now apply same_sleep.
Qed.

Lemma retry_loop_blind (login : string -> string -> run value)
      (max_retries : nat) (delay : Z) :
  (forall u p, blind_to_tokens (login u p)) ->
  forall (attempts : list nat) (kwargs : request),
    blind_to_tokens (retry_loop net login max_retries delay attempts kwargs).
Proof.
  intros Hl. induction attempts as [|attempt rest IH]; intros kwargs w1 w2 Hw.
  - now apply alike_same.
  - assert (Hh : forall e q,
               blind_to_tokens
                 (handlers max_retries delay attempt
                           (retry_loop net login max_retries delay rest) e q))
      by (intros e q; now apply handlers_blind).
    pose proof (same_send w1 w2 kwargs Hw) as Hs.
    cbn [retry_loop]. destruct Hw as [Hc [Hn Ht]]. rewrite <- Hn.
    destruct (net (sent w1) kwargs) as [e|resp]; [now apply Hh|].
    assert (Hfin : alike
                     (match raise_for_status resp with
                      | Some e => handlers max_retries delay attempt
                                    (retry_loop net login max_retries delay rest)
                                    e kwargs (send w1 kwargs)
                      | None => Some (Ok (Some resp), send w1 kwargs)
                      end)
                     (match raise_for_status resp with
                      | Some e => handlers max_retries delay attempt
                                    (retry_loop net login max_retries delay rest)
                                    e kwargs (send w2 kwargs)
                      | None => Some (Ok (Some resp), send w2 kwargs)
                      end)).
    { destruct (raise_for_status resp); [now apply Hh|now apply alike_same]. }
    destruct (status_code resp =? 401)%Z; [|exact Hfin].
    unfold load_credentials. cbn [send SESSION_CREDENTIALS]. rewrite <- Hc.
    destruct (if negb (contains "LOGIN_ENDPOINT" (url kwargs))
              then SESSION_CREDENTIALS w1 else None) as [[u p]|].
    + pose proof (Hl u p _ _ Hs) as H.
      unfold send in H. cbn [send] in *.
      destruct (login u p _) as [[o1 wa]|], (login u p _) as [[o2 wb]|];
        simpl in H; try contradiction; [|exact I].
      destruct H as [<- Hab]. destruct o1 as [tokens|e]; [|now apply Hh].
      pose proof (same_save wa wb tokens (Some (u, p)) Hab) as Hsave.
      destruct (session_of tokens) as [session|e]; [|now apply Hh].
      pose proof (same_send _ _ (set_authorization kwargs session) Hsave) as Hs2.
      destruct Hsave as [_ [Hn2 _]]. rewrite <- Hn2.
      destruct (net _ (set_authorization kwargs session)) as [e|resp'];
        [now apply Hh|].
      destruct (raise_for_status resp'); [now apply Hh|now apply alike_same].
    + destruct (raise_for_status resp); [now apply Hh|exact Hfin].
Qed.

Lemma request_with_retry_blind :
  forall (depth : nat) (kwargs : request) (max_retries : nat) (delay : Z),
    blind_to_tokens (Main2.request_with_retry net depth kwargs max_retries delay).
Proof.
  induction depth as [|depth IH]; intros kwargs max_retries delay.
  - intros w1 w2 _. exact I.
  - cbn [Main2.request_with_retry]. apply retry_loop_blind.
    intros u p. apply login_with_blind. intros q. apply IH.
Qed.
End Blind.

(** X23.  The transport of main2.py never reads the stored tokens (the
    [Authorization] header is the caller's), and the logout of the menu
    clears nothing else: a call made after a logout has the same
    result, sends the same calls and sleeps the same as without the
    logout, and it still logs in again with the stored credentials on a
    401. *)
Theorem logout_does_not_change_the_transport :
  forall (net : network) (depth : nat) (kwargs : request) (max_retries : nat)
         (delay : Z) (w : world),
    blind_to_tokens (Main2.request_with_retry net depth kwargs max_retries delay)
    /\ same_but_tokens (Main2Rest.logout w) w
    /\ alike (Main2.request_with_retry net depth kwargs max_retries delay
                                       (Main2Rest.logout w))
             (Main2.request_with_retry net depth kwargs max_retries delay w).
Proof.
  intros net depth kwargs max_retries delay w.
  assert (H : same_but_tokens (Main2Rest.logout w) w) by (repeat split).
  split; [apply request_with_retry_blind|]. split; [exact H|].
  now apply request_with_retry_blind.
Qed.

(** After a logout the expired session of [Examples.net_expired] is
    renewed as before. *)
Example logout_then_expired_session :
  option_map fst
    (Main2.request_with_retry Examples.net_expired 2 Examples.get_library
                              6 10%Z (Main2Rest.logout Examples.logged_in))
  = option_map fst
      (Main2.request_with_retry Examples.net_expired 2 Examples.get_library
                                6 10%Z Examples.logged_in).
Proof. reflexivity. Qed.

End TransportMore.

(* ===================================================================== *)
(** * The cap on the calls of one request                                *)
(* ===================================================================== *)

Module TransportCap.
Import Py Http Main2 Props MoreProps LoopRel TransportFacts LoopRelFacts.

(** ** main.py: every run *)

Lemma main_every_run net kwargs :
  forall n a w,
    (1 <= n)%nat -> (a + n = 6)%nat ->
    exists k, (k < n)%nat
              /\ fails_first net kwargs w k
              /\ snd (Main.retry_loop net 6 10%Z (seq a n) kwargs w)
                 = send (after_failures kwargs 10%Z k w) kwargs.
Proof.
  induction n as [|n IH]; intros a w Hn Hm; [lia|].
  cbn [seq Main.retry_loop].
  assert (H0 : exists k, (k < S n)%nat
                         /\ fails_first net kwargs w k
                         /\ send w kwargs
                            = send (after_failures kwargs 10%Z k w) kwargs).
  { exists 0%nat. split; [lia|]. split; [intros i Hi; lia|reflexivity]. }
  destruct (net (sent w) kwargs) as [e|r] eqn:Hnet.
  - destruct (is_network_failure e) eqn:He; [|exact H0].
    destruct (a <? 6 - 1)%nat eqn:Ea; [|exact H0].
    apply Nat.ltb_lt in Ea.
    destruct (IH (S a) (sleep 10%Z (send w kwargs))) as [k [Hk [Hf E]]];
      [lia|lia|].
    exists (S k). split; [lia|]. split; [|exact E].
    intros [|i] Hi.
    + exists e. now rewrite Nat.add_0_r.
    + destruct (Hf i) as [e' He']; [lia|]. exists e'.
      cbn [sleep send sent] in He'. now rewrite Nat.add_succ_r.
  - destruct (raise_for_status r); exact H0.
Qed.

(** ** main2.py: the requests to one URL *)

Lemma sends_to_app (u : string) (t1 t2 : list event) :
  sends_to u (t1 ++ t2) = (sends_to u t1 + sends_to u t2)%nat.
Proof. unfold sends_to. now rewrite map_app, list_sum_app. Qed.

Lemma sends_extends (u : string) (w w' : world) :
  extends w w' -> (sends_to u (trace w) <= sends_to u (trace w'))%nat.
Proof. intros [t ->]. rewrite sends_to_app. lia. Qed.

Lemma sends_send (u : string) (w : world) (q : request) :
  sends_to u (trace (send w q)) = (sends_to u (trace w) + weight u q)%nat.
Proof. cbn [send trace]. rewrite sends_to_app. unfold sends_to. simpl. lia. Qed.

Lemma sends_sleep (u : string) (w : world) (d : Z) :
  sends_to u (trace (sleep d w)) = sends_to u (trace w).
Proof. cbn [sleep trace]. rewrite sends_to_app. unfold sends_to. simpl. lia. Qed.

Lemma weight_set_authorization (u : string) (q : request) (session : value) :
  weight u (set_authorization q session) = weight u q.
Proof.
  unfold weight, set_authorization.
  now destruct (headers q) as [[|h hs]|].
Qed.

Section Cap.
Variable net : network.
Variable login : string -> string -> run value.
Variable max_retries : nat.
Variable delay : Z.
Variable u : string.
Hypothesis login_silent :
  forall a b w o w2, login a b w = Some (o, w2) ->
                     sends_to u (trace w2) = sends_to u (trace w).

Lemma returns_sends kwargs w r w1 :
  attempt_returns net login kwargs w r w1 ->
  (sends_to u (trace w1) <= sends_to u (trace w) + 2 * weight u kwargs)%nat.
Proof.
  intros [r0 _ _ _|r0 c tokens session w2 r' _ _ _ Hl _ _ _].
  - rewrite sends_send. lia.
  - apply login_silent in Hl. rewrite sends_send in *.
    cbn [save_session trace]. rewrite Hl, weight_set_authorization. lia.
Qed.

Lemma raises_sends kwargs w e kwargs' w1 :
  attempt_raises net login kwargs w e kwargs' w1 ->
  weight u kwargs' = weight u kwargs
  /\ (sends_to u (trace w1) <= sends_to u (trace w) + 2 * weight u kwargs)%nat.
Proof.
  intros [e0 _|r e0 _ _ _|r c e0 w2 _ _ _ Hl|r c tokens e0 w2 _ _ _ Hl _
          |r c tokens session e0 w2 _ _ _ Hl _ _
          |r c tokens session e0 w2 r' _ _ _ Hl _ _ _];
    try apply login_silent in Hl;
    rewrite ?sends_send in *; cbn [save_session trace];
    rewrite ?sends_send, ?weight_set_authorization;
    (split; [reflexivity|]); try rewrite Hl; lia.
Qed.

Lemma ends_sends attempts kwargs w out w' :
  loop_ends net login max_retries delay attempts kwargs w out w' ->
  (sends_to u (trace w')
   <= sends_to u (trace w) + 2 * weight u kwargs * length attempts)%nat.
Proof.
  induction 1 as [kw w|attempt rest kw w r w1 Hret
                  |attempt rest kw w e kw' w1 Hraise _
                  |attempt rest kw w e kw' w1 out w' Hraise _ _ _ IH];
    cbn [length].
  - lia.
  - apply returns_sends in Hret. nia.
  - apply raises_sends in Hraise. nia.
  - apply raises_sends in Hraise. destruct Hraise as [Hw Hs].
    rewrite sends_sleep, Hw in IH. nia.
Qed.
End Cap.

(** A call to another URL sends nothing to [u], and neither do the
    logins nested in it. *)
Lemma other_calls_are_silent net (u : string) :
  u <> LOGIN_ENDPOINT ->
  forall depth kwargs max_retries delay w out w',
    url kwargs <> u ->
    Main2.request_with_retry net depth kwargs max_retries delay w
    = Some (out, w') ->
    sends_to u (trace w') = sends_to u (trace w).
Proof.
  intros Hu. induction depth as [|depth IH];
    intros kwargs m d w out w' Hk H; [discriminate|].
  pose proof (growing_request_with_retry net (S depth) kwargs m d w out w' H)
    as Hg.
  apply (sends_extends u) in Hg.
  cbn [Main2.request_with_retry] in H. apply retry_loop_sound in H.
  apply (ends_sends _ _ _ _ u) in H.
  - assert (W : weight u kwargs = 0%nat).
    { unfold weight. destruct (String.eqb_spec (url kwargs) u); congruence. }
    rewrite W in H. lia.
  - intros a b x o x2 Hl. apply login_with_world in Hl.
    destruct Hl as [res Hl]. apply (IH _ _ _ _ _ _) in Hl; [exact Hl|].
    intros E. apply Hu. now rewrite <- E.
Qed.

Lemma sends_of_one_request net depth kwargs max_retries delay w out w' :
  url kwargs <> LOGIN_ENDPOINT ->
  Main2.request_with_retry net depth kwargs max_retries delay w
  = Some (out, w') ->
  (sends_to (url kwargs) (trace w')
   <= sends_to (url kwargs) (trace w) + 2 * max_retries)%nat.
Proof.
  intros Hu H. destruct depth as [|depth]; [discriminate|].
  cbn [Main2.request_with_retry] in H. apply retry_loop_sound in H.
  apply (ends_sends _ _ _ _ (url kwargs)) in H.
  - rewrite length_seq in H. unfold weight in H.
    rewrite String.eqb_refl in H. lia.
  - intros a b x o x2 Hl. apply login_with_world in Hl.
    destruct Hl as [res Hl].
    apply (other_calls_are_silent net (url kwargs) Hu) in Hl; [exact Hl|].
    intros E. apply Hu. now rewrite <- E.
Qed.

(** C9, as amended.  [request_with_retry] with the defaults.  In
    main.py, for every request and every network: the call is sent [k +
    1] times for some [k <= 5], the first [k] calls failed with a
    connection error or a timeout and each was followed by a sleep of 10
    seconds, and nothing else happens.  In main2.py a round answered 401
    logs in again and sends the call a second time, so the cap of 6 is
    one on the rounds: one request sends its call at most 12 times
    (shown for every URL but the login one, whose nested logins are
    calls to the same URL).  In both variants, after [k] failed calls:
    when the sixth call fails too its failure is raised, an answer with
    a status below 400 is returned, and an answer with an error status
    other than 401 raises [HTTPError] at once, with no further call. *)
Theorem network_failure_retry_cap :
  forall (net : network) (kwargs : request) (w : world),
    (exists k,
        (k <= 5)%nat
        /\ fails_first net kwargs w k
        /\ snd (Main.request_with_retry net kwargs 6 10%Z w)
           = mkWorld (SESSION_TOKENS w) (SESSION_CREDENTIALS w)
                     (sent w + k + 1)
                     (trace w ++ failed_attempts kwargs 10%Z k
                      ++ [ERequest kwargs]))
    /\ (url kwargs <> LOGIN_ENDPOINT ->
        forall depth out w',
          Main2.request_with_retry net depth kwargs 6 10%Z w = Some (out, w') ->
          (sends_to (url kwargs) (trace w')
           <= sends_to (url kwargs) (trace w) + 12)%nat)
    /\ (forall k,
           (k <= 5)%nat ->
           fails_first net kwargs w k ->
           let t := failed_attempts kwargs 10%Z k ++ [ERequest kwargs] in
           let w' := mkWorld (SESSION_TOKENS w) (SESSION_CREDENTIALS w)
                             (sent w + k + 1) (trace w ++ t) in
           (forall e, k = 5%nat ->
                      net (sent w + 5)%nat kwargs = NetRaise e ->
                      is_network_failure e = true ->
                      both_variants net kwargs w (Raise e, w'))
           /\ (forall r, net (sent w + k)%nat kwargs = NetResp r ->
                         raise_for_status r = None ->
                         both_variants net kwargs w (Ok (Some r), w'))
           /\ (forall r, net (sent w + k)%nat kwargs = NetResp r ->
                         status_code r <> 401%Z ->
                         (400 <= status_code r < 600)%Z ->
                         both_variants net kwargs w
                           (Raise (HTTPError (status_code r)), w'))
           /\ count_requests t = S k
           /\ count_sleeps 10%Z t = k).
Proof.
  intros net kwargs w. split; [|split].
  - destruct (main_every_run net kwargs 6 0 w) as [k [Hk [Hf E]]];
      [lia|lia|].
    exists k. split; [lia|]. split; [exact Hf|].
    unfold Main.request_with_retry. rewrite E. apply send_after_failures.
  - intros Hu depth out w' H.
    exact (sends_of_one_request net depth kwargs 6 10%Z w out w' Hu H).
  - intros k Hk Hf. exact (after_consecutive_failures net kwargs w k Hk Hf).
Qed.

(** The network is down: six calls, five sleeps, then [ConnectionError]
    in both variants. *)
Lemma network_failure_retry_cap_witness :
  fails_first Examples.net_down Examples.get_library Examples.logged_in 5
  /\ both_variants Examples.net_down Examples.get_library Examples.logged_in
       (Raise ConnectionError,
        mkWorld (SESSION_TOKENS Examples.logged_in)
                (SESSION_CREDENTIALS Examples.logged_in) 6
                (failed_attempts Examples.get_library 10%Z 5
                 ++ [ERequest Examples.get_library])).
Proof.
  split; [exact network_down_fails_five_times|].
  exact (proj1 (proj2 (proj2
           (network_failure_retry_cap Examples.net_down Examples.get_library
              Examples.logged_in))
           5%nat (le_n 5) network_down_fails_five_times)
           ConnectionError eq_refl eq_refl eq_refl).
Defined.

(** An expired session on a bad line: in each of the six rounds the call
    is answered 401, the login succeeds and the repeated call hits a
    connection error, so the call is sent 12 times. *)
Lemma relogin_doubles_the_sends_counterexample :
  ~ six_sends_cap MoreExamples.net_relogin_reset Examples.get_library
      Examples.logged_in.
Proof.
  intros H.
  let r := eval vm_compute in
        (Main2.request_with_retry MoreExamples.net_relogin_reset 2
           Examples.get_library 6 10%Z Examples.logged_in) in
  assert (E : Main2.request_with_retry MoreExamples.net_relogin_reset 2
                Examples.get_library 6 10%Z Examples.logged_in = r)
    by (vm_compute; reflexivity).
  apply H in E. vm_compute in E. lia.
Qed.

End TransportCap.

(* ===================================================================== *)
(** * Enrichment: batches, failures and what an item keeps               *)
(* ===================================================================== *)

Module EnrichmentMore.
Import Py Http Main2 Props MoreProps EnrichmentFacts.

(** ** The batches *)

Lemma range_step_bound (len n k : nat) :
  (0 < n)%nat -> In k (range_step len n) -> (k < len)%nat.
Proof.
  intros Hn. unfold range_step. rewrite in_map_iff.
  intros [j [<- Hj]]. apply in_seq in Hj.
  pose proof (Nat.div_mod_eq (len + n - 1) n) as E.
  pose proof (Nat.mod_upper_bound (len + n - 1) n) as U.
  nia.
Qed.

Lemma batches_nonempty (manga_ids batch : list string) :
  In batch (batches manga_ids) -> batch <> [].
Proof.
  unfold batches. rewrite in_map_iff. intros [i [<- Hi]].
  apply range_step_bound in Hi; [|unfold batch_size; lia].
  unfold slice. intros E. apply (f_equal (@length _)) in E.
  rewrite length_firstn, length_skipn in E. unfold batch_size in E.
  simpl length in E. lia.
Qed.

(** X9.  The ids are cut into consecutive batches: put together in order
    the batches give the ids back, no batch is empty, none has more than
    100 ids, and there are [ceil(n / 100)] of them; main.py cuts the
    same batches. *)
Theorem batches_cut_the_ids :
  forall manga_ids : list string,
    concat (batches manga_ids) = manga_ids
    /\ (forall batch, In batch (batches manga_ids) ->
                      batch <> [] /\ (length batch <= 100)%nat)
    /\ length (batches manga_ids) = ((length manga_ids + 99) / 100)%nat
    /\ map (fun i => slice manga_ids i (i + 100))
           (range_step (length manga_ids) 100)
       = batches manga_ids.
Proof.
  intros manga_ids. split; [apply concat_batches|].
  split; [|split; [|reflexivity]].
  - intros batch H. split; [now apply (batches_nonempty manga_ids)|].
    now apply (batches_at_most_100 manga_ids).
  - unfold batches, range_step, batch_size.
    rewrite !length_map, length_seq. f_equal. lia.
Qed.

(** ** The items of a run *)

Lemma batch_loop_items float_of_string srv status_map :
  forall todo all_info out,
    batch_loop float_of_string srv (Some status_map) (language_of srv) todo all_info
    = Ok out ->
    (forall batch, In batch todo -> exists data, manga_batch srv batch = Ok data)
    /\ out = all_info ++ concat (map (batch_items float_of_string srv status_map) todo).
Proof.
  induction todo as [|batch rest IH]; intros all_info out H.
  - injection H as <-. split; [intros b []|now rewrite app_nil_r].
  - simpl batch_loop in H.
    destruct (manga_batch srv batch) as [data|e] eqn:Hd; [|discriminate].
    apply IH in H. destruct H as [Hok ->]. split.
    + intros b [<-|Hb]; [now exists data|now apply Hok].
    + rewrite process_batch_pointwise, <- app_assoc. simpl concat.
      unfold batch_items at 2, answer_of. now rewrite Hd.
Qed.

Lemma batch_loop_raises float_of_string srv status_map user_language
      (batch : list string) (rest : list (list string)) (e : exn) :
  manga_batch srv batch = Raise e ->
  forall before all_info,
    (forall b, In b before -> exists data, manga_batch srv b = Ok data) ->
    batch_loop float_of_string srv (Some status_map) user_language
               (before ++ batch :: rest) all_info
    = Raise e.
Proof.
  intros He. induction before as [|b before IH]; intros all_info Hok; simpl.
  - now rewrite He.
  - destruct (Hok b (or_introl eq_refl)) as [data ->].
    apply IH. intros x Hx. apply Hok. now right.
Qed.

Lemma main_batch_loop_raises srv status_map
      (batch : list string) (rest : list (list string)) (e : exn) :
  manga_batch srv batch = Raise e ->
  forall before all_info,
    (forall b, In b before -> exists data, manga_batch srv b = Ok data) ->
    MainRest.batch_loop srv (Some status_map) (before ++ batch :: rest) all_info
    = Raise e.
Proof.
  intros He. induction before as [|b before IH]; intros all_info Hok; simpl.
  - now rewrite He.
  - destruct (Hok b (or_introl eq_refl)) as [data ->].
    apply IH. intros x Hx. apply Hok. now right.
Qed.

(** X10.  When the metadata call of a batch raises, after the calls of
    the batches before it were answered, [get_manga_info] raises that
    exception in both variants: the items of the earlier batches are not
    returned. *)
Theorem failed_batch_aborts_the_run :
  forall (float_of_string : string -> option pyfloat) (srv : mangadex)
         (manga_ids : list string) (status_map : dict string)
         (before : list (list string)) (batch : list string)
         (rest : list (list string)) (e : exn),
    batches manga_ids = before ++ batch :: rest ->
    (forall b, In b before -> exists data, manga_batch srv b = Ok data) ->
    manga_batch srv batch = Raise e ->
    get_manga_info float_of_string srv manga_ids (Some status_map) = Raise e
    /\ MainRest.get_manga_info srv manga_ids (Some status_map) = Raise e.
Proof.
  intros fos srv ids sm before batch rest e Hb Hok He. split.
  - unfold get_manga_info. rewrite Hb. now apply batch_loop_raises.
  - unfold MainRest.get_manga_info.
    change (map (fun i => slice ids i (i + 100)) (range_step (length ids) 100))
      with (batches ids).
    rewrite Hb. now apply main_batch_loop_raises.
Qed.

Lemma failed_batch_aborts_the_run_witness :
  get_manga_info Examples.float_of_decimal MoreExamples.srv_second_batch_fails
                 MoreExamples.ids_two_batches (Some Examples.library)
  = Raise (HTTPError 500)
  /\ MainRest.get_manga_info MoreExamples.srv_second_batch_fails
                             MoreExamples.ids_two_batches (Some Examples.library)
     = Raise (HTTPError 500).
Proof.
  apply (failed_batch_aborts_the_run Examples.float_of_decimal
           MoreExamples.srv_second_batch_fails MoreExamples.ids_two_batches
           Examples.library [repeat "x" 100] ["id101"] [] (HTTPError 500)).
  - vm_compute. reflexivity.
  - intros b [<-|[]]. eexists. reflexivity.
  - reflexivity.
Defined.

(** ** What enrichment does to one object *)

Lemma attributes_attach_status status_map (m : manga) :
  attributes (attach_status status_map m) = attributes m.
Proof.
  unfold attach_status. destruct (id m) as [i|]; [|reflexivity].
  destruct (negb (String.eqb i EmptyString)); [|reflexivity].
  now destruct (dict_get status_map i).
Qed.

Lemma status_attach_status status_map (m : manga) :
  reading_status (attach_status status_map m)
  = match id m with
    | Some i =>
        if String.eqb i EmptyString then reading_status m
        else match dict_get status_map i with
             | Some s => Some s
             | None => reading_status m
             end
    | None => reading_status m
    end.
Proof.
  unfold attach_status. destruct (id m) as [i|]; [|reflexivity].
  destruct (String.eqb i EmptyString); simpl; [reflexivity|].
  now destruct (dict_get status_map i).
Qed.

Lemma enrich_one_enriched status_map user_language read_status_map ratings_map
      float_of_string srv (m : manga) :
  enriched status_map m
           (enrich_one status_map user_language read_status_map ratings_map
                       float_of_string srv m).
Proof.
  unfold enriched.
  rewrite <- status_attach_status,
    <- (id_attach_status status_map m),
    <- (attributes_attach_status status_map m).
  unfold enrich_one, submit.
  destruct (id m) as [i|]; [destruct (get_default read_status_map i [])|];
    simpl; unfold merge; try destruct (progress_of _ _);
    simpl; repeat split; discriminate.
Qed.

Lemma Forall2_map_r {A B} (R : A -> B -> Prop) (f : A -> B) (l : list A) :
  (forall a, R a (f a)) -> Forall2 R l (map f l).
Proof. intros H. induction l; simpl; constructor; auto. Qed.

Lemma Forall2_concat_map {A B C} (R : B -> C -> Prop)
      (f : A -> list B) (g : A -> list C) (l : list A) :
  (forall a, Forall2 R (f a) (g a)) ->
  Forall2 R (concat (map f l)) (concat (map g l)).
Proof.
  intros H. induction l; simpl; [constructor|].
  apply Forall2_app; auto.
Qed.

Lemma batch_items_enriched float_of_string srv status_map
      (todo : list (list string)) :
  Forall2 (enriched status_map)
          (concat (map (answer_of srv) todo))
          (concat (map (batch_items float_of_string srv status_map) todo)).
Proof.
  apply Forall2_concat_map. intros batch. unfold batch_items.
  apply Forall2_map_r. intros m. apply enrich_one_enriched.
Qed.

(** X11.  A run of [get_manga_info] that returns delivers, in order, one
    item for every object the metadata calls returned: the item has the
    id and the attributes of its object, both progress keys set, and as
    reading status that of the status map when the object's id is a
    non-empty key of it, the object's own otherwise. *)
Theorem every_returned_object_is_enriched :
  forall (float_of_string : string -> option pyfloat) (srv : mangadex)
         (manga_ids : list string) (status_map : dict string)
         (all_info : list manga),
    get_manga_info float_of_string srv manga_ids (Some status_map) = Ok all_info ->
    Forall2 (enriched status_map)
            (concat (map (answer_of srv) (batches manga_ids)))
            all_info.
Proof.
  intros fos srv ids sm all_info H. unfold get_manga_info in H.
  apply batch_loop_items in H. destruct H as [_ ->]. simpl.
  apply batch_items_enriched.
Qed.

Lemma every_returned_object_is_enriched_witness :
  exists all_info,
    get_manga_info Examples.float_of_decimal Examples.srv_scenario
                   ["id1"; "id2"] (Some Examples.library) = Ok all_info
    /\ Forall2 (enriched Examples.library)
               (concat (map (answer_of Examples.srv_scenario)
                            (batches ["id1"; "id2"])))
               all_info.
Proof.
  eexists. split; [reflexivity|].
  exact (every_returned_object_is_enriched Examples.float_of_decimal
           Examples.srv_scenario ["id1"; "id2"] Examples.library _ eq_refl).
Defined.

Lemma batch_loop_cons float_of_string srv status_map user_language
      (batch : list string) (rest : list (list string)) (all_info : list manga) :
  batch_loop float_of_string srv (Some status_map) user_language (batch :: rest) all_info
  = match manga_batch srv batch with
    | Raise e => Raise e
    | Ok data =>
        batch_loop float_of_string srv (Some status_map) user_language rest
          (all_info ++ map (enrich_one status_map user_language
                                       (read_map_of srv batch)
                                       (ratings_map_of srv batch)
                                       float_of_string srv) data)
    end.
Proof.
  simpl batch_loop. destruct (manga_batch srv batch); [|reflexivity].
  now rewrite process_batch_pointwise.
Qed.

(** ** Libraries without read history *)

Lemma enrich_one_unread status_map user_language ratings_map float_of_string
      srv (m : manga) :
  enrich_one status_map user_language [] ratings_map float_of_string srv m
  = set_progress (attach_status status_map m) (SLit "0") (SLit "0").
Proof. unfold enrich_one, submit. now destruct (id m). Qed.

Lemma user_rating_attach_status status_map (m : manga) :
  user_rating (attach_status status_map m) = user_rating m.
Proof.
  unfold attach_status. destruct (id m) as [i|]; [|reflexivity].
  destruct (negb (String.eqb i EmptyString)); [|reflexivity].
  now destruct (dict_get status_map i).
Qed.

Lemma batch_loop_unread float_of_string float_of_string' srv srv'
      status_map user_language user_language' :
  forall (todo : list (list string)) (all_info : list manga),
    (forall batch, In batch todo ->
                   manga_batch srv' batch = manga_batch srv batch
                   /\ read_map_of srv batch = []
                   /\ read_map_of srv' batch = []) ->
    batch_loop float_of_string' srv' (Some status_map) user_language' todo all_info
    = batch_loop float_of_string srv (Some status_map) user_language todo all_info.
Proof.
  induction todo as [|batch rest IH]; intros all_info H; [reflexivity|].
  rewrite !batch_loop_cons.
  destruct (H batch (or_introl eq_refl)) as [-> [-> ->]].
  destruct (manga_batch srv batch) as [data|e]; [|reflexivity].
  rewrite (map_ext _ _ (enrich_one_unread status_map user_language _
                                          float_of_string srv)).
  rewrite (map_ext _ _ (enrich_one_unread status_map user_language' _
                                          float_of_string' srv')).
  apply IH. intros b Hb. apply H. now right.
Qed.

(** X12.  When no batch has read chapters reported (the read call failed
    or answered with a list or an empty object), the chapter feed, the
    ratings, the language settings and the number parser have no
    influence on what [get_manga_info] returns: every item gets the
    progress ["0"], ["0"], and its [user_rating] stays as the metadata
    call delivered it. *)
Theorem unread_library_ignores_feed_and_ratings :
  forall (float_of_string float_of_string' : string -> option pyfloat)
         (srv srv' : mangadex) (manga_ids : list string)
         (status_map : dict string),
    (forall batch, In batch (batches manga_ids) ->
                   manga_batch srv' batch = manga_batch srv batch) ->
    nothing_read srv manga_ids ->
    nothing_read srv' manga_ids ->
    get_manga_info float_of_string' srv' manga_ids (Some status_map)
    = get_manga_info float_of_string srv manga_ids (Some status_map)
    /\ forall all_info,
         get_manga_info float_of_string srv manga_ids (Some status_map) = Ok all_info ->
         Forall zero_progress all_info
         /\ map user_rating all_info
            = map user_rating (concat (map (answer_of srv) (batches manga_ids))).
Proof.
  intros fos fos' srv srv' ids sm Hsame Hr Hr'. split.
  - unfold get_manga_info. apply batch_loop_unread.
    intros b Hb. auto.
  - intros all_info H. unfold get_manga_info in H.
    apply batch_loop_items in H. destruct H as [_ ->]. simpl.
    unfold nothing_read in Hr. clear Hsame Hr'.
    induction (batches ids) as [|b rest IH]; [split; [constructor|reflexivity]|].
    destruct IH as [IH1 IH2]; [intros x Hx; apply Hr; now right|].
    simpl. rewrite map_app, map_app, <- IH2. unfold batch_items at 1 3.
    rewrite (Hr b (or_introl eq_refl)).
    rewrite (map_ext _ _ (enrich_one_unread sm (language_of srv) _ fos srv)).
    split.
    + apply Forall_app. split; [|exact IH1].
      apply Forall_forall. intros m' Hm'. apply in_map_iff in Hm'.
      destruct Hm' as [m [<- _]]. split; reflexivity.
    + f_equal. rewrite map_map. apply map_ext. intros m. simpl.
      apply user_rating_attach_status.
Qed.

Lemma unread_library_ignores_feed_and_ratings_witness :
  get_manga_info (fun _ => None) Examples.srv_scenario ["id1"; "id2"]
                 (Some Examples.library)
  = get_manga_info Examples.float_of_decimal MoreExamples.srv_read_fails
                   ["id1"; "id2"] (Some Examples.library)
  /\ forall all_info,
       get_manga_info Examples.float_of_decimal MoreExamples.srv_read_fails
                      ["id1"; "id2"] (Some Examples.library) = Ok all_info ->
       Forall zero_progress all_info
       /\ map user_rating all_info
          = map user_rating
                (concat (map (answer_of MoreExamples.srv_read_fails)
                             (batches ["id1"; "id2"]))).
Proof.
  apply (unread_library_ignores_feed_and_ratings
           Examples.float_of_decimal (fun _ => None)
           MoreExamples.srv_read_fails Examples.srv_scenario
           ["id1"; "id2"] Examples.library).
  - intros batch _. reflexivity.
  - intros batch _. reflexivity.
  - intros batch _. reflexivity.
Defined.

(** ** The two variants *)

Lemma attach_status_nil (m : manga) : attach_status [] m = m.
Proof.
  unfold attach_status. destruct (id m) as [i|]; [|reflexivity].
  now destruct (negb (String.eqb i EmptyString)).
Qed.

Lemma core_enrich_one status_map user_language read_status_map ratings_map
      float_of_string srv (m : manga) :
  core (enrich_one status_map user_language read_status_map ratings_map
                   float_of_string srv m)
  = core (attach_status status_map m).
Proof.
  unfold enrich_one, submit.
  destruct (id m) as [i|]; [destruct (get_default read_status_map i [])|];
    simpl; unfold merge; try destruct (progress_of _ _); reflexivity.
Qed.

Lemma core_attach_all status_map (data : list manga) :
  map core (MainRest.attach_all (Some status_map) data)
  = map core (map (attach_status status_map) data).
Proof.
  destruct status_map as [|kv rest]; [|reflexivity].
  simpl. f_equal. symmetry. rewrite <- (map_id data) at 2.
  apply map_ext. apply attach_status_nil.
Qed.

Lemma batch_loops_agree float_of_string srv status_map user_language :
  forall (todo : list (list string)) (a b : list manga),
    map core a = map core b ->
    agree_on_core
      (batch_loop float_of_string srv (Some status_map) user_language todo a)
      (MainRest.batch_loop srv (Some status_map) todo b).
Proof.
  induction todo as [|batch rest IH]; intros a b H; [exact H|].
  rewrite batch_loop_cons. cbn [MainRest.batch_loop].
  destruct (manga_batch srv batch) as [data|e]; [|reflexivity].
  apply IH. rewrite !map_app, H, core_attach_all, !map_map. f_equal.
  apply map_ext. intros m. apply core_enrich_one.
Qed.

(** Without a status map main2.py gets as far as main.py unless line 186
    raises. *)
Lemma batch_loops_agree_without_map float_of_string srv user_language :
  forall (todo : list (list string)) (a b : list manga),
    map core a = map core b ->
    agree_on_core
      (batch_loop float_of_string srv None user_language todo a)
      (MainRest.batch_loop srv None todo b)
    \/ (batch_loop float_of_string srv None user_language todo a
        = Raise (OtherError "TypeError")
        /\ membership_fails srv todo).
Proof.
  induction todo as [|batch rest IH]; intros a b H; [now left|].
  cbn [batch_loop MainRest.batch_loop].
  destruct (manga_batch srv batch) as [data|e] eqn:Hd; [|now left].
  destruct (membership_raises data) eqn:Hm.
  - right. split; [reflexivity|]. exists batch, data. simpl. auto.
  - destruct (IH (a ++ process_batch float_of_string srv [] user_language
                                     (read_map_of srv batch)
                                     (ratings_map_of srv batch) data)
                 (b ++ MainRest.attach_all None data)) as [Hl|[Hr Hf]].
    + rewrite !map_app, H, process_batch_pointwise, map_map. f_equal.
      apply map_ext. intros m. rewrite core_enrich_one.
      now rewrite attach_status_nil.
    + left. exact Hl.
    + right. split; [exact Hr|].
      destruct Hf as [b0 [d0 [Hin Hrest]]]. exists b0, d0. simpl. auto.
Qed.

(** X13.  On the same service answers the two variants of
    [get_manga_info], called with a status map, end alike: both raise
    the same exception, or both return lists of items that agree,
    position by position, on id, attributes and reading status (the
    progress and the rating main2.py adds change none of these).  Called
    without one (the default [None]) they end alike too, unless a
    metadata answer holds an object with a true id: there line 186 of
    main2.py raises TypeError, where the [if status_map:] of main.py
    skips the loop. *)
Theorem both_variants_deliver_the_same_items :
  forall (float_of_string : string -> option pyfloat) (srv : mangadex)
         (manga_ids : list string) (status_map : option (dict string)),
    agree_on_core (get_manga_info float_of_string srv manga_ids status_map)
                  (MainRest.get_manga_info srv manga_ids status_map)
    \/ (status_map = None
        /\ get_manga_info float_of_string srv manga_ids status_map
           = Raise (OtherError "TypeError")
        /\ membership_fails srv (batches manga_ids)).
Proof.
  intros fos srv ids [sm|]; unfold get_manga_info, MainRest.get_manga_info.
  - left. now apply batch_loops_agree.
  - destruct (batch_loops_agree_without_map fos srv (language_of srv)
                (batches ids) [] [] eq_refl) as [H|[H1 H2]];
      [now left|right; auto].
Qed.

(** Without a status map main2.py raises on the first object, main.py
    returns the objects as they came. *)
Example variants_differ_without_status_map :
  get_manga_info Examples.float_of_decimal Examples.srv_scenario
                 ["id1"; "id2"] None
  = Raise (OtherError "TypeError")
  /\ MainRest.get_manga_info Examples.srv_scenario ["id1"; "id2"] None
     = Ok [Examples.item1; Examples.item2].
Proof. split; reflexivity. Qed.

(** ** The library and its items *)

Lemma dict_get_nodup {V} (d : dict V) (k : string) (v : V) :
  NoDup (map fst d) -> In (k, v) d -> dict_get d k = Some v.
Proof.
  induction d as [|[k' v'] d IH]; intros Hn Hin; [destruct Hin|].
  simpl in Hn. inversion Hn as [|? ? Hk Hd]; subst.
  simpl. destruct Hin as [E|Hin].
  - injection E as -> ->. now rewrite String.eqb_refl.
  - destruct (String.eqb k k') eqn:E.
    + apply String.eqb_eq in E. subst k'. exfalso. apply Hk.
      apply in_map_iff. now exists (k, v).
    + now apply IH.
Qed.

(** The entry of an enriched item whose id is a key of the library. *)
Lemma entry_of_enriched (manga_library : dict string) (m m' : manga) :
  enriched manga_library m m' ->
  (exists kv, In kv manga_library /\ id m = Some (fst kv)
              /\ fst kv <> EmptyString) ->
  entry_of m'
  = (id m, match id m with
           | Some i => dict_get manga_library i
           | None => None
           end).
Proof.
  intros [Hid [_ [_ [_ Hst]]]] [[k v] [Hin [Hk Hne]]]. simpl in Hk, Hne.
  unfold entry_of. rewrite Hid, Hst, Hk. f_equal.
  destruct (String.eqb k EmptyString) eqn:E;
    [apply String.eqb_eq in E; contradiction|].
  destruct (dict_get manga_library k) eqn:G; [reflexivity|].
  exfalso. clear - Hin G.
  induction manga_library as [|[k' v'] d IH]; [destruct Hin|].
  simpl in G. destruct (String.eqb k k') eqn:E; [discriminate|].
  destruct Hin as [H|H]; [|now apply IH].
  injection H as -> ->. now rewrite String.eqb_refl in E.
Qed.

Lemma Forall2_map_eq {A B C} (R : A -> B -> Prop) (f : B -> C) (g : A -> C) :
  forall (l : list A) (l' : list B),
    Forall2 R l l' ->
    (forall a b, In a l -> R a b -> f b = g a) ->
    map f l' = map g l.
Proof.
  intros l l' H. induction H as [|a b l l' Hab H IH]; intros Hfg; [reflexivity|].
  simpl. f_equal; [apply Hfg; [now left|exact Hab]|].
  apply IH. intros x y Hx. apply Hfg. now right.
Qed.

(** X14.  [fetch_and_prepare_manga_info] on a library whose ids are
    non-empty, when the metadata call of every batch answers with one
    object per id asked: the items returned carry exactly the entries of
    the library, every id once and with the status the library gives
    it. *)
Theorem items_carry_the_library_entries :
  forall (float_of_string : string -> option pyfloat) (srv : mangadex)
         (manga_library : dict string),
    NoDup (map fst manga_library) ->
    (forall kv, In kv manga_library -> fst kv <> EmptyString) ->
    (forall batch, In batch (batches (map fst manga_library)) ->
                   answers_every_id srv batch) ->
    exists manga_info,
      Main2Rest.fetch_and_prepare_manga_info float_of_string srv manga_library
      = Ok manga_info
      /\ Permutation (map entry_of manga_info)
                     (map library_entry manga_library).
Proof.
  intros fos srv lib Hn Hne Hsrv.
  unfold Main2Rest.fetch_and_prepare_manga_info.
  destruct (batch_loop_ids fos srv lib (language_of srv)
                           (batches (map fst lib)) [] Hsrv)
    as [out [Hout Hperm]].
  rewrite concat_batches in Hperm. simpl in Hout.
  change (get_manga_info fos srv (map fst lib) (Some lib) = Ok out) in Hout.
  exists out. split; [exact Hout|].
  pose proof (batch_items_enriched fos srv lib (batches (map fst lib))) as Hen.
  pose proof Hout as Hitems. unfold get_manga_info in Hitems.
  apply batch_loop_items in Hitems. destruct Hitems as [_ Hitems].
  simpl in Hitems. rewrite <- Hitems in Hen.
  assert (Hids : map id out
                 = map id (concat (map (answer_of srv) (batches (map fst lib))))).
  { apply (Forall2_map_eq _ _ _ _ _ Hen).
    intros a b _ [E _]. exact E. }
  rewrite Hids in Hperm.
  set (h := fun o : option string =>
              (o, match o with
                  | Some i => dict_get lib i
                  | None => None
                  end)).
  assert (E1 : map entry_of out
               = map h (map id (concat (map (answer_of srv)
                                            (batches (map fst lib)))))).
  { rewrite map_map. apply (Forall2_map_eq _ _ _ _ _ Hen).
    intros a b Ha Hab. apply entry_of_enriched; [exact Hab|].
    assert (Hin : In (id a) (map Some (map fst lib))).
    { apply (Permutation_in _ Hperm). now apply in_map. }
    rewrite map_map in Hin. apply in_map_iff in Hin.
    destruct Hin as [kv [Hkv Hin]]. exists kv. auto. }
  assert (E2 : map library_entry lib = map h (map Some (map fst lib))).
  { rewrite !map_map. apply map_ext_in. intros [k v] Hin.
    unfold library_entry, h. simpl. f_equal. symmetry.
    now apply dict_get_nodup. }
  rewrite E1, E2. now apply Permutation_map.
Qed.

Lemma items_carry_the_library_entries_witness :
  exists manga_info,
    Main2Rest.fetch_and_prepare_manga_info Examples.float_of_decimal
                                           Examples.srv_echo Examples.library
    = Ok manga_info
    /\ Permutation (map entry_of manga_info)
                   (map library_entry Examples.library).
Proof.
  apply items_carry_the_library_entries.
  - repeat constructor; simpl; intuition discriminate.
  - intros kv [<-|[<-|[]]]; discriminate.
  - intros batch _. exists (map (fun i => Examples.item i None) batch).
    split; [reflexivity|]. rewrite map_map. simpl. apply Permutation_refl.
Defined.

End EnrichmentMore.


(* ===================================================================== *)
(** * Sinks: the remote import, the two XML exports and their order      *)
(* ===================================================================== *)

Module SinkMore.
Import Py Http Main2 Props MoreProps SinkFacts RemoteImportFacts.

(** ** The mutation loop *)


(** X15.  [sync_to_anilist] of main2.py, when some item has a true
    [al_id], first runs the authorization; when that raises, nothing is
    sent.  Otherwise it sends the mutations of the items with a true
    [al_id] in input order and stops at the first exception: the
    mutations sent are those of the first [k] such items.  When the
    function returns, every such item had its mutation sent and
    answered, and the CSV export holds exactly the items without a true
    [al_id]; when it raises, the exception is that of the
    authorization, that of [int(al_id)] of item [k], or that of the call
    for the last mutation sent. *)
Theorem mutations_follow_the_items_in_order :
  forall (float_of_string : string -> option pyfloat)
         (int_of_string : string -> option Z)
         (post : dict jvalue -> option exn) (authorize : option exn)
         (mangas : list manga),
    let out := sync_to_anilist float_of_string int_of_string post authorize
                               mangas in
    exists k,
      map Ok (fst out)
      = map (variables_of float_of_string int_of_string)
            (firstn k (manga_with_al_id mangas))
      /\ match snd out with
         | Ok calls =>
             (manga_with_al_id mangas = [] \/ authorize = None)
             /\ loop_outcome float_of_string int_of_string post
                             (manga_with_al_id mangas) (fst out) k None
             /\ csv_items calls = manga_without_al_id mangas
         | Raise e =>
             manga_with_al_id mangas <> []
             /\ ((authorize = Some e /\ fst out = [])
                 \/ (authorize = None
                     /\ loop_outcome float_of_string int_of_string post
                                     (manga_with_al_id mangas) (fst out) k
                                     (Some e)))
         end.
Proof.
  intros fos ios post authorize mangas out. subst out.
  unfold sync_to_anilist.
  destruct (manga_with_al_id mangas) as [|m l] eqn:Hw.
  - exists 0%nat. simpl. split; [reflexivity|].
    split; [now left|]. split; [split; [reflexivity|constructor]|].
    unfold csv_items. simpl. rewrite app_nil_r. symmetry.
    now apply filter_nil_negb.
  - destruct authorize as [e|].
    { exists 0%nat. simpl. split; [reflexivity|].
      split; [discriminate|]. now left. }
    destruct (mutations_prefix fos ios post (m :: l)) as [k [Hk Ho]].
    { intros x Hx. rewrite <- Hw in Hx. unfold manga_with_al_id in Hx.
      now apply filter_In in Hx. }
    exists k.
    destruct (mutations fos ios post (m :: l)) as [posted [e|]];
      simpl in Hk, Ho |- *; (split; [exact Hk|]).
    + split; [discriminate|]. right. split; [reflexivity|exact Ho].
    + split; [now right|]. split; [exact Ho|].
      destruct (manga_without_al_id mangas); unfold csv_items; simpl;
        now rewrite ?app_nil_r.
Qed.

(** ** The import path of main2.py *)

(** X16.  Behind the partitioner of main2.py the two sinks get lists
    they keep whole: [export_manga_list_to_xml] builds one entry for
    every item of [manga_with_malid] and, when the document is written,
    hands the empty list to its secondary sink, whatever the answer; the
    remote import finds a true [al_id] in every item of
    [manga_with_alid], so it sends no item to the CSV export. *)
Theorem import_path_keeps_each_list_whole :
  forall (serialize : xml -> option exn) (manga_info : list manga)
         (answer : string),
    let p := split_by_links manga_info in
    let out := export_manga_list_to_xml serialize (manga_with_malid p) answer in
    length (manga_elements (fst out)) = length (manga_with_malid p)
    /\ match snd out with
       | Ok sink => write_document serialize (fst out) = None
                    /\ sink_items sink = []
       | Raise e => write_document serialize (fst out) = Some e
       end
    /\ manga_with_al_id (manga_with_alid p) = manga_with_alid p
    /\ manga_without_al_id (manga_with_alid p) = [].
Proof.
  intros serialize info answer p out. subst p out.
  unfold split_by_links. rewrite fold_classify.
  cbn [manga_with_alid manga_with_malid manga_unlinked app].
  assert (Hmal : forall m, In m (filter carries_id_a_only info) ->
                           has_mal m = true).
  { intros m Hm. apply filter_In in Hm. destruct Hm as [_ Hm].
    unfold carries_id_a_only in Hm.
    apply andb_true_iff in Hm. now destruct Hm as [_ ->]. }
  assert (Hal : forall m, In m (filter carries_id_b info) ->
                          truthy (al_id_of m) = true).
  { intros m Hm. apply filter_In in Hm. destruct Hm as [_ Hm].
    now rewrite al_id_is_has_al. }
  split; [|split; [|split]].
  - rewrite manga_elements_export, length_map, filter_all; [reflexivity|].
    exact Hmal.
  - pose proof (export_outcome serialize (filter carries_id_a_only info)
                               answer) as Ho.
    cbv zeta in Ho.
    destruct (snd (export_manga_list_to_xml serialize
                     (filter carries_id_a_only info) answer)) as [sink|e];
      [|exact Ho].
    destruct Ho as [Hw [Hs _]]. split; [exact Hw|]. rewrite Hs.
    apply filter_none. intros m Hm. unfold lacks_mal.
    now rewrite (Hmal m Hm).
  - unfold manga_with_al_id. now apply filter_all.
  - unfold manga_without_al_id. apply filter_none.
    intros m Hm. now rewrite (Hal m Hm).
Qed.

(** ** The XML exports of the two variants *)

Lemma main_fold_xml_step : forall (l : list manga) (st : MainRest.xml_state),
  let st' := fold_left MainRest.xml_step l st in
  MainRest.entries st'
  = MainRest.entries st
    ++ map (fun m => MainRest.manga_elem m (mal_id_of m) (xml_status m))
           (filter has_mal l)
  /\ MainRest.unlisted st' = MainRest.unlisted st ++ filter lacks_mal l.
Proof.
  induction l as [|m l IH]; intros st; cbn [fold_left filter map].
  - now rewrite !app_nil_r.
  - destruct (IH (MainRest.xml_step st m)) as [He Hu]. rewrite He, Hu.
    unfold MainRest.xml_step, lacks_mal at 2. rewrite mal_id_is_has_mal.
    destruct (has_mal m); simpl; now rewrite <- ?app_assoc.
Qed.

Lemma same_counts_step (a : MainRest.xml_state) (b : xml_state) (m : manga) :
  same_counts a b -> same_counts (MainRest.xml_step a m) (xml_step b m).
Proof.
  unfold same_counts.
  intros [H1 [H2 [H3 [H4 [H5 [H6 [H7 H8]]]]]]].
  unfold MainRest.xml_step, xml_step.
  destruct (negb (truthy (mal_id_of m))); simpl;
    rewrite H1, H2, H3, H4, H5, H6, H7, H8; repeat split; reflexivity.
Qed.

Lemma same_counts_loop (l : list manga) :
  same_counts (MainRest.xml_loop l) (xml_loop l).
Proof.
  unfold MainRest.xml_loop, xml_loop.
  assert (H : same_counts (MainRest.mkXmlState 0 0 0 0 0 0 0 [] [])
                          (mkXmlState 0 0 0 0 0 0 0 [] []))
    by (repeat split; reflexivity).
  revert H. generalize (MainRest.mkXmlState 0 0 0 0 0 0 0 [] []).
  generalize (mkXmlState 0 0 0 0 0 0 0 [] []).
  induction l as [|m l IH]; intros b a H; [exact H|]. simpl.
  apply IH. now apply same_counts_step.
Qed.

Lemma main_manga_elements_export serialize (l : list manga) (answer : string) :
  MainRest.manga_elements
    (fst (MainRest.export_manga_list_to_xml serialize l answer))
  = map (fun m => MainRest.manga_elem m (mal_id_of m) (xml_status m))
        (filter has_mal l).
Proof.
  unfold MainRest.export_manga_list_to_xml, MainRest.xml_loop. cbn [fst].
  destruct (main_fold_xml_step l (MainRest.mkXmlState 0 0 0 0 0 0 0 [] []))
    as [He _].
  simpl in He. unfold MainRest.manga_elements, MainRest.xml_document.
  cbn [MainRest.echildren filter MainRest.etag String.eqb Ascii.eqb Bool.eqb].
  rewrite He. apply filter_all.
  intros e. rewrite in_map_iff. now intros [m [<- _]].
Qed.

(** How the export of main.py ends. *)
Lemma main_export_outcome serialize (l : list manga) (answer : string) :
  let out := MainRest.export_manga_list_to_xml serialize l answer in
  match snd out with
  | Ok sink =>
      MainRest.write_document serialize (fst out) = None
      /\ sink_items sink = filter lacks_mal l
      /\ (answer = "y" <-> sink = SyncToAnilist (filter lacks_mal l))
  | Raise e => MainRest.write_document serialize (fst out) = Some e
  end.
Proof.
  unfold MainRest.export_manga_list_to_xml, MainRest.xml_loop. cbn [fst snd].
  destruct (main_fold_xml_step l (MainRest.mkXmlState 0 0 0 0 0 0 0 [] []))
    as [_ Hu].
  simpl in Hu.
  destruct (MainRest.write_document serialize _); [reflexivity|].
  split; [reflexivity|]. rewrite Hu.
  destruct (String.eqb_spec answer "y") as [->|Hy];
    [split; [reflexivity|tauto]|].
  destruct (String.eqb answer "n"); simpl;
    (split; [reflexivity|split; [tauto|discriminate]]).
Qed.

Lemma Forall2_maps {A B C} (R : B -> C -> Prop) (f : A -> B) (g : A -> C)
      (l : list A) :
  (forall a, R (f a) (g a)) -> Forall2 R (map f l) (map g l).
Proof. intros H. induction l; simpl; constructor; auto. Qed.

(** X17.  For the same items and the same answer the XML exports of
    main.py and main2.py build documents with the same six totals and,
    entry by entry, the same manga id, title (as a CDATA section) and
    status, they set the same items aside, and when both documents are
    written they hand these same items to the secondary sink.  (The
    documents differ in the user name and in progress and score, which
    main.py writes as 0.) *)
Theorem xml_exports_of_both_variants_agree :
  forall (serialize1 : MainRest.element -> option exn)
         (serialize2 : xml -> option exn)
         (manga_info_list : list manga) (answer : string),
    let out1 := MainRest.export_manga_list_to_xml serialize1 manga_info_list
                                                  answer in
    let out2 := export_manga_list_to_xml serialize2 manga_info_list answer in
    (forall tag, In tag total_tags ->
                 MainRest.child_content (MainRest.myinfo_of (fst out1)) tag
                 = as_text (child_text (myinfo_of (fst out2)) tag))
    /\ Forall2 same_entry (MainRest.manga_elements (fst out1))
                          (manga_elements (fst out2))
    /\ MainRest.unlisted (MainRest.xml_loop manga_info_list)
       = unlinked (xml_loop manga_info_list)
    /\ (forall sink1 sink2,
           snd out1 = Ok sink1 -> snd out2 = Ok sink2 ->
           sink_items sink1 = sink_items sink2).
Proof.
  intros serialize1 serialize2 l answer out1 out2. subst out1 out2.
  split; [|split; [|split]].
  - pose proof (same_counts_loop l) as [H1 [H2 [H3 [H4 [H5 [H6 _]]]]]].
    unfold MainRest.export_manga_list_to_xml, export_manga_list_to_xml.
    cbn [fst].
    intros tag [<-|[<-|[<-|[<-|[<-|[<-|[]]]]]]]; simpl;
      unfold as_text; simpl; congruence.
  - rewrite main_manga_elements_export, manga_elements_export.
    apply Forall2_maps. intros m. split.
    + intros tag [<-|[<-|[]]]; reflexivity.
    + eexists. split; reflexivity.
  - now pose proof (same_counts_loop l) as [_ [_ [_ [_ [_ [_ [_ H]]]]]]].
  - intros sink1 sink2 E1 E2.
    pose proof (main_export_outcome serialize1 l answer) as H1.
    pose proof (export_outcome serialize2 l answer) as H2.
    cbv zeta in H1, H2. rewrite E1 in H1. rewrite E2 in H2.
    destruct H1 as [_ [-> _]]. now destruct H2 as [_ [-> _]].
Qed.

(** ** The mutations of the two variants *)

(** X18.  The mutation main.py sends for an item is the mutation of
    main2.py cut down to [mediaId] and [status]; [int(al_id)] raises in
    one variant exactly when it raises in the other. *)
Theorem main_py_mutation_is_cut_down :
  forall (float_of_string : string -> option pyfloat)
         (int_of_string : string -> option Z) (m : manga) (al_id : value),
    MainRest.mutation_variables int_of_string m al_id
    = match mutation_variables float_of_string int_of_string m al_id with
      | Ok variables => Ok (filter main_keys variables)
      | Raise e => Raise e
      end.
Proof.
  intros fos ios m al. unfold MainRest.mutation_variables, mutation_variables.
  destruct (py_int ios al); [|reflexivity].
  destruct (score_of fos m), (progress_int fos (read_chapter m)),
    (progress_int fos (read_volume m)); reflexivity.
Qed.

(** ** Progress from the enrichment to the remote import *)

Lemma clamped_progress_is_not_negative
      (float_of_string : string -> option pyfloat) (s : option pystr) (z : Z) :
  parses_zero float_of_string ->
  clamped_progress s ->
  progress_int float_of_string s = Some z ->
  (0 <= z)%Z.
Proof.
  intros H0 [->|[k ->]]; simpl.
  - rewrite H0. simpl. intros [= <-]. reflexivity.
  - unfold max2. destruct (num_gt (NInt 0) k) eqn:E; simpl.
    + intros [= <-]. reflexivity.
    + unfold num_gt in E. simpl in E.
      destruct (num_to_float k) as [|b|q]; simpl; try discriminate.
      intros [= <-]. apply ProgressFacts.Qgt_false in E.
      unfold Qle in E. simpl in E. rewrite Z.mul_1_r in E.
      apply Z.quot_pos; lia.
Qed.

Lemma enriched_progress_is_clamped status_map user_language read_status_map
      ratings_map float_of_string srv (m : manga) :
  let m' := enrich_one status_map user_language read_status_map ratings_map
                       float_of_string srv m in
  clamped_progress (read_chapter m') /\ clamped_progress (read_volume m').
Proof.
  unfold enrich_one, submit.
  destruct (id m) as [i|];
    [destruct (get_default read_status_map i [])|];
    simpl; try (split; now left).
  unfold merge.
  match goal with
  | |- context [progress_of ?f ?c] => destruct c as [|c0 cs]
  end; simpl; [split; now left|].
  split; right; eexists; reflexivity.
Qed.

Lemma variables_progress float_of_string int_of_string (m : manga)
      (variables : dict jvalue) :
  variables_of float_of_string int_of_string m = Ok variables ->
  dict_get variables "progress"
  = option_map JInt (progress_int float_of_string (read_chapter m))
  /\ dict_get variables "progressVolumes"
     = option_map JInt (progress_int float_of_string (read_volume m)).
Proof.
  unfold variables_of, mutation_variables.
  destruct (py_int int_of_string (al_id_of m)); [|discriminate].
  intros [= <-].
  destruct (score_of float_of_string m),
    (progress_int float_of_string (read_chapter m)),
    (progress_int float_of_string (read_volume m)); split; reflexivity.
Qed.

(** X19.  The progress sent to the remote service for an item that
    [get_manga_info] returned is never negative: the enrichment clamps
    both numbers at 0 and the import truncates them toward zero.  (The
    unread items carry the string ["0"], so [float] has to read it as
    0.) *)
Theorem progress_sent_is_never_negative :
  forall (float_of_string : string -> option pyfloat)
         (int_of_string : string -> option Z) (srv : mangadex)
         (manga_ids : list string) (status_map : dict string)
         (all_info : list manga) (m : manga) (variables : dict jvalue) (z : Z),
    parses_zero float_of_string ->
    get_manga_info float_of_string srv manga_ids (Some status_map) = Ok all_info ->
    In m all_info ->
    variables_of float_of_string int_of_string m = Ok variables ->
    dict_get variables "progress" = Some (JInt z)
    \/ dict_get variables "progressVolumes" = Some (JInt z) ->
    (0 <= z)%Z.
Proof.
  intros fos ios srv ids sm all_info m variables z H0 Hinfo Hin Hv Hz.
  unfold get_manga_info in Hinfo.
  apply EnrichmentMore.batch_loop_items in Hinfo. destruct Hinfo as [_ ->].
  simpl in Hin. apply in_concat in Hin. destruct Hin as [items [Hb Hin]].
  apply in_map_iff in Hb. destruct Hb as [batch [<- _]].
  unfold batch_items in Hin. apply in_map_iff in Hin.
  destruct Hin as [m0 [<- _]].
  destruct (variables_progress _ _ _ _ Hv) as [Hc Hvol].
  destruct (enriched_progress_is_clamped sm (language_of srv)
              (read_map_of srv batch) (ratings_map_of srv batch) fos srv m0)
    as [Cc Cv].
  destruct Hz as [Hz|Hz].
  - rewrite Hc in Hz.
    destruct (progress_int fos (read_chapter _)) as [z'|] eqn:E;
      [|discriminate].
    injection Hz as <-.
    exact (clamped_progress_is_not_negative fos _ _ H0 Cc E).
  - rewrite Hvol in Hz.
    destruct (progress_int fos (read_volume _)) as [z'|] eqn:E;
      [|discriminate].
    injection Hz as <-.
    exact (clamped_progress_is_not_negative fos _ _ H0 Cv E).
Qed.

Lemma progress_sent_is_never_negative_witness :
  parses_zero Examples.float_of_decimal
  /\ get_manga_info Examples.float_of_decimal MoreExamples.srv_history
                    ["id4"] (Some [("id4", "reading")])
     = Ok [MoreExamples.item_b_enriched]
  /\ variables_of Examples.float_of_decimal Examples.int_of_decimal
                  MoreExamples.item_b_enriched
     = Ok [("mediaId", JInt 44); ("status", JStr "CURRENT");
           ("score", JFloat (FFin (inject_Z 7))); ("progress", JInt 0);
           ("progressVolumes", JInt 2)]
  /\ (0 <= 0)%Z.
Proof.
  assert (H0 : parses_zero Examples.float_of_decimal) by reflexivity.
  assert (H1 : get_manga_info Examples.float_of_decimal MoreExamples.srv_history
                              ["id4"] (Some [("id4", "reading")])
               = Ok [MoreExamples.item_b_enriched]) by reflexivity.
  assert (H2 : variables_of Examples.float_of_decimal Examples.int_of_decimal
                            MoreExamples.item_b_enriched
               = Ok [("mediaId", JInt 44); ("status", JStr "CURRENT");
                     ("score", JFloat (FFin (inject_Z 7))); ("progress", JInt 0);
                     ("progressVolumes", JInt 2)]) by reflexivity.
  split; [exact H0|]. split; [exact H1|]. split; [exact H2|].
  exact (progress_sent_is_never_negative _ _ _ _ _ _ _ _ 0%Z H0 H1
           (or_introl eq_refl) H2 (or_introl eq_refl)).
Defined.

(** ** main.py: the XML export and its secondary sink *)

Lemma main_mutations_all int_of_string post :
  forall (todo : list manga) (posted : list (dict jvalue)),
    (forall m, In m todo -> truthy (al_id_of m) = true) ->
    MainRest.mutations int_of_string post todo = (posted, None) ->
    length posted = length todo.
Proof.
  induction todo as [|m rest IH]; intros posted Hal H.
  - now injection H as <-.
  - simpl in H. rewrite (Hal m (or_introl eq_refl)) in H. simpl in H.
    destruct (MainRest.mutation_variables int_of_string m (al_id_of m))
      as [variables|e]; [|discriminate].
    destruct (post variables); [discriminate|].
    destruct (MainRest.mutations int_of_string post rest) as [posted' e] eqn:E.
    injection H as <- ->. simpl. f_equal. apply IH; [|reflexivity].
    intros x Hx. apply Hal. now right.
Qed.

(** X20.  main.py, answer [y]: when the remote import of the unlisted
    items returns, every item of the library is accounted for once, as
    an entry of the XML document, as a mutation sent, or as a row handed
    to the CSV export. *)
Theorem main_py_accounts_for_every_item :
  forall (serialize : MainRest.element -> option exn)
         (int_of_string : string -> option Z)
         (post : dict jvalue -> option exn) (authorize : option exn)
         (manga_info_list : list manga) (answer : string)
         (unlisted : list manga) (posted : list (dict jvalue))
         (calls : list sink_call),
    snd (MainRest.export_manga_list_to_xml serialize manga_info_list answer)
    = Ok (SyncToAnilist unlisted) ->
    MainRest.sync_unlisted_to_anilist int_of_string post authorize unlisted
    = (posted, Ok calls) ->
    (length (MainRest.manga_elements
               (fst (MainRest.export_manga_list_to_xml serialize
                       manga_info_list answer)))
     + length posted + length (csv_items calls)
     = length manga_info_list)%nat.
Proof.
  intros serialize ios post authorize l answer unlisted posted calls
         Hsink Hsync.
  rewrite main_manga_elements_export, length_map.
  assert (Hu : unlisted = filter lacks_mal l).
  { pose proof (main_export_outcome serialize l answer) as Ho.
    cbv zeta in Ho. rewrite Hsink in Ho. now destruct Ho as [_ [Ho _]]. }
  pose proof (filter_lengths has_mal l) as Hl.
  change (fun x => negb (has_mal x)) with lacks_mal in Hl. rewrite <- Hu in Hl.
  pose proof (filter_lengths (fun m => truthy (al_id_of m)) unlisted) as Ha.
  unfold MainRest.sync_unlisted_to_anilist in Hsync.
  destruct (filter (fun m => truthy (al_id_of m)) unlisted) as [|m w] eqn:Hw.
  - injection Hsync as <- <-. unfold csv_items. simpl.
    rewrite app_nil_r. simpl in Ha. lia.
  - destruct authorize as [e|]; [discriminate|].
    destruct (MainRest.mutations ios post (m :: w)) as [posted' [e|]] eqn:Hm;
      [discriminate|].
    injection Hsync as <- <-.
    apply main_mutations_all in Hm.
    + rewrite Hm.
      destruct (filter (fun m0 => negb (truthy (al_id_of m0))) unlisted);
        unfold csv_items; simpl in *; rewrite ?app_nil_r; lia.
    + intros x Hx. rewrite <- Hw in Hx. now apply filter_In in Hx.
Qed.

Lemma main_py_accounts_for_every_item_witness :
  (length (MainRest.manga_elements
             (fst (MainRest.export_manga_list_to_xml
                     MoreExamples.main_writes_all
                     [Examples.item1; MoreExamples.item_b;
                      MoreExamples.item_none] "y")))
   + length [[("mediaId", JInt 44); ("status", JStr "CURRENT")]]
   + length (csv_items [ExportUnlinkedCsv [MoreExamples.item_none]
                                          "export/unlisted_by_MAL_&_AL.csv"])
   = length [Examples.item1; MoreExamples.item_b; MoreExamples.item_none])%nat.
Proof.
  apply (main_py_accounts_for_every_item MoreExamples.main_writes_all
           Examples.int_of_decimal Examples.post_accepted
           MoreExamples.authorized
           [Examples.item1; MoreExamples.item_b; MoreExamples.item_none] "y"
           [MoreExamples.item_b; MoreExamples.item_none]).
  - reflexivity.
  - reflexivity.
Defined.

End SinkMore.


(* ===================================================================== *)
(** * The menus                                                          *)
(* ===================================================================== *)

Module MenuFacts.
Import Py Http Main2 Props MoreProps MainRest Main2Rest.










(** Choice 2 of main2.py, printed as the XML export, writes the JSON
    file; choice 4, printed as the CSV export, writes nothing. *)
Example main2_menu_choices_2_and_4 :
  Main2Rest.menu_label "2" = Some Xml
  /\ Main2Rest.menu_round ["2"] EmptyString = Fetch false [Json]
  /\ Main2Rest.menu_label "4" = Some Csv
  /\ Main2Rest.menu_round ["4"] EmptyString = Fetch false [].
Proof. repeat split. Qed.

End MenuFacts.
